(** * EPR verification settlement engine: a shallow embedding

    This development embeds the Go backend of the EPR bill-verification
    platform and states its specification against the embedding.

    Sources embedded
    - [internal/models]: [User], [Bill], [Verification], [VerifyBillResponse]
    - [config/config.go]: [PricingConfig]
    - [internal/repository]: [GetByID], [UpdateWalletBalance],
      [IncrementVerificationCount], [GetByBillNumber], [Create]
    - [internal/services/verification_service.go]: [VerifyBill],
      [calculatePrice], [determineAccessLevel], [buildVerificationResponse],
      [getRevealedFields], [recordVerification]
    - [internal/services] (bill service): [canAccessBill]
    - [internal/utils/hash.go]: [normalizeJSON], [GenerateBillHash],
      [VerifyBillHash]

    Modelling conventions
    - Currency amounts are read twice.  Where a property turns on the value
      of an amount, amounts are what the program holds: [float64] is the
      IEEE-754 double (Rocq's primitive [float]) and a [DECIMAL(p,2)] column
      rounds what is written to it ([calculatePrice64], [settle64],
      [toNumeric]).  Where a property turns on which branch is taken, which
      rows are touched or the sign of a balance, amounts are exact rationals
      ([Q]) and the columns keep them as written ([calculatePrice],
      [settle], [VerifyBill]); equalities on such amounts are stated with
      [==].
    - Go [int] / SQL [INTEGER] counters are unbounded integers ([Z]).
    - Go string-typed enums ([UserRole], [AccessLevel], ...) stay strings, so
      every fall-through branch of the source is present in the model.
    - The PostgreSQL store is an explicit value [DB] threaded through every
      call: the [users] table is a finite map keyed by the primary key, the
      [bills] table a list of rows, the [verifications] table an append-only
      list.  A query fails only for the logical reason visible in the source
      (no matching row); connection failures, column constraints and
      generated columns (ids, timestamps) are outside the model.
    - Calls are sequential: one [VerifyBill] runs to completion before the
      next one starts. *)

From Stdlib Require Import ZArith QArith Qminmax List String Ascii Bool Lia Lqa.
From Stdlib Require Import Permutation Sorted Floats.
From stdpp Require Import gmap strings sorting.
Import ListNotations.

Set Warnings "-register-all".

Local Open Scope string_scope.

(* ===================================================================== *)
(** * Results of fallible calls                                            *)
(* ===================================================================== *)

(** The Go [error] values the modelled functions produce.  The formatted
    message of [fmt.Errorf] is replaced by a constructor that carries the
    formatted arguments. *)
Inductive error : Type :=
| UserNotFound                                   (* "user not found" *)
| BillNotFound                                   (* "bill not found" *)
| FailedToIncrementVerificationCount             (* Scan on an empty RETURNING *)
| FailedToGetUser (cause : error)                (* "failed to get user: %w" *)
| InsufficientWalletBalance (required available : Q)
    (* "insufficient wallet balance. Required: ..., Available: ..." *)
| FailedToDeductWalletBalance (cause : error)    (* "failed to deduct wallet balance: %w" *)
| EncodingError.                                 (* json.Marshal failure *)

Inductive result (A : Type) : Type :=
| Ok (a : A)
| Err (e : error).
Arguments Ok {A} a.
Arguments Err {A} e.

(* ===================================================================== *)
(** * internal/models                                                      *)
(* ===================================================================== *)

Definition UserRole := string.
Definition RolePublic : UserRole := "public".
Definition RoleInstitutionUser : UserRole := "institution_user".
Definition RoleInstitutionAdmin : UserRole := "institution_admin".
Definition RoleVerifier : UserRole := "verifier".
Definition RoleMasterAdmin : UserRole := "master_admin".

Definition AccessLevel := string.
Definition AccessLevelPublic : AccessLevel := "public".
Definition AccessLevelRestricted : AccessLevel := "restricted".
Definition AccessLevelGovernment : AccessLevel := "government".
Definition AccessLevelFinancial : AccessLevel := "financial".

Definition VerificationStatus := string.
Definition VerificationValid : VerificationStatus := "valid".
Definition VerificationInvalid : VerificationStatus := "invalid".
Definition VerificationSuspicious : VerificationStatus := "suspicious".
Definition VerificationNotFound : VerificationStatus := "not_found".
Definition VerificationRestricted : VerificationStatus := "restricted".

(** [models.User]: the columns the settlement engine reads or writes.  The
    primary key is the key of the [users] table. *)
Module User.
Record t : Type := mk {
  Role : UserRole;
  WalletBalance : Q;
  VerificationCount : Z;
  FreeVerificationsEarned : Z;
  IsActive : bool
}.
End User.

(** [models.Bill]. *)
Module Bill.
Record t : Type := mk {
  ID : string;
  BillNumber : string;
  BillType : string;
  AccessLevel : AccessLevel;
  IssuerID : string;
  IssuerName : string;
  BillData : string;          (* json.RawMessage *)
  Amount : Q;
  Currency : string;
  IssueDate : string;         (* already formatted as 2006-01-02 *)
  IsDeleted : bool
}.
End Bill.

(** [models.Verification]: one row of the audit table. *)
Module Verification.
Record t : Type := mk {
  BillID : option string;
  BillNumber : string;
  VerifierID : option string;
  VerifierIP : option string;
  VerifierUserAgent : option string;
  AccessLevelUsed : AccessLevel;
  DataRevealed : option (list (string * list string));
  AmountCharged : Q;
  WasFree : bool;
  PricingRuleApplied : string;
  VerificationStatus : VerificationStatus;
  BlockchainVerified : bool;
  ResponseTimeMs : Z
}.
End Verification.

(** The [Details] field of [models.VerifyBillResponse]: absent, the decoded
    bill payload, or the two-entry map of the limited view. *)
Inductive details (Payload : Type) : Type :=
| NoDetails
| FullDetails (billData : Payload)
| LimitedDetails (amount : Q) (currency : string).
Arguments NoDetails {Payload}.
Arguments FullDetails {Payload} billData.
Arguments LimitedDetails {Payload} amount currency.

(** [models.VerifyBillResponse]. *)
Module VerifyBillResponse.
Record t (Payload : Type) : Type := mk {
  Success : bool;
  BillNumber : string;
  Status : string;            (* valid, invalid, restricted *)
  IssuerName : string;
  IssueDate : string;
  BillType : string;
  Message : string;
  Details : details Payload;
  Fee : Q
}.
Arguments mk {Payload}.
Arguments Success {Payload}.
Arguments BillNumber {Payload}.
Arguments Status {Payload}.
Arguments IssuerName {Payload}.
Arguments IssueDate {Payload}.
Arguments BillType {Payload}.
Arguments Message {Payload}.
Arguments Details {Payload}.
Arguments Fee {Payload}.
End VerifyBillResponse.

(* ===================================================================== *)
(** * config/config.go                                                     *)
(* ===================================================================== *)

Record PricingConfig : Type := mkPricingConfig {
  BillGenerationFee : Q;
  VerificationMinFee : Q;
  VerificationMaxFee : Q;
  VerificationPercentage : Q;
  LoyaltyFreeEveryN : Z
}.

Record Config : Type := mkConfig { Pricing : PricingConfig }.

(** The defaults [Load] uses when the environment sets nothing. *)
Definition defaultPricing : PricingConfig :=
  {| BillGenerationFee := 1 # 2;
     VerificationMinFee := 1;
     VerificationMaxFee := 10;
     VerificationPercentage := 1 # 100;
     LoyaltyFreeEveryN := 10 |}.

Definition defaultConfig : Config := {| Pricing := defaultPricing |}.

(* ===================================================================== *)
(** * internal/repository                                                  *)
(* ===================================================================== *)

Record DB : Type := mkDB {
  users : gmap string User.t;
  bills : list Bill.t;
  verifications : list Verification.t
}.

Definition with_users (db : DB) (us : gmap string User.t) : DB :=
  {| users := us; bills := bills db; verifications := verifications db |}.

(** [UserRepository.GetByID]:
    [SELECT * FROM users WHERE id = $1 AND is_active = true]. *)
Definition GetByID (db : DB) (id : string) : result User.t :=
  match users db !! id with
  | Some u => if User.IsActive u then Ok u else Err UserNotFound
  | None => Err UserNotFound
  end.

(** [UserRepository.UpdateWalletBalance]:
    [UPDATE users SET wallet_balance = $1 WHERE id = $2]; zero affected rows
    is "user not found".  The value is kept as written;
    [UpdateWalletBalance64] is the same statement with the rounding and the
    refusals of the column. *)
Definition UpdateWalletBalance (db : DB) (userID : string) (newBalance : Q)
  : result DB :=
  match users db !! userID with
  | Some u =>
      Ok (with_users db
            (<[userID := {| User.Role := User.Role u;
                            User.WalletBalance := newBalance;
                            User.VerificationCount := User.VerificationCount u;
                            User.FreeVerificationsEarned := User.FreeVerificationsEarned u;
                            User.IsActive := User.IsActive u |}]> (users db)))
  | None => Err UserNotFound
  end.

(** [UserRepository.IncrementVerificationCount]: inside one transaction,
    bump [verification_count], read it back, and when the new count is a
    multiple of ten bump [free_verifications_earned].  The returned store is
    the committed one; on failure the transaction rolls back. *)
Definition IncrementVerificationCount (db : DB) (userID : string)
  : result bool * DB :=
  match users db !! userID with
  | None => (Err FailedToIncrementVerificationCount, db)
  | Some u =>
      let newCount := (User.VerificationCount u + 1)%Z in
      let earnedFree := (Z.rem newCount 10 =? 0)%Z in
      let u' := {| User.Role := User.Role u;
                   User.WalletBalance := User.WalletBalance u;
                   User.VerificationCount := newCount;
                   User.FreeVerificationsEarned :=
                     if earnedFree
                     then (User.FreeVerificationsEarned u + 1)%Z
                     else User.FreeVerificationsEarned u;
                   User.IsActive := User.IsActive u |} in
      (Ok earnedFree, with_users db (<[userID := u']> (users db)))
  end.

(** [BillRepository.GetByBillNumber]:
    [SELECT * FROM bills WHERE bill_number = $1 AND is_deleted = false]. *)
Definition GetByBillNumber (db : DB) (billNumber : string) : result Bill.t :=
  match find (fun b => String.eqb (Bill.BillNumber b) billNumber
                       && negb (Bill.IsDeleted b)) (bills db) with
  | Some b => Ok b
  | None => Err BillNotFound
  end.

(** [VerificationRepository.Create]: append one audit row.  The insert is
    taken as accepted.  When the table refuses a row (a bill number longer
    than [VARCHAR(50)], a foreign key), [recordVerification] drops the error
    and the table is as it was; what is stated of the audit rows of a call
    allows for both. *)
Definition Create (db : DB) (verification : Verification.t) : DB :=
  {| users := users db;
     bills := bills db;
     verifications := verifications db ++ [verification] |}.

(* ===================================================================== *)
(** * internal/services/verification_service.go                            *)
(* ===================================================================== *)

(** Go's [x < y] on amounts. *)
Definition Qltb (x y : Q) : bool := negb (Qle_bool y x).

(** [calculatePrice]: the loyalty short-circuit, the damped percentage, the
    first clamp with its label, the tier adjustment, the final bounds. *)
Definition calculatePrice (cfg : Config) (db : DB) (userID : option string)
    (billAmount : Q) (accessLevel : AccessLevel) : Q * bool * string :=
  let loyal :=
    match userID with
    | Some id =>
        match GetByID db id with
        | Ok user => (0 <? User.FreeVerificationsEarned user)%Z
        | Err _ => false
        end
    | None => false
    end in
  if loyal then (0%Q, true, "loyalty_free")
  else
    let percentagePrice := (billAmount * VerificationPercentage (Pricing cfg))%Q in
    let percentagePrice := (percentagePrice * (1 # 2))%Q in
    let minFee := VerificationMinFee (Pricing cfg) in
    let maxFee := VerificationMaxFee (Pricing cfg) in
    let '(finalPrice, pricingRule) :=
      if Qltb percentagePrice minFee then (minFee, "minimum_fee")
      else if Qltb maxFee percentagePrice then (maxFee, "maximum_fee_capped")
      else (percentagePrice, "percentage_1_percent") in
    let '(finalPrice, pricingRule) :=
      if String.eqb accessLevel AccessLevelRestricted
      then ((finalPrice * (3 # 2))%Q, "restricted_access_premium")
      else if String.eqb accessLevel AccessLevelGovernment
              || String.eqb accessLevel AccessLevelFinancial
      then (maxFee, "government_financial_premium")
      else (finalPrice, pricingRule) in
    let finalPrice := if Qltb finalPrice minFee then minFee else finalPrice in
    let finalPrice := if Qltb maxFee finalPrice then maxFee else finalPrice in
    (finalPrice, false, pricingRule).

(** [determineAccessLevel]: the requester's role against the bill's tier. *)
Definition determineAccessLevel (userRole : UserRole) (bill : Bill.t) : string :=
  if String.eqb (Bill.AccessLevel bill) AccessLevelPublic then "full"
  else if String.eqb (Bill.AccessLevel bill) AccessLevelRestricted then
    if String.eqb userRole RoleInstitutionUser
       || String.eqb userRole RoleInstitutionAdmin
       || String.eqb userRole RoleVerifier
       || String.eqb userRole RoleMasterAdmin
    then "full" else "limited"
  else if String.eqb (Bill.AccessLevel bill) AccessLevelGovernment
          || String.eqb (Bill.AccessLevel bill) AccessLevelFinancial then
    if String.eqb userRole RoleVerifier || String.eqb userRole RoleMasterAdmin
    then "full" else "none"
  else "limited".

(** [BillService.canAccessBill] (bill service): the access check of the
    fetch-by-id path, which starts with the owner and the master admin. *)
Definition canAccessBill (userID : string) (userRole : UserRole) (bill : Bill.t)
  : bool :=
  if String.eqb (Bill.IssuerID bill) userID then true
  else if String.eqb userRole RoleMasterAdmin then true
  else if String.eqb (Bill.AccessLevel bill) AccessLevelPublic then true
  else if String.eqb (Bill.AccessLevel bill) AccessLevelRestricted
          && (String.eqb userRole RoleInstitutionUser
              || String.eqb userRole RoleInstitutionAdmin
              || String.eqb userRole RoleVerifier) then true
  else if String.eqb (Bill.AccessLevel bill) AccessLevelGovernment
          && String.eqb userRole RoleVerifier then true
  else if String.eqb (Bill.AccessLevel bill) AccessLevelFinancial
          && String.eqb userRole RoleVerifier then true
  else false.

(** [getRevealedFields]: the disclosure summary stored with the audit row. *)
Definition getRevealedFields (accessLevel : string) : list (string * list string) :=
  if String.eqb accessLevel "full" then
    [("fields_shown", ["all"]); ("fields_hidden", [])]
  else if String.eqb accessLevel "limited" then
    [("fields_shown", ["bill_number"; "issuer_name"; "issue_date"; "bill_type"; "amount"]);
     ("fields_hidden", ["recipient_details"; "line_items"; "sensitive_data"])]
  else if String.eqb accessLevel "none" then
    [("fields_shown", ["bill_number"; "issuer_name"; "bill_type"]);
     ("fields_hidden", ["all_details"])]
  else [].

(** [recordVerification]: derive the access level from the requester's role
    and insert the audit row. *)
Definition recordVerification (db : DB) (userID billID : option string)
    (billNumber : string) (fee : Q) (wasFree : bool)
    (status : VerificationStatus)
    (dataRevealed : option (list (string * list string)))
    (ip userAgent : string) (responseTime : Z) : DB :=
  let accessLevel :=
    match userID with
    | Some id =>
        match GetByID db id with
        | Ok user =>
            if String.eqb (User.Role user) RoleVerifier then AccessLevelGovernment
            else if String.eqb (User.Role user) RoleInstitutionUser
                    || String.eqb (User.Role user) RoleInstitutionAdmin
            then AccessLevelRestricted
            else AccessLevelPublic
        | Err _ => AccessLevelPublic
        end
    | None => AccessLevelPublic
    end in
  Create db
    {| Verification.BillID := billID;
       Verification.BillNumber := billNumber;
       Verification.VerifierID := userID;
       Verification.VerifierIP := Some ip;
       Verification.VerifierUserAgent := Some userAgent;
       Verification.AccessLevelUsed := accessLevel;
       Verification.DataRevealed := dataRevealed;
       Verification.AmountCharged := fee;
       Verification.WasFree := wasFree;
       Verification.PricingRuleApplied := "standard";
       Verification.VerificationStatus := status;
       Verification.BlockchainVerified := false;
       Verification.ResponseTimeMs := responseTime |}.

(** The wallet block of [VerifyBill] (the body of
    [if userID != nil && !wasFree]): read the user, compare the balance with
    the fee, write the debited balance, bump the verification count.  A
    failure of the count update is logged and does not fail the call. *)
Definition settle (db : DB) (userID : string) (fee : Q) : result DB :=
  match GetByID db userID with
  | Err e => Err (FailedToGetUser e)
  | Ok user =>
      if Qltb (User.WalletBalance user) fee
      then Err (InsufficientWalletBalance fee (User.WalletBalance user))
      else
        let newBalance := (User.WalletBalance user - fee)%Q in
        match UpdateWalletBalance db userID newBalance with
        | Err e => Err (FailedToDeductWalletBalance e)
        | Ok db1 => Ok (snd (IncrementVerificationCount db1 userID))
        end
  end.

Section VerificationService.

(** [json.Unmarshal] of the stored payload into a Go map is a collaborator
    of the service; the decoded map is kept abstract. *)
Variable Payload : Type.
Variable Unmarshal : string -> option Payload.

(** [buildVerificationResponse]. *)
Definition buildVerificationResponse (bill : Bill.t) (accessLevel : string)
    (fee : Q) : VerifyBillResponse.t Payload :=
  let base (status message : string) (d : details Payload) :=
    {| VerifyBillResponse.Success := true;
       VerifyBillResponse.BillNumber := Bill.BillNumber bill;
       VerifyBillResponse.Status := status;
       VerifyBillResponse.IssuerName := Bill.IssuerName bill;
       VerifyBillResponse.IssueDate := Bill.IssueDate bill;
       VerifyBillResponse.BillType := Bill.BillType bill;
       VerifyBillResponse.Message := message;
       VerifyBillResponse.Details := d;
       VerifyBillResponse.Fee := fee |} in
  let valid := "This bill is registered and verified in the EPR system." in
  if String.eqb accessLevel "full" then
    match Unmarshal (Bill.BillData bill) with
    | Some billData => base "valid" valid (FullDetails billData)
    | None => base "valid" valid NoDetails
    end
  else if String.eqb accessLevel "limited" then
    base "valid" valid (LimitedDetails (Bill.Amount bill) (Bill.Currency bill))
  else if String.eqb accessLevel "none" then
    base "restricted"
      "This bill requires institutional verifier access to view full details."
      NoDetails
  else base "valid" valid NoDetails.

Definition with_status_message (r : VerifyBillResponse.t Payload)
    (status message : string) : VerifyBillResponse.t Payload :=
  {| VerifyBillResponse.Success := VerifyBillResponse.Success r;
     VerifyBillResponse.BillNumber := VerifyBillResponse.BillNumber r;
     VerifyBillResponse.Status := status;
     VerifyBillResponse.IssuerName := VerifyBillResponse.IssuerName r;
     VerifyBillResponse.IssueDate := VerifyBillResponse.IssueDate r;
     VerifyBillResponse.BillType := VerifyBillResponse.BillType r;
     VerifyBillResponse.Message := message;
     VerifyBillResponse.Details := VerifyBillResponse.Details r;
     VerifyBillResponse.Fee := VerifyBillResponse.Fee r |}.

(** [VerifyBill].  [elapsed] is the reading of
    [time.Since(startTime).Milliseconds()] stored with the audit row. *)
Definition VerifyBill (cfg : Config) (db : DB) (userID : option string)
    (billNumber ip userAgent : string) (userRole : UserRole) (elapsed : Z)
  : result (VerifyBillResponse.t Payload) * DB :=
  match GetByBillNumber db billNumber with
  | Err _ =>
      let response :=
        {| VerifyBillResponse.Success := true;
           VerifyBillResponse.BillNumber := billNumber;
           VerifyBillResponse.Status := "invalid";
           VerifyBillResponse.IssuerName := "";
           VerifyBillResponse.IssueDate := "";
           VerifyBillResponse.BillType := "";
           VerifyBillResponse.Message :=
             "This bill is not registered in the EPR system. It may be fake.";
           VerifyBillResponse.Details := NoDetails;
           VerifyBillResponse.Fee := VerificationMinFee (Pricing cfg) |} in
      let db :=
        match userID with
        | Some _ =>
            recordVerification db userID None billNumber
              (VerifyBillResponse.Fee response) false VerificationNotFound
              None ip userAgent elapsed
        | None => db
        end in
      (Ok response, db)
  | Ok bill =>
      let accessLevel := determineAccessLevel userRole bill in
      let '(fee, wasFree, _) :=
        calculatePrice cfg db userID (Bill.Amount bill) (Bill.AccessLevel bill) in
      let settled :=
        match userID with
        | Some id => if negb wasFree then settle db id fee else Ok db
        | None => Ok db
        end in
      match settled with
      | Err e => (Err e, db)
      | Ok db =>
          let response := buildVerificationResponse bill accessLevel fee in
          let dataRevealed := getRevealedFields accessLevel in
          let restricted := String.eqb accessLevel "none" in
          let verificationStatus :=
            if restricted then VerificationRestricted else VerificationValid in
          let response :=
            if restricted
            then with_status_message response "restricted"
                   "This bill requires institutional access to view full details."
            else response in
          let db :=
            match userID with
            | Some _ =>
                recordVerification db userID (Some (Bill.ID bill)) billNumber
                  fee wasFree verificationStatus (Some dataRevealed)
                  ip userAgent elapsed
            | None => db
            end in
          (Ok response, db)
      end
  end.

End VerificationService.

Arguments buildVerificationResponse {Payload} Unmarshal bill accessLevel fee.
Arguments VerifyBill {Payload} Unmarshal cfg db userID billNumber ip userAgent userRole elapsed.

(* ===================================================================== *)
(** * internal/utils/hash.go                                               *)
(* ===================================================================== *)

(** [sort.Strings]: ascending byte-wise lexicographic order. *)
Definition sort_Strings (keys : list string) : list string :=
  merge_sort String.le keys.

(** A Go [map[string]V] is a list of entries with pairwise distinct keys;
    the order of the list is the order in which [range] happens to yield the
    entries, which Go leaves unspecified. *)
Fixpoint mapGet {V : Type} (m : list (string * V)) (k : string) : option V :=
  match m with
  | [] => None
  | (k', x) :: rest => if String.eqb k' k then Some x else mapGet rest k
  end.

(** [m[k] = x]: overwrite the entry of [k], or add one. *)
Fixpoint mapSet {V : Type} (m : list (string * V)) (k : string) (x : V)
  : list (string * V) :=
  match m with
  | [] => [(k, x)]
  | (k', y) :: rest =>
      if String.eqb k' k then (k, x) :: rest else (k', y) :: mapSet rest k x
  end.

(** [hex.EncodeToString]. *)
Definition hexDigit (n : N) : ascii :=
  match String.get (N.to_nat n) "0123456789abcdef" with
  | Some c => c
  | None => "0"%char
  end.

Definition EncodeToString (src : list Byte.byte) : string :=
  fold_right
    (fun b acc =>
       String (hexDigit (Byte.to_N b / 16))
         (String (hexDigit (Byte.to_N b mod 16)) acc))
    "" src.

Definition joinWith (sep : string) (parts : list string) : string :=
  match parts with
  | [] => ""
  | p :: rest => fold_left (fun acc q => (acc ++ sep ++ q)%string) rest p
  end.

Fixpoint allSome {A : Type} (l : list (option A)) : option (list A) :=
  match l with
  | [] => Some []
  | Some a :: rest => option_map (cons a) (allSome rest)
  | None :: _ => None
  end.

Section Hash.

(** The Go values stored under [interface{}] that are neither a
    [map[string]interface{}] nor a [[]interface{}] (strings, numbers,
    booleans, nil, ...).  [normalizeJSON] passes them through. *)
Variable Prim : Type.

(** [encoding/json] and [crypto/sha256] are library collaborators:
    [marshalPrim] is the encoding of a leaf ([None] when the value has no
    JSON representation), [marshalKey] the quoted form of an object key,
    [Sum256] the digest. *)
Variable marshalPrim : Prim -> option string.
Variable marshalKey : string -> string.
Variable Sum256 : string -> list Byte.byte.

Inductive JSON : Type :=
| JPrim (v : Prim)
| JArray (items : list JSON)
| JMap (entries : list (string * JSON)).

(** [normalizeJSON]: collect the keys, sort them, and fill a fresh map in
    that order with the normalized values; arrays are normalized element
    by element; everything else is returned as it is.  The recursive call
    on [v[k]] is taken on every entry first and looked up afterwards. *)
Fixpoint normalizeJSON (data : JSON) : JSON :=
  match data with
  | JMap v =>
      let keys := map fst v in
      let keys := sort_Strings keys in
      let values := map (fun e => (fst e, normalizeJSON (snd e))) v in
      JMap (fold_left
              (fun normalized k =>
                 match mapGet values k with
                 | Some x => mapSet normalized k x
                 | None => normalized
                 end)
              keys [])
  | JArray v => JArray (map normalizeJSON v)
  | JPrim _ => data
  end.

(** [json.Marshal]: objects are written with their keys sorted. *)
Fixpoint Marshal (v : JSON) : option string :=
  match v with
  | JPrim p => marshalPrim p
  | JArray items =>
      option_map (fun parts => ("[" ++ joinWith "," parts ++ "]")%string)
        (allSome (map Marshal items))
  | JMap entries =>
      let encoded := map (fun e => (fst e, Marshal (snd e))) entries in
      let sorted :=
        merge_sort (fun e1 e2 => String.le (fst e1) (fst e2)) encoded in
      option_map (fun parts => ("{" ++ joinWith "," parts ++ "}")%string)
        (allSome
           (map (fun e => option_map
                            (fun s => (marshalKey (fst e) ++ ":" ++ s)%string) (snd e))
                sorted))
  end.

(** [GenerateBillHash]. *)
Definition GenerateBillHash (data : list (string * JSON)) : result string :=
  let normalized := normalizeJSON (JMap data) in
  match Marshal normalized with
  | None => Err EncodingError
  | Some jsonBytes =>
      let hash := Sum256 jsonBytes in
      Ok (EncodeToString hash)
  end.

(** [VerifyBillHash]. *)
Definition VerifyBillHash (data : list (string * JSON)) (expectedHash : string)
  : result bool :=
  match GenerateBillHash data with
  | Err e => Err e
  | Ok calculatedHash => Ok (String.eqb calculatedHash expectedHash)
  end.

(** Equality of documents as unordered-key trees: equal leaves, arrays
    equal position by position, maps equal after a reordering of the
    entries.  Maps are Go maps: their keys are pairwise distinct. *)
Inductive tree_eq : JSON -> JSON -> Prop :=
| tree_eq_prim (v : Prim) : tree_eq (JPrim v) (JPrim v)
| tree_eq_array (l l' : list JSON) :
    Forall2 tree_eq l l' -> tree_eq (JArray l) (JArray l')
| tree_eq_map (m p m' : list (string * JSON)) :
    NoDup (map fst m) ->
    Permutation m p ->
    Forall2 (fun e e' => fst e = fst e' /\ tree_eq (snd e) (snd e')) p m' ->
    tree_eq (JMap m) (JMap m').

Fixpoint size (d : JSON) : nat :=
  match d with
  | JPrim _ => 1
  | JArray items => S (fold_right (fun x n => size x + n) 0 items)
  | JMap entries => S (fold_right (fun e n => size (snd e) + n) 0 entries)
  end.

End Hash.

Arguments JPrim {Prim} v.
Arguments JArray {Prim} items.
Arguments JMap {Prim} entries.
Arguments normalizeJSON {Prim} data.
Arguments Marshal {Prim} marshalPrim marshalKey v.
Arguments GenerateBillHash {Prim} marshalPrim marshalKey Sum256 data.
Arguments VerifyBillHash {Prim} marshalPrim marshalKey Sum256 data expectedHash.
Arguments tree_eq {Prim} _ _.
Arguments size {Prim} d.

(** The loop of [normalizeJSON] that fills the fresh map: for each key in
    order, store the value found under it. *)
Definition fillInOrder {V : Type} (keys : list string) (values : list (string * V))
  : list (string * V) :=
  fold_left
    (fun normalized k =>
       match mapGet values k with
       | Some x => mapSet normalized k x
       | None => normalized
       end)
    keys [].

(** The entries of a map with each value normalized. *)
Definition normalizedEntries {Prim : Type} (m : list (string * JSON Prim))
  : list (string * JSON Prim) :=
  map (fun e => (fst e, normalizeJSON (snd e))) m.

(** The order [json.Marshal] sorts the entries of an object by. *)
Definition byKey {V : Type} : relation (string * V) :=
  fun e1 e2 => String.le (fst e1) (fst e2).

(** Fixtures for the hasher: leaves are texts written between quotes, the
    digest stand-in returns the bytes of its input. *)
Definition quoted (s : string) : string := ("'" ++ s ++ "'")%string.
Definition quotedLeaf (s : string) : option string := Some (quoted s).
Definition bytesOf (s : string) : list Byte.byte := list_byte_of_string s.

Definition invoiceDoc : list (string * JSON string) :=
  [("amount", JPrim "1000");
   ("lines", JArray [JMap [("sku", JPrim "A1"); ("qty", JPrim "2")]]);
   ("currency", JPrim "INR")].

Definition invoiceDocReordered : list (string * JSON string) :=
  [("currency", JPrim "INR");
   ("amount", JPrim "1000");
   ("lines", JArray [JMap [("qty", JPrim "2"); ("sku", JPrim "A1")]])].

(* ===================================================================== *)
(** * Specification-side definitions and fixtures                          *)
(* ===================================================================== *)

(** The wallet balance of a user as stored (zero when there is no row). *)
Definition balanceOf (db : DB) (userID : string) : Q :=
  match users db !! userID with
  | Some u => User.WalletBalance u
  | None => 0%Q
  end.

(** The loyalty test of [calculatePrice]: the requester is known, active,
    and has [free_verifications_earned] above zero. *)
Definition hasFreeCredit (db : DB) (userID : option string) : bool :=
  match userID with
  | Some id =>
      match GetByID db id with
      | Ok user => (0 <? User.FreeVerificationsEarned user)%Z
      | Err _ => false
      end
  | None => false
  end.

(** The row of a user after one accepted settlement of [fee]. *)
Definition settledUser (u : User.t) (fee : Q) : User.t :=
  {| User.Role := User.Role u;
     User.WalletBalance := (User.WalletBalance u - fee)%Q;
     User.VerificationCount := (User.VerificationCount u + 1)%Z;
     User.FreeVerificationsEarned :=
       if (Z.rem (User.VerificationCount u + 1) 10 =? 0)%Z
       then (User.FreeVerificationsEarned u + 1)%Z
       else User.FreeVerificationsEarned u;
     User.IsActive := User.IsActive u |}.

(** The pricing rule as the specification words it: clamp the damped
    percentage into the fee band, then apply the tier step. *)
Definition spec_clamp (lo hi x : Q) : Q := Qmax lo (Qmin hi x).

Definition spec_base (cfg : Config) (billAmount : Q) : Q :=
  (billAmount * VerificationPercentage (Pricing cfg) * (1 # 2))%Q.

Definition spec_fee (cfg : Config) (billAmount : Q) (tier : AccessLevel) : Q :=
  let minFee := VerificationMinFee (Pricing cfg) in
  let maxFee := VerificationMaxFee (Pricing cfg) in
  let clamped := spec_clamp minFee maxFee (spec_base cfg billAmount) in
  if decide (tier = AccessLevelRestricted)
  then spec_clamp minFee maxFee (clamped * (3 # 2))%Q
  else if decide (tier = AccessLevelGovernment \/ tier = AccessLevelFinancial)
  then maxFee
  else clamped.

Definition spec_label (cfg : Config) (billAmount : Q) (tier : AccessLevel)
  : string :=
  let minFee := VerificationMinFee (Pricing cfg) in
  let maxFee := VerificationMaxFee (Pricing cfg) in
  if decide (tier = AccessLevelRestricted) then "restricted_access_premium"
  else if decide (tier = AccessLevelGovernment \/ tier = AccessLevelFinancial)
  then "government_financial_premium"
  else if Qlt_le_dec (spec_base cfg billAmount) minFee then "minimum_fee"
  else if Qlt_le_dec maxFee (spec_base cfg billAmount) then "maximum_fee_capped"
  else "percentage_1_percent".

(** Fixtures. *)
Definition mkBill (id number : string) (tier : AccessLevel) (issuer : string)
    (amount : Q) : Bill.t :=
  {| Bill.ID := id;
     Bill.BillNumber := number;
     Bill.BillType := "sales_invoice";
     Bill.AccessLevel := tier;
     Bill.IssuerID := issuer;
     Bill.IssuerName := "Acme Traders";
     Bill.BillData := "{}";
     Bill.Amount := amount;
     Bill.Currency := "INR";
     Bill.IssueDate := "2024-01-15";
     Bill.IsDeleted := false |}.

Definition publicBill : Bill.t :=
  mkBill "bill-1" "EPR-SI-2024-01-0001" AccessLevelPublic "inst-1" 1000.

Definition governmentBill : Bill.t :=
  mkBill "bill-2" "EPR-SI-2024-01-0002" AccessLevelGovernment "inst-1" 1000.

Definition mkUser (role : UserRole) (balance : Q) (count free : Z) : User.t :=
  {| User.Role := role;
     User.WalletBalance := balance;
     User.VerificationCount := count;
     User.FreeVerificationsEarned := free;
     User.IsActive := true |}.

(** [alice] is one verification short of ten, [inst-1] issued both bills
    and has four verifications, [bob] cannot afford a fee, [carol] holds a
    banked free credit. *)
Definition sampleDB : DB :=
  {| users :=
       <["alice" := mkUser RolePublic 100 9 0]>
         (<["inst-1" := mkUser RoleInstitutionUser 50 4 0]>
            (<["bob" := mkUser RolePublic 2 0 0]>
               (<["carol" := mkUser RolePublic 0 10 1]> ∅)));
     bills := [publicBill; governmentBill];
     verifications := [] |}.

Definition emptyDB : DB := {| users := ∅; bills := []; verifications := [] |}.

(** A configuration that asks for a free verification every fifth one. *)
Definition everyFifthConfig : Config :=
  {| Pricing :=
       {| BillGenerationFee := 1 # 2;
          VerificationMinFee := 1;
          VerificationMaxFee := 10;
          VerificationPercentage := 1 # 100;
          LoyaltyFreeEveryN := 5 |} |}.

(** A stand-in decoder for the fixtures: the payload is kept as its text. *)
Definition textPayload (raw : string) : option string := Some raw.

Definition verificationCountOf (db : DB) (userID : string) : option Z :=
  User.VerificationCount <$> users db !! userID.

Definition freeEarnedOf (db : DB) (userID : string) : option Z :=
  User.FreeVerificationsEarned <$> users db !! userID.

(* ===================================================================== *)
(** * Amounts as the program computes and stores them                      *)
(* ===================================================================== *)

(** Go's [float64] is the IEEE-754 double, Rocq's primitive [float]: every
    operation is rounded to the nearest double, ties to even. *)
Definition float64 : Set := float.

(** An integer as a double; exact below 2^53. *)
Definition float64_of_Z (z : Z) : float64 :=
  if (z <? 0)%Z
  then (- PrimFloat.of_uint63 (Uint63.of_Z (- z)))%float
  else PrimFloat.of_uint63 (Uint63.of_Z z).

(** [strconv.ParseFloat] on the decimal text of [q], the double nearest to
    [q]: how the configuration reads its amounts and how a [DECIMAL]
    column is scanned into a [float64] field.  A numerator and a
    denominator below 2^53 are doubles themselves, so their quotient,
    rounded once, is that double. *)
Definition ParseFloat (q : Q) : float64 :=
  (float64_of_Z (Qnum q) / float64_of_Z (Zpos (Qden q)))%float.

(** The rational a finite double stands for. *)
Definition exactValue (v : float64) : option Q :=
  match Prim2SF v with
  | S754_zero _ => Some 0%Q
  | S754_finite negative m e =>
      let magnitude :=
        if (0 <=? e)%Z then inject_Z (Zpos m * 2 ^ e)
        else (Zpos m # Z.to_pos (2 ^ (- e)))%Q in
      Some (if negative then Qopp magnitude else magnitude)
  | S754_infinity _ | S754_nan => None
  end.

(** The nearest integer, a half going away from zero: the rounding of
    PostgreSQL's [numeric]. *)
Definition roundHalfAway (q : Q) : Z :=
  let n := Qnum q in
  let d := Zpos (Qden q) in
  if (0 <=? n)%Z then ((2 * n + d) / (2 * d))%Z
  else (- ((2 * - n + d) / (2 * d)))%Z.

(** What a [float64] parameter becomes in a column [DECIMAL(precision, 2)].
    The driver (lib/pq) sends [strconv.FormatFloat(v, 'f', -1, 64)], the
    shortest decimal that reads back as [v]; PostgreSQL rounds that decimal
    to two places, a half away from zero, and refuses a result of more than
    [precision] digits.  In this range doubles are less than a thousandth
    apart, so at most one decimal of three places reads back as [v], and it
    is the text sent when there is one; when there is none, no rounding
    boundary lies between the text and the exact value of [v].  The result
    is the stored amount, or [None] when the statement raises.  An infinity
    is refused by the column; a NaN, which the column would keep, is outside
    the model. *)
Definition toNumeric (precision : Z) (v : float64) : option Q :=
  match exactValue v with
  | None => None
  | Some exact =>
      let thousandths := roundHalfAway (exact * 1000) in
      let hundredths :=
        if (Z.abs thousandths <? 2 ^ 53)%Z
           && (ParseFloat (thousandths # 1000) =? v)%float
        then roundHalfAway (thousandths # 10)
        else roundHalfAway (exact * 100) in
      if (Z.abs hundredths <? 10 ^ precision)%Z
      then Some (hundredths # 100)
      else None
  end.

(** [calculatePrice] on doubles: the same statements as [calculatePrice],
    with the arithmetic and the comparisons of [float64].  The amounts of
    the configuration are the doubles [Load] parsed. *)
Definition calculatePrice64 (cfg : Config) (db : DB) (userID : option string)
    (billAmount : float64) (accessLevel : AccessLevel)
  : float64 * bool * string :=
  let loyal :=
    match userID with
    | Some id =>
        match GetByID db id with
        | Ok user => (0 <? User.FreeVerificationsEarned user)%Z
        | Err _ => false
        end
    | None => false
    end in
  if loyal then (0%float, true, "loyalty_free")
  else
    let percentagePrice :=
      (billAmount * ParseFloat (VerificationPercentage (Pricing cfg)))%float in
    let percentagePrice := (percentagePrice * 0.5)%float in
    let minFee := ParseFloat (VerificationMinFee (Pricing cfg)) in
    let maxFee := ParseFloat (VerificationMaxFee (Pricing cfg)) in
    let '(finalPrice, pricingRule) :=
      if (percentagePrice <? minFee)%float then (minFee, "minimum_fee")
      else if (maxFee <? percentagePrice)%float
      then (maxFee, "maximum_fee_capped")
      else (percentagePrice, "percentage_1_percent") in
    let '(finalPrice, pricingRule) :=
      if String.eqb accessLevel AccessLevelRestricted
      then ((finalPrice * 1.5)%float, "restricted_access_premium")
      else if String.eqb accessLevel AccessLevelGovernment
              || String.eqb accessLevel AccessLevelFinancial
      then (maxFee, "government_financial_premium")
      else (finalPrice, pricingRule) in
    let finalPrice :=
      if (finalPrice <? minFee)%float then minFee else finalPrice in
    let finalPrice :=
      if (maxFee <? finalPrice)%float then maxFee else finalPrice in
    (finalPrice, false, pricingRule).

(** [UpdateWalletBalance] with a [float64] parameter: the column
    [wallet_balance DECIMAL(10,2) CHECK (wallet_balance >= 0)] rounds the
    value or refuses it.  [None] when the statement raises or updates no
    row. *)
Definition UpdateWalletBalance64 (db : DB) (userID : string)
    (newBalance : float64) : option DB :=
  match toNumeric 10 newBalance with
  | None => None
  | Some stored =>
      if Qle_bool 0 stored then
        match UpdateWalletBalance db userID stored with
        | Ok db' => Some db'
        | Err _ => None
        end
      else None
  end.

(** How the wallet block of [VerifyBill] ends. *)
Inductive settlement : Type :=
| Settled (db : DB)
| InsufficientFunds (required available : float64)
| NotSettled (message : string).

(** The wallet block of [VerifyBill] on doubles: the balance is scanned
    from its column, compared with the fee and reduced in [float64], and
    the difference is written back through the column. *)
Definition settle64 (db : DB) (userID : string) (fee : float64) : settlement :=
  match GetByID db userID with
  | Err _ => NotSettled "failed to get user"
  | Ok user =>
      let balance := ParseFloat (User.WalletBalance user) in
      if (balance <? fee)%float then InsufficientFunds fee balance
      else
        let newBalance := (balance - fee)%float in
        match UpdateWalletBalance64 db userID newBalance with
        | None => NotSettled "failed to deduct wallet balance"
        | Some db1 => Settled (snd (IncrementVerificationCount db1 userID))
        end
  end.

(** The pricing rule of the specification read in [float64]: the damped
    percentage, clamped into the fee band, then the tier step. *)
Definition spec_clamp64 (lo hi x : float64) : float64 :=
  if (x <? lo)%float then lo else if (hi <? x)%float then hi else x.

Definition spec_base64 (cfg : Config) (billAmount : float64) : float64 :=
  ((billAmount * ParseFloat (VerificationPercentage (Pricing cfg))) * 0.5)%float.

Definition spec_fee64 (cfg : Config) (billAmount : float64) (tier : AccessLevel)
  : float64 :=
  let minFee := ParseFloat (VerificationMinFee (Pricing cfg)) in
  let maxFee := ParseFloat (VerificationMaxFee (Pricing cfg)) in
  let clamped := spec_clamp64 minFee maxFee (spec_base64 cfg billAmount) in
  if decide (tier = AccessLevelRestricted)
  then spec_clamp64 minFee maxFee (clamped * 1.5)%float
  else if decide (tier = AccessLevelGovernment \/ tier = AccessLevelFinancial)
  then maxFee
  else clamped.

Definition spec_label64 (cfg : Config) (billAmount : float64)
    (tier : AccessLevel) : string :=
  let minFee := ParseFloat (VerificationMinFee (Pricing cfg)) in
  let maxFee := ParseFloat (VerificationMaxFee (Pricing cfg)) in
  if decide (tier = AccessLevelRestricted) then "restricted_access_premium"
  else if decide (tier = AccessLevelGovernment \/ tier = AccessLevelFinancial)
  then "government_financial_premium"
  else if (spec_base64 cfg billAmount <? minFee)%float then "minimum_fee"
  else if (maxFee <? spec_base64 cfg billAmount)%float
  then "maximum_fee_capped"
  else "percentage_1_percent".

(* ===================================================================== *)
(** * The two exits of [VerifyBill], and runs of calls                     *)
(* ===================================================================== *)

(** The response [VerifyBill] builds when the bill lookup fails. *)
Definition notFoundResponse {Payload : Type} (cfg : Config) (billNumber : string)
  : VerifyBillResponse.t Payload :=
  {| VerifyBillResponse.Success := true;
     VerifyBillResponse.BillNumber := billNumber;
     VerifyBillResponse.Status := "invalid";
     VerifyBillResponse.IssuerName := "";
     VerifyBillResponse.IssueDate := "";
     VerifyBillResponse.BillType := "";
     VerifyBillResponse.Message :=
       "This bill is not registered in the EPR system. It may be fake.";
     VerifyBillResponse.Details := NoDetails;
     VerifyBillResponse.Fee := VerificationMinFee (Pricing cfg) |}.

(** The response [VerifyBill] returns for a found bill: the one of
    [buildVerificationResponse], with status and message overwritten when
    the access level is [none]. *)
Definition foundResponse {Payload : Type} (Unmarshal : string -> option Payload)
    (bill : Bill.t) (userRole : UserRole) (fee : Q) : VerifyBillResponse.t Payload :=
  let accessLevel := determineAccessLevel userRole bill in
  let response := buildVerificationResponse Unmarshal bill accessLevel fee in
  if String.eqb accessLevel "none"
  then with_status_message _ response "restricted"
         "This bill requires institutional access to view full details."
  else response.

(** The status [VerifyBill] stores with the audit row of a found bill. *)
Definition foundStatus (userRole : UserRole) (bill : Bill.t) : VerificationStatus :=
  if String.eqb (determineAccessLevel userRole bill) "none"
  then VerificationRestricted else VerificationValid.

(** One call of [VerifyBill]. *)
Record verifyCall : Type := mkVerifyCall {
  callUserID : option string;
  callBillNumber : string;
  callIP : string;
  callUserAgent : string;
  callRole : UserRole;
  callElapsed : Z
}.

(** Calls of [VerifyBill] served one after the other, each on the store the
    previous one left; the results are returned in order with the last
    store. *)
Fixpoint serveAll {Payload : Type} (Unmarshal : string -> option Payload)
    (cfg : Config) (db : DB) (calls : list verifyCall)
  : list (result (VerifyBillResponse.t Payload)) * DB :=
  match calls with
  | [] => ([], db)
  | c :: rest =>
      let '(r, db1) :=
        VerifyBill Unmarshal cfg db (callUserID c) (callBillNumber c) (callIP c)
          (callUserAgent c) (callRole c) (callElapsed c) in
      let '(rs, db2) := serveAll Unmarshal cfg db1 rest in
      (r :: rs, db2)
  end.

(** The statuses [VerifyBill] writes into audit rows. *)
Definition writtenStatus (s : VerificationStatus) : Prop :=
  s = VerificationValid \/ s = VerificationRestricted \/ s = VerificationNotFound.

(* ===================================================================== *)
(** * Error messages and handler responses                               *)
(* ===================================================================== *)

(** [err.Error()].  [formatAmount] is the rendering of an amount by the
    verb [%.2f]; the text of the encoding error is the json package's. *)
Fixpoint errorString (formatAmount : Q -> string) (e : error) : string :=
  match e with
  | UserNotFound => "user not found"
  | BillNotFound => "bill not found"
  | FailedToIncrementVerificationCount =>
      "failed to increment verification count: sql: no rows in result set"
  | FailedToGetUser cause =>
      "failed to get user: " ++ errorString formatAmount cause
  | InsufficientWalletBalance required available =>
      "insufficient wallet balance. Required: ₹" ++ formatAmount required
      ++ ", Available: ₹" ++ formatAmount available
  | FailedToDeductWalletBalance cause =>
      "failed to deduct wallet balance: " ++ errorString formatAmount cause
  | EncodingError => "json: unsupported value"
  end.

(** The Go slice expression [s[:n]] on a string: the first [n] bytes, and a
    run-time panic ([None]) when the string is shorter. *)
Fixpoint slicePrefix (n : nat) (s : string) : option string :=
  match n with
  | O => Some ""
  | S n' =>
      match s with
      | EmptyString => None
      | String c rest => option_map (String c) (slicePrefix n' rest)
      end
  end.

(** What a handler leaves on the wire: the status code with the payload of
    [utils.SuccessResponse], [utils.ErrorResponse] or
    [utils.ValidationErrorResponse], or a panic that unwinds the handler. *)
Inductive handlerBody (Data : Type) : Type :=
| SuccessBody (data : Data)
| ErrorBody (message : string)
| ValidationBody (details : string).
Arguments SuccessBody {Data} data.
Arguments ErrorBody {Data} message.
Arguments ValidationBody {Data} details.

Inductive handlerOutcome (Data : Type) : Type :=
| Responded (statusCode : Z) (body : handlerBody Data)
| Panicked.
Arguments Responded {Data} statusCode body.
Arguments Panicked {Data}.

Definition StatusOK : Z := 200.
Definition StatusCreated : Z := 201.
Definition StatusBadRequest : Z := 400.
Definition StatusPaymentRequired : Z := 402.
Definition StatusForbidden : Z := 403.
Definition StatusNotFound : Z := 404.
Definition StatusInternalServerError : Z := 500.

(** The test both wallet-charging handlers apply to a failure:
    [err.Error()[:20] == "insufficient wallet"]. *)
Definition isInsufficientWallet (message : string) : option bool :=
  option_map (fun prefix => String.eqb prefix "insufficient wallet")
    (slicePrefix 20 message).

(* ===================================================================== *)
(** * migrations/002_create_bills_table.sql: generate_bill_number          *)
(* ===================================================================== *)

Module BillNumber.

(** The twelve values of the SQL enum [bill_type]. *)
Definition billTypes : list string :=
  ["salary_slip"; "sales_invoice"; "medical_bill"; "purchase_invoice";
   "rental_agreement"; "education_fee"; "rent_receipt"; "reimbursement";
   "loan_statement"; "tax_receipt"; "insurance_policy"; "other"].

Definition isBillType (s : string) : bool := existsb (String.eqb s) billTypes.

(** The [CASE p_bill_type ... END] that chooses [v_prefix]. *)
Definition prefixOf (p_bill_type : string) : string :=
  if String.eqb p_bill_type "salary_slip" then "SAL"
  else if String.eqb p_bill_type "sales_invoice" then "INV"
  else if String.eqb p_bill_type "medical_bill" then "MED"
  else if String.eqb p_bill_type "purchase_invoice" then "PUR"
  else if String.eqb p_bill_type "rental_agreement" then "RNT"
  else if String.eqb p_bill_type "education_fee" then "EDU"
  else if String.eqb p_bill_type "rent_receipt" then "RCT"
  else if String.eqb p_bill_type "reimbursement" then "REI"
  else if String.eqb p_bill_type "loan_statement" then "LON"
  else if String.eqb p_bill_type "tax_receipt" then "TAX"
  else if String.eqb p_bill_type "insurance_policy" then "INS"
  else "OTH".

Definition digitChar (d : Z) : ascii := ascii_of_nat (48 + Z.to_nat d).

Definition digitValue (c : ascii) : option Z :=
  let n := nat_of_ascii c in
  if (48 <=? n)%nat && (n <=? 57)%nat then Some (Z.of_nat n - 48)%Z else None.

Fixpoint castFrom (acc : Z) (s : string) : option Z :=
  match s with
  | EmptyString => Some acc
  | String c rest =>
      match digitValue c with
      | Some d => castFrom (acc * 10 + d)%Z rest
      | None => None
      end
  end.

(** [CAST(s AS INTEGER)] on texts of decimal digits.  [None] when the text
    is empty or holds a character that is not a digit: PostgreSQL raises
    there, except for a sign or blanks around the digits, which no number
    written by this function contains. *)
Definition castInteger (s : string) : option Z :=
  match s with
  | EmptyString => None
  | _ => castFrom 0 s
  end.

Fixpoint textFrom (fuel : nat) (n : Z) (acc : string) : string :=
  match fuel with
  | O => acc
  | S fuel' =>
      let acc' := String (digitChar (n mod 10)) acc in
      if (n / 10 =? 0)%Z then acc' else textFrom fuel' (n / 10) acc'
  end.

(** [n::TEXT] for a 32-bit integer: at most ten digits. *)
Definition text (n : Z) : string :=
  if (n <? 0)%Z then String "-" (textFrom 10 (- n) "") else textFrom 10 n "".

Fixpoint replicate (n : nat) (fill : ascii) : string :=
  match n with
  | O => EmptyString
  | S n' => String fill (replicate n' fill)
  end.

(** [LPAD(s, len, fill)] with a one-character fill: pads on the left, and
    cuts a longer text down to its first [len] characters. *)
Definition LPAD (s : string) (len : nat) (fill : ascii) : string :=
  if (String.length s <=? len)%nat
  then (replicate (len - String.length s) fill ++ s)%string
  else substring 0 len s.

(** [MAX] over the selected rows: [NULL] when there is none. *)
Definition sqlMax (values : list Z) : option Z :=
  match values with
  | [] => None
  | v :: rest => Some (fold_left Z.max rest v)
  end.

Definition COALESCE (v : option Z) (default : Z) : Z :=
  match v with
  | Some z => z
  | None => default
  end.

(** The function body.  [year] and [month] are [TO_CHAR(NOW(), 'YYYY')] and
    [TO_CHAR(NOW(), 'MM')]; [numbers] is the column [bill_number] of every
    row of [bills], the soft-deleted ones included.  [SUBSTRING(s FROM 12
    FOR 6)] is [substring 11 6 s].  [None] when a cast does not return. *)
Definition generate_bill_number (numbers : list string)
    (p_bill_type year month : string) : option string :=
  let v_prefix := prefixOf p_bill_type in
  let v_year := year in
  let v_month := month in
  let selected :=
    List.filter (fun bill_number =>
              String.prefix (v_prefix ++ v_year ++ v_month)%string bill_number)
           numbers in
  match allSome (map (fun bill_number => castInteger (substring 11 6 bill_number))
                     selected) with
  | None => None
  | Some sequences =>
      let v_sequence := (COALESCE (sqlMax sequences) 0 + 1)%Z in
      Some (v_prefix ++ v_year ++ v_month ++ LPAD (text v_sequence) 6 "0")%string
  end.

(** The number the comment of the function promises for a sequence:
    prefix, year, month and the sequence on six digits. *)
Definition numbered (p_bill_type year month : string) (sequence : Z) : string :=
  (prefixOf p_bill_type ++ year ++ month ++ LPAD (text sequence) 6 "0")%string.

(** The numbers of the table that fall under the prefix of this type and
    month all carry a sequence between 1 and [bound]. *)
Definition issuedUpTo (bound : Z) (p_bill_type year month : string)
    (numbers : list string) : Prop :=
  forall bill_number,
    In bill_number numbers ->
    String.prefix (prefixOf p_bill_type ++ year ++ month)%string bill_number = true ->
    exists sequence,
      (1 <= sequence <= bound)%Z
      /\ bill_number = numbered p_bill_type year month sequence.

(** The six decimal digits of a sequence, most significant first. *)
Definition sixDigits (k : Z) : string :=
  String (digitChar (k / 10 / 10 / 10 / 10 / 10 mod 10))
    (String (digitChar (k / 10 / 10 / 10 / 10 mod 10))
       (String (digitChar (k / 10 / 10 / 10 mod 10))
          (String (digitChar (k / 10 / 10 mod 10))
             (String (digitChar (k / 10 mod 10))
                (String (digitChar (k mod 10)) EmptyString))))).

End BillNumber.

(** Columns of [users] that [CreateBill] reads besides those of [User.t];
    no statement of the model writes them. *)
Module UserProfile.
Record t : Type := mk {
  OrganizationName : string;
  KYCStatus : string
}.
End UserProfile.

Definition KYCApproved : string := "approved".
Definition BlockchainPending : string := "pending".

(** [models.CreateBillRequest]. *)
Module CreateBillRequest.
Record t (Prim : Type) : Type := mk {
  BillType : string;
  AccessLevel : AccessLevel;
  IssuerGSTIN : string;
  Amount : Q;
  IssueDate : string;
  BillData : list (string * JSON Prim)
}.
Arguments mk {Prim}.
Arguments BillType {Prim}.
Arguments AccessLevel {Prim}.
Arguments IssuerGSTIN {Prim}.
Arguments Amount {Prim}.
Arguments IssueDate {Prim}.
Arguments BillData {Prim}.
End CreateBillRequest.

(** [models.Bill] as [CreateBill] returns it: the columns of [Bill.t] and
    the three fields it fills besides them. *)
Module IssuedBill.
Record t : Type := mk {
  Row : Bill.t;
  DataHash : string;
  BlockchainStatus : string;
  IsActive : bool
}.
End IssuedBill.

(* ===================================================================== *)
(** * Repositories and services behind the history and the statistics      *)
(* ===================================================================== *)

(** A call that returns a value or an error known by its message, for the
    functions whose callers branch on [err.Error()]. *)
Inductive outcome (A : Type) : Type :=
| Done (a : A)
| Failed (message : string).
Arguments Done {A} a.
Arguments Failed {A} message.

(** Go's [int] is 64 bits wide: the value of an arithmetic expression is
    its mathematical value wrapped into the signed range. *)
Definition wrap64 (z : Z) : Z := ((z + 2 ^ 63) mod 2 ^ 64 - 2 ^ 63)%Z.

Module BillRepository.

(** [BillRepository.GetByID]:
    [SELECT * FROM bills WHERE id = $1 AND is_deleted = false], for an [id]
    the column type [UUID] accepts.  On any other text the query itself
    fails, with "failed to get bill: ..."; what is stated of the callers
    is stated of the bills that are found. *)
Definition GetByID (db : DB) (id : string) : outcome Bill.t :=
  match find (fun b => String.eqb (Bill.ID b) id && negb (Bill.IsDeleted b))
             (bills db) with
  | Some b => Done b
  | None => Failed "bill not found"
  end.

(** The row of a bill with [is_deleted] set.  The deletion reason and
    time are columns outside [Bill.t]. *)
Definition markDeleted (b : Bill.t) : Bill.t :=
  {| Bill.ID := Bill.ID b;
     Bill.BillNumber := Bill.BillNumber b;
     Bill.BillType := Bill.BillType b;
     Bill.AccessLevel := Bill.AccessLevel b;
     Bill.IssuerID := Bill.IssuerID b;
     Bill.IssuerName := Bill.IssuerName b;
     Bill.BillData := Bill.BillData b;
     Bill.Amount := Bill.Amount b;
     Bill.Currency := Bill.Currency b;
     Bill.IssueDate := Bill.IssueDate b;
     Bill.IsDeleted := true |}.

(** [UPDATE bills SET is_deleted = true, ... WHERE id = $1] on the rows. *)
Definition deleteRows (id : string) (rows : list Bill.t) : list Bill.t :=
  map (fun b => if String.eqb (Bill.ID b) id then markDeleted b else b) rows.

(** [BillRepository.SoftDelete]: zero affected rows is "bill not found". *)
Definition SoftDelete (db : DB) (id reason : string) : outcome DB :=
  if existsb (fun b => String.eqb (Bill.ID b) id) (bills db) then
    Done {| users := users db;
            bills := deleteRows id (bills db);
            verifications := verifications db |}
  else Failed "bill not found".

(** [BillRepository.GenerateBillNumber]: [SELECT generate_bill_number($1)].
    The parameter is of the enum [bill_type], so any other text makes the
    statement raise; [pqError] is the driver's text of a failure. *)
Definition GenerateBillNumber (pqError year month : string) (db : DB)
    (billType : string) : outcome string :=
  if negb (BillNumber.isBillType billType) then
    Failed ("failed to generate bill number: " ++ pqError)
  else
    match BillNumber.generate_bill_number (map Bill.BillNumber (bills db))
            billType year month with
    | Some billNumber => Done billNumber
    | None => Failed ("failed to generate bill number: " ++ pqError)
    end.

(** The row an [INSERT] of [bill] stores: [id] is generated and
    [is_deleted], which the statement does not list, takes its default. *)
Definition inserted (id : string) (bill : Bill.t) : Bill.t :=
  {| Bill.ID := id;
     Bill.BillNumber := Bill.BillNumber bill;
     Bill.BillType := Bill.BillType bill;
     Bill.AccessLevel := Bill.AccessLevel bill;
     Bill.IssuerID := Bill.IssuerID bill;
     Bill.IssuerName := Bill.IssuerName bill;
     Bill.BillData := Bill.BillData bill;
     Bill.Amount := Bill.Amount bill;
     Bill.Currency := Bill.Currency bill;
     Bill.IssueDate := Bill.IssueDate bill;
     Bill.IsDeleted := false |}.

(** [BillRepository.Create].  The column [bill_number] is [UNIQUE];
    [constraints] stands for the other constraints of the table (the unique
    hash, the enums, the amount check and range, the foreign key), and
    [uuid_generate_v4] for the default of [id].  The row is kept as given:
    the rounding of [amount DECIMAL(12,2)] and the re-serialisation of
    [bill_data JSONB] are not modelled, and what is stated of the amount
    and the data of a created bill is stated of the struct [CreateBill]
    returns. *)
Definition Create (uuid_generate_v4 : list Bill.t -> string)
    (constraints : DB -> Bill.t -> bool) (pqError : string)
    (db : DB) (bill : Bill.t) : outcome (Bill.t * DB) :=
  if existsb (fun b => String.eqb (Bill.BillNumber b) (Bill.BillNumber bill))
             (bills db)
     || negb (constraints db bill)
  then Failed ("failed to create bill: " ++ pqError)
  else
    let saved := inserted (uuid_generate_v4 (bills db)) bill in
    Done (saved,
          {| users := users db;
             bills := bills db ++ [saved];
             verifications := verifications db |}).

End BillRepository.

Module VerificationRepository.

(** The rows [WHERE verifier_id = $1] selects, in insertion order. *)
Definition rowsOf (db : DB) (verifierID : string) : list Verification.t :=
  List.filter
    (fun v => match Verification.VerifierID v with
              | Some id => String.eqb id verifierID
              | None => false
              end)
    (verifications db).

(** [ListByVerifier]: [... ORDER BY verified_at DESC LIMIT $2 OFFSET $3].
    [verified_at] is the insertion time, so the newest row is the last one
    inserted; PostgreSQL rejects a negative limit or offset. *)
Definition ListByVerifier (db : DB) (verifierID : string) (limit offset : Z)
  : outcome (list Verification.t) :=
  if (limit <? 0)%Z then
    Failed "failed to list verifications: pq: LIMIT must not be negative"
  else if (offset <? 0)%Z then
    Failed "failed to list verifications: pq: OFFSET must not be negative"
  else
    Done (firstn (Z.to_nat limit)
            (skipn (Z.to_nat offset) (rev (rowsOf db verifierID)))).

(** [CountByVerifier]. *)
Definition CountByVerifier (db : DB) (verifierID : string) : Z :=
  Z.of_nat (length (rowsOf db verifierID)).

(** [models.VerificationStats]. *)
Record VerificationStats : Type := mkVerificationStats {
  TotalVerifications : Z;
  TotalSpent : Q;
  ValidCount : Z;
  InvalidCount : Z;
  RestrictedCount : Z;
  SuccessRate : Q
}.

Definition countStatus (rows : list Verification.t) (status : string) : Z :=
  Z.of_nat
    (length (List.filter
               (fun v => String.eqb (Verification.VerificationStatus v) status)
               rows)).

(** [GetStatsByVerifier]: the five aggregate queries and the success rate. *)
Definition GetStatsByVerifier (db : DB) (verifierID : string) : VerificationStats :=
  let rows := rowsOf db verifierID in
  let total := Z.of_nat (length rows) in
  let valid := countStatus rows "valid" in
  {| TotalVerifications := total;
     TotalSpent :=
       fold_right (fun v acc => (Verification.AmountCharged v + acc)%Q) 0%Q rows;
     ValidCount := valid;
     InvalidCount := countStatus rows "invalid";
     RestrictedCount := countStatus rows "restricted";
     SuccessRate :=
       if (0 <? total)%Z
       then (inject_Z valid / inject_Z total * 100)%Q
       else 0%Q |}.

End VerificationRepository.

(** [models.VerificationHistoryResponse], without the generated id and
    time of the row. *)
Module VerificationHistoryResponse.
Record t : Type := mk {
  BillNumber : string;
  IssuerName : string;
  BillType : string;
  Result : string;
  Fee : Q;
  WasFree : bool
}.
End VerificationHistoryResponse.

Module VerificationService.

(** The loop body of [GetVerificationHistory]: the issuer and the type of
    the bill when the row names a bill that can still be fetched, and
    "Unknown" otherwise. *)
Definition historyEntry (db : DB) (v : Verification.t)
  : VerificationHistoryResponse.t :=
  let '(issuerName, billType) :=
    match Verification.BillID v with
    | Some billID =>
        match BillRepository.GetByID db billID with
        | Done bill => (Bill.IssuerName bill, Bill.BillType bill)
        | Failed _ => ("Unknown", "Unknown")
        end
    | None => ("Unknown", "Unknown")
    end in
  {| VerificationHistoryResponse.BillNumber := Verification.BillNumber v;
     VerificationHistoryResponse.IssuerName := issuerName;
     VerificationHistoryResponse.BillType := billType;
     VerificationHistoryResponse.Result := Verification.VerificationStatus v;
     VerificationHistoryResponse.Fee := Verification.AmountCharged v;
     VerificationHistoryResponse.WasFree := Verification.WasFree v |}.

(** [GetVerificationHistory]. *)
Definition GetVerificationHistory (db : DB) (userID : string) (page pageSize : Z)
  : outcome (list VerificationHistoryResponse.t * Z) :=
  let offset := wrap64 ((page - 1) * pageSize) in
  match VerificationRepository.ListByVerifier db userID pageSize offset with
  | Failed message => Failed ("failed to list verifications: " ++ message)
  | Done verifications =>
      let total := VerificationRepository.CountByVerifier db userID in
      Done (map (historyEntry db) verifications, total)
  end.

(** [GetVerificationStats]. *)
Definition GetVerificationStats (db : DB) (userID : string)
  : VerificationRepository.VerificationStats :=
  VerificationRepository.GetStatsByVerifier db userID.

End VerificationService.

(** The body of the history response: the rows and the pagination block. *)
Record historyPage : Type := mkHistoryPage {
  pageRows : list VerificationHistoryResponse.t;
  pageNumber : Z;
  pageSizeUsed : Z;
  pageTotal : Z;
  pageTotalPages : Z
}.

(** The pagination guard shared by the listing handlers, applied to the
    values [strconv.Atoi] returned (zero for an unreadable parameter). *)
Definition validPage (page : Z) : Z := if (page <? 1)%Z then 1%Z else page.

Definition validPageSize (pageSize : Z) : Z :=
  if (pageSize <? 1)%Z || (100 <? pageSize)%Z then 10%Z else pageSize.

(* ===================================================================== *)
(** * internal/handlers/verification_handler.go                            *)
(* ===================================================================== *)

Module VerificationHandler.

(** [VerificationHandler.VerifyBill].  [ctxUserID] and [ctxRole] are the
    values the authentication middleware left in the request context (absent
    for an anonymous request); [request] is the bill number read from the
    JSON body, or the text of the decoding error; the binding rule
    [required] rejects an empty bill number with the validator's text
    [requiredError]. *)
Definition VerifyBill {Payload : Type} (Unmarshal : string -> option Payload)
    (formatAmount : Q -> string) (requiredError : string) (cfg : Config)
    (db : DB) (ctxUserID ctxRole : option string) (request : string + string)
    (ip userAgent : string) (elapsed : Z)
  : handlerOutcome (VerifyBillResponse.t Payload) * DB :=
  match request with
  | inr bindError => (Responded StatusBadRequest (ValidationBody bindError), db)
  | inl "" => (Responded StatusBadRequest (ValidationBody requiredError), db)
  | inl billNumber =>
      let userRole :=
        match ctxUserID, ctxRole with
        | Some _, Some role => role
        | _, _ => RolePublic
        end in
      let '(r, db') :=
        VerifyBill Unmarshal cfg db ctxUserID billNumber ip userAgent
          userRole elapsed in
      match r with
      | Err err =>
          match isInsufficientWallet (errorString formatAmount err) with
          | None => (Panicked, db')
          | Some true =>
              (Responded StatusPaymentRequired
                 (ErrorBody (errorString formatAmount err)), db')
          | Some false =>
              (Responded StatusInternalServerError
                 (ErrorBody "Verification failed. Please try again."), db')
          end
      | Ok result => (Responded StatusOK (SuccessBody result), db')
      end
  end.

(** [VerificationHandler.GetVerificationHistory]. *)
Definition GetVerificationHistory (db : DB) (userID : string)
    (page pageSize : Z) : handlerOutcome historyPage :=
  let page := validPage page in
  let pageSize := validPageSize pageSize in
  match VerificationService.GetVerificationHistory db userID page pageSize with
  | Failed _ =>
      Responded StatusInternalServerError
        (ErrorBody "Failed to retrieve verification history")
  | Done (history, total) =>
      let totalPages := Z.quot (wrap64 (total + pageSize - 1)) pageSize in
      Responded StatusOK
        (SuccessBody
           {| pageRows := history;
              pageNumber := page;
              pageSizeUsed := pageSize;
              pageTotal := total;
              pageTotalPages := totalPages |})
  end.

End VerificationHandler.

(** Every audit row carries one of the statuses [VerifyBill] writes. *)
Definition auditWritten (db : DB) : Prop :=
  Forall (fun v => writtenStatus (Verification.VerificationStatus v))
         (verifications db).

(** The rows of the history pages 1 to [n] of a user, one after the other. *)
Definition historyPages (db : DB) (userID : string) (pageSize : Z) (n : nat)
  : list VerificationHistoryResponse.t :=
  concat
    (map (fun i =>
            match VerificationService.GetVerificationHistory db userID
                    (Z.of_nat (S i)) pageSize with
            | Done (rows, _) => rows
            | Failed _ => []
            end)
         (seq 0 n)).

(* ===================================================================== *)
(** * The bill service and its handlers                                     *)
(* ===================================================================== *)

(** [models.BillResponse], on the columns of [Bill.t]. *)
Module BillResponse.
Record t (Payload : Type) : Type := mk {
  ID : string;
  BillNumber : string;
  BillType : string;
  AccessLevel : string;
  IssuerName : string;
  Amount : Q;
  Currency : string;
  IssueDate : string;
  BillData : option Payload
}.
Arguments mk {Payload}.
Arguments ID {Payload}.
Arguments BillNumber {Payload}.
Arguments BillType {Payload}.
Arguments AccessLevel {Payload}.
Arguments IssuerName {Payload}.
Arguments Amount {Payload}.
Arguments Currency {Payload}.
Arguments IssueDate {Payload}.
Arguments BillData {Payload}.
End BillResponse.

Module BillService.

(** [BillService.GetBillByID]. *)
Definition GetBillByID (db : DB) (userID billID : string) (userRole : UserRole)
  : outcome Bill.t :=
  match BillRepository.GetByID db billID with
  | Failed message => Failed message
  | Done bill =>
      if negb (canAccessBill userID userRole bill)
      then Failed "access denied to this bill"
      else Done bill
  end.

(** [BillService.GetBillByNumber]. *)
Definition GetBillByNumber (db : DB) (billNumber : string) : result Bill.t :=
  GetByBillNumber db billNumber.

(** [BillService.DeleteBill]. *)
Definition DeleteBill (db : DB) (userID billID reason : string) : outcome DB :=
  match BillRepository.GetByID db billID with
  | Failed message => Failed message
  | Done bill =>
      if negb (String.eqb (Bill.IssuerID bill) userID)
      then Failed "you can only delete your own bills"
      else BillRepository.SoftDelete db billID reason
  end.

(** [BillService.ConvertToResponse]. *)
Definition ConvertToResponse {Payload : Type}
    (Unmarshal : string -> option Payload) (bill : Bill.t) (accessLevel : string)
  : BillResponse.t Payload :=
  {| BillResponse.ID := Bill.ID bill;
     BillResponse.BillNumber := Bill.BillNumber bill;
     BillResponse.BillType := Bill.BillType bill;
     BillResponse.AccessLevel := Bill.AccessLevel bill;
     BillResponse.IssuerName := Bill.IssuerName bill;
     BillResponse.Amount := Bill.Amount bill;
     BillResponse.Currency := Bill.Currency bill;
     BillResponse.IssueDate := Bill.IssueDate bill;
     BillResponse.BillData :=
       if String.eqb accessLevel "full"
       then Unmarshal (Bill.BillData bill)
       else None |}.

Section BillCreation.

Context {Prim : Type}.

(** The JSON encoder and the digest, as in [GenerateBillHash]. *)
Variables (marshalPrim : Prim -> option string) (marshalKey : string -> string)
          (Sum256 : string -> list Byte.byte).
(** A Go string and the reading of [time.Now().UTC()] as leaves of a
    document. *)
Variables (stringLeaf : string -> Prim) (generatedAt : Prim).
(** [%.2f]; the profile columns of a user; whether [time.Parse] accepts a
    text under the layout [2006-01-02]; the year and the month of
    [NOW()]. *)
Variables (formatAmount : Q -> string) (profile : string -> UserProfile.t)
          (validDate : string -> bool) (year month : string).
Variables (uuid_generate_v4 : list Bill.t -> string)
          (constraints : DB -> Bill.t -> bool) (pqError : string).
Variable cfg : Config.

(** The request's document with the entry [_metadata] that [CreateBill]
    writes into it. *)
Definition enrichedBillData (userID : string) (req : CreateBillRequest.t Prim)
  : list (string * JSON Prim) :=
  mapSet (CreateBillRequest.BillData req) "_metadata"
    (JMap [("generated_at", JPrim generatedAt);
           ("generated_by", JPrim (stringLeaf userID));
           ("organization",
            JPrim (stringLeaf (UserProfile.OrganizationName (profile userID))));
           ("gstin", JPrim (stringLeaf (CreateBillRequest.IssuerGSTIN req)))]).

(** [BillService.CreateBill].  The date of a request that [time.Parse]
    accepts is stored as sent; the binding rule [required] has rejected a
    request without [bill_data], so the map written to is not nil. *)
Definition CreateBill (db : DB) (userID : string)
    (req : CreateBillRequest.t Prim) : outcome IssuedBill.t * DB :=
  match GetByID db userID with
  | Err e => (Failed ("failed to get user: " ++ errorString formatAmount e), db)
  | Ok user =>
      if negb (String.eqb (User.Role user) RoleInstitutionUser)
         && negb (String.eqb (User.Role user) RoleInstitutionAdmin)
         && negb (String.eqb (User.Role user) RoleMasterAdmin)
      then (Failed "only institutions can generate bills", db)
      else if (String.eqb (User.Role user) RoleInstitutionUser
               || String.eqb (User.Role user) RoleInstitutionAdmin)
              && negb (String.eqb (UserProfile.KYCStatus (profile userID))
                         KYCApproved)
      then (Failed "KYC verification required to generate bills", db)
      else
        let generationFee := BillGenerationFee (Pricing cfg) in
        if Qltb (User.WalletBalance user) generationFee then
          (Failed (errorString formatAmount
                     (InsufficientWalletBalance generationFee
                        (User.WalletBalance user))), db)
        else
          match BillRepository.GenerateBillNumber pqError year month db
                  (CreateBillRequest.BillType req) with
          | Failed message =>
              (Failed ("failed to generate bill number: " ++ message), db)
          | Done billNumber =>
              if negb (validDate (CreateBillRequest.IssueDate req)) then
                (Failed "invalid date format. Use YYYY-MM-DD", db)
              else
                let enrichedBillData := enrichedBillData userID req in
                match Marshal marshalPrim marshalKey (JMap enrichedBillData) with
                | None =>
                    (Failed ("failed to marshal bill data: "
                             ++ errorString formatAmount EncodingError), db)
                | Some billDataJSON =>
                    match GenerateBillHash marshalPrim marshalKey Sum256
                            enrichedBillData with
                    | Err e =>
                        (Failed ("failed to generate hash: "
                                 ++ errorString formatAmount e), db)
                    | Ok dataHash =>
                        let bill :=
                          {| Bill.ID := "";
                             Bill.BillNumber := billNumber;
                             Bill.BillType := CreateBillRequest.BillType req;
                             Bill.AccessLevel :=
                               CreateBillRequest.AccessLevel req;
                             Bill.IssuerID := userID;
                             Bill.IssuerName :=
                               UserProfile.OrganizationName (profile userID);
                             Bill.BillData := billDataJSON;
                             Bill.Amount := CreateBillRequest.Amount req;
                             Bill.Currency := "INR";
                             Bill.IssueDate := CreateBillRequest.IssueDate req;
                             Bill.IsDeleted := false |} in
                        match BillRepository.Create uuid_generate_v4
                                constraints pqError db bill with
                        | Failed message =>
                            (Failed ("failed to save bill: " ++ message), db)
                        | Done (saved, db1) =>
                            let newBalance :=
                              (User.WalletBalance user - generationFee)%Q in
                            match UpdateWalletBalance db1 userID newBalance with
                            | Err e =>
                                (Failed ("failed to deduct wallet balance: "
                                         ++ errorString formatAmount e), db1)
                            | Ok db2 =>
                                (Done {| IssuedBill.Row := saved;
                                         IssuedBill.DataHash := dataHash;
                                         IssuedBill.BlockchainStatus :=
                                           BlockchainPending;
                                         IssuedBill.IsActive := true |},
                                 db2)
                            end
                        end
                    end
                end
          end
  end.

End BillCreation.

End BillService.

Module BillHandler.

(** [BillHandler.GetBill]: the route sits behind the authentication
    middleware, so the context holds the requester's id and role. *)
Definition GetBill {Payload : Type} (Unmarshal : string -> option Payload)
    (db : DB) (userID role billID : string)
  : handlerOutcome (BillResponse.t Payload) :=
  match BillService.GetBillByID db userID billID role with
  | Failed message =>
      if String.eqb message "bill not found"
      then Responded StatusNotFound (ErrorBody "Bill not found")
      else if String.eqb message "access denied to this bill"
      then Responded StatusForbidden
             (ErrorBody "You don't have permission to view this bill")
      else Responded StatusInternalServerError
             (ErrorBody "Failed to retrieve bill")
  | Done bill =>
      let accessLevel :=
        if negb (String.eqb (Bill.IssuerID bill) userID)
           && negb (String.eqb role RoleMasterAdmin)
        then "limited" else "full" in
      Responded StatusOK
        (SuccessBody (BillService.ConvertToResponse Unmarshal bill accessLevel))
  end.

(** [BillHandler.GetBillByNumber]. *)
Definition GetBillByNumber {Payload : Type}
    (Unmarshal : string -> option Payload) (db : DB) (billNumber : string)
  : handlerOutcome (BillResponse.t Payload) :=
  match BillService.GetBillByNumber db billNumber with
  | Err _ => Responded StatusNotFound (ErrorBody "Bill not found")
  | Ok bill =>
      Responded StatusOK
        (SuccessBody (BillService.ConvertToResponse Unmarshal bill "full"))
  end.

(** [BillHandler.DeleteBill]: [request] is the bound reason, absent when
    the binding fails.  The body of a success is the fixed message. *)
Definition DeleteBill (db : DB) (userID billID : string)
    (request : option string) : handlerOutcome string * DB :=
  match request with
  | None =>
      (Responded StatusBadRequest (ValidationBody "Deletion reason is required"),
       db)
  | Some reason =>
      match BillService.DeleteBill db userID billID reason with
      | Failed message =>
          (if String.eqb message "bill not found"
           then Responded StatusNotFound (ErrorBody "Bill not found")
           else if String.eqb message "you can only delete your own bills"
           then Responded StatusForbidden
                  (ErrorBody "You don't have permission to delete this bill")
           else Responded StatusInternalServerError
                  (ErrorBody "Failed to delete bill"),
           db)
      | Done db' =>
          (Responded StatusOK (SuccessBody "Bill deleted successfully"), db')
      end
  end.

(** [BillHandler.CreateBill]: the route sits behind the authentication
    middleware; [request] is the body as [ShouldBindJSON] leaves it, bound
    and validated, or the text of its error.  The body of a success is the
    bill in its full view. *)
Definition CreateBill {Prim Payload : Type}
    (marshalPrim : Prim -> option string) (marshalKey : string -> string)
    (Sum256 : string -> list Byte.byte)
    (stringLeaf : string -> Prim) (generatedAt : Prim)
    (formatAmount : Q -> string) (profile : string -> UserProfile.t)
    (validDate : string -> bool) (year month : string)
    (uuid_generate_v4 : list Bill.t -> string)
    (constraints : DB -> Bill.t -> bool) (pqError : string) (cfg : Config)
    (Unmarshal : string -> option Payload)
    (db : DB) (userID : string) (request : CreateBillRequest.t Prim + string)
  : handlerOutcome (BillResponse.t Payload) * DB :=
  match request with
  | inr bindError => (Responded StatusBadRequest (ValidationBody bindError), db)
  | inl req =>
      let '(r, db') :=
        BillService.CreateBill marshalPrim marshalKey Sum256 stringLeaf
          generatedAt formatAmount profile validDate year month
          uuid_generate_v4 constraints pqError cfg db userID req in
      match r with
      | Failed message =>
          if String.eqb message "only institutions can generate bills" then
            (Responded StatusForbidden (ErrorBody message), db')
          else if String.eqb message
                    "KYC verification required to generate bills" then
            (Responded StatusForbidden
               (ErrorBody "Your KYC verification is pending. Please complete KYC to generate bills."),
             db')
          else
            match isInsufficientWallet message with
            | None => (Panicked, db')
            | Some true =>
                (Responded StatusPaymentRequired (ErrorBody message), db')
            | Some false =>
                (Responded StatusInternalServerError
                   (ErrorBody "Failed to generate bill"), db')
            end
      | Done bill =>
          (Responded StatusCreated
             (SuccessBody
                (BillService.ConvertToResponse Unmarshal
                   (IssuedBill.Row bill) "full")), db')
      end
  end.

End BillHandler.

Module PDFHandler.

(** [PDFHandler.canAccessBillPDF]: [requester] is the id and role found in
    the request context, absent for an anonymous request. *)
Definition canAccessBillPDF (requester : option (string * UserRole))
    (bill : Bill.t) : bool :=
  if String.eqb (Bill.AccessLevel bill) AccessLevelPublic then true
  else
    match requester with
    | None => false
    | Some (userIDStr, userRole) =>
        if String.eqb (Bill.IssuerID bill) userIDStr then true
        else if String.eqb userRole RoleMasterAdmin then true
        else if String.eqb (Bill.AccessLevel bill) AccessLevelRestricted
                && (String.eqb userRole RoleInstitutionUser
                    || String.eqb userRole RoleInstitutionAdmin
                    || String.eqb userRole RoleVerifier) then true
        else if (String.eqb (Bill.AccessLevel bill) AccessLevelGovernment
                 || String.eqb (Bill.AccessLevel bill) AccessLevelFinancial)
                && String.eqb userRole RoleVerifier then true
        else false
    end.

End PDFHandler.

Module AuthHandler.

(** [AuthHandler.TopupWallet]: [request] is the amount read from the JSON
    body, or the text of the decoding error; the binding rule
    [required,gt=0] rejects an amount that is not above zero with the
    validator's text [gtError].  The body of a success is the new balance.
    Amounts are exact here, for the properties that turn on the sign of a
    balance; [TopupWallet64] is the handler on doubles. *)
Definition TopupWallet (gtError : string) (db : DB) (userID : string)
    (request : Q + string) : handlerOutcome Q * DB :=
  match request with
  | inr bindError => (Responded StatusBadRequest (ValidationBody bindError), db)
  | inl amount =>
      if Qle_bool amount 0 then
        (Responded StatusBadRequest (ValidationBody gtError), db)
      else
        match GetByID db userID with
        | Err _ => (Responded StatusNotFound (ErrorBody "User not found"), db)
        | Ok user =>
            let newBalance := (User.WalletBalance user + amount)%Q in
            match UpdateWalletBalance db userID newBalance with
            | Err _ =>
                (Responded StatusInternalServerError
                   (ErrorBody "Failed to update wallet"), db)
            | Ok db' => (Responded StatusOK (SuccessBody newBalance), db')
            end
        end
  end.

End AuthHandler.

(** The four values of the enum [access_level]. *)
Definition knownTier (tier : AccessLevel) : Prop :=
  tier = AccessLevelPublic \/ tier = AccessLevelRestricted
  \/ tier = AccessLevelGovernment \/ tier = AccessLevelFinancial.

(** [AuthHandler.TopupWallet] on doubles.  [request] is the [float64] the
    JSON body decoded to, or the text of the decoding error; the binding
    rule [required,gt=0] lets through exactly the amounts above zero and
    answers the others with the validator's text.  The sum is formed in
    [float64], written through the column [wallet_balance], and returned
    as it was formed. *)
Definition TopupWallet64 (validatorText : float64 -> string) (db : DB)
    (userID : string) (request : float64 + string)
  : handlerOutcome float64 * DB :=
  match request with
  | inr bindError => (Responded StatusBadRequest (ValidationBody bindError), db)
  | inl amount =>
      if (0 <? amount)%float then
        match GetByID db userID with
        | Err _ => (Responded StatusNotFound (ErrorBody "User not found"), db)
        | Ok user =>
            let newBalance :=
              (ParseFloat (User.WalletBalance user) + amount)%float in
            match UpdateWalletBalance64 db userID newBalance with
            | None =>
                (Responded StatusInternalServerError
                   (ErrorBody "Failed to update wallet"), db)
            | Some db' => (Responded StatusOK (SuccessBody newBalance), db')
            end
        end
      else
        (Responded StatusBadRequest (ValidationBody (validatorText amount)), db)
  end.

(** A store whose only wallet holds 2.10. *)
Definition smallWalletDB : DB :=
  {| users := <["dave" := mkUser RolePublic (21 # 10) 0 0]> ∅;
     bills := [];
     verifications := [] |}.

(* ===================================================================== *)
(** * Well-formed documents and the alphabet of the hash                   *)
(* ===================================================================== *)

(** A document as Go can hold it: the keys of every map, at every depth,
    are pairwise distinct. *)
Inductive wellFormed {Prim : Type} : JSON Prim -> Prop :=
| wellFormed_prim (v : Prim) : wellFormed (JPrim v)
| wellFormed_array (items : list (JSON Prim)) :
    Forall wellFormed items -> wellFormed (JArray items)
| wellFormed_map (entries : list (string * JSON Prim)) :
    NoDup (map fst entries) ->
    Forall (fun e => wellFormed (snd e)) entries ->
    wellFormed (JMap entries).

(** The entries a map holds under the given keys, in the order of the keys. *)
Definition entriesAt {V : Type} (values : list (string * V)) (keys : list string)
  : list (string * V) :=
  omap (fun k => option_map (pair k) (mapGet values k)) keys.

(** The sixteen characters [hex.EncodeToString] writes. *)
Definition isLowerHex (c : ascii) : bool :=
  existsb (Ascii.eqb c) (list_ascii_of_string "0123456789abcdef").

(* ===================================================================== *)
(** * Requests that move money                                              *)
(* ===================================================================== *)

(** No wallet of the store is below zero. *)
Definition solvent (db : DB) : Prop :=
  forall userID user,
    users db !! userID = Some user -> (0 <= User.WalletBalance user)%Q.

(** The requests to the three endpoints that write a wallet, each with
    what its handler reads from the context and the body. *)
Inductive walletRequest (Prim : Type) : Type :=
| PostVerify (ctxUserID ctxRole : option string) (request : string + string)
    (ip userAgent : string) (elapsed : Z)
| PostTopup (userID : string) (request : Q + string)
| PostBill (userID : string) (request : CreateBillRequest.t Prim + string).
Arguments PostVerify {Prim} ctxUserID ctxRole request ip userAgent elapsed.
Arguments PostTopup {Prim} userID request.
Arguments PostBill {Prim} userID request.

Section WalletRequests.

Context {Prim Payload : Type}.
Variables (marshalPrim : Prim -> option string) (marshalKey : string -> string)
          (Sum256 : string -> list Byte.byte).
Variables (stringLeaf : string -> Prim) (generatedAt : Prim).
Variables (formatAmount : Q -> string) (profile : string -> UserProfile.t)
          (validDate : string -> bool) (year month : string).
Variables (uuid_generate_v4 : list Bill.t -> string)
          (constraints : DB -> Bill.t -> bool) (pqError : string).
Variables (cfg : Config) (Unmarshal : string -> option Payload).
Variables (requiredError gtError : string).

(** The store a handler leaves. *)
Definition serveWallet (db : DB) (r : walletRequest Prim) : DB :=
  match r with
  | PostVerify ctxUserID ctxRole request ip userAgent elapsed =>
      snd (VerificationHandler.VerifyBill Unmarshal formatAmount requiredError
             cfg db ctxUserID ctxRole request ip userAgent elapsed)
  | PostTopup userID request =>
      snd (AuthHandler.TopupWallet gtError db userID request)
  | PostBill userID request =>
      snd (BillHandler.CreateBill marshalPrim marshalKey Sum256 stringLeaf
             generatedAt formatAmount profile validDate year month
             uuid_generate_v4 constraints pqError cfg Unmarshal db userID
             request)
  end.

(** Requests served one after the other. *)
Definition serveWalletAll (db : DB) (requests : list (walletRequest Prim)) : DB :=
  fold_left serveWallet requests db.

End WalletRequests.

(* ===================================================================== *)
(** * Fixtures for the handlers and the bill service                       *)
(* ===================================================================== *)

Definition verifyAs (userID : option string) (billNumber : string)
    (role : UserRole) : verifyCall :=
  {| callUserID := userID;
     callBillNumber := billNumber;
     callIP := "10.0.0.1";
     callUserAgent := "curl";
     callRole := role;
     callElapsed := 3 |}.

(** [alice] verifies the public bill, then a number that does not exist;
    [inst-1] asks for the government bill. *)
Definition sampleCalls : list verifyCall :=
  [verifyAs (Some "alice") "EPR-SI-2024-01-0001" RolePublic;
   verifyAs (Some "alice") "EPR-XX-0000" RolePublic;
   verifyAs (Some "inst-1") "EPR-SI-2024-01-0002" RoleInstitutionUser].

(** The store after [sampleCalls]. *)
Definition auditedDB : DB :=
  snd (serveAll textPayload defaultConfig sampleDB sampleCalls).

(** The store with the public bill deleted. *)
Definition sampleDBWithoutPublicBill : DB :=
  {| users := users sampleDB;
     bills := BillRepository.deleteRows "bill-1" (bills sampleDB);
     verifications := verifications sampleDB |}.

(** Stand-ins for the collaborators of [CreateBill]. *)
Definition approvedProfile (userID : string) : UserProfile.t :=
  {| UserProfile.OrganizationName := "Acme Traders";
     UserProfile.KYCStatus := KYCApproved |}.

Definition tenCharacters (s : string) : bool := (String.length s =? 10)%nat.
Definition plainAmount (amount : Q) : string := "0.00".
Definition thirdID (rows : list Bill.t) : string := "bill-3".
Definition noFurtherConstraint (db : DB) (bill : Bill.t) : bool := true.

Definition invoiceRequest : CreateBillRequest.t string :=
  {| CreateBillRequest.BillType := "sales_invoice";
     CreateBillRequest.AccessLevel := AccessLevelPublic;
     CreateBillRequest.IssuerGSTIN := "29ABCDE1234F1Z5";
     CreateBillRequest.Amount := 1000;
     CreateBillRequest.IssueDate := "2025-01-15";
     CreateBillRequest.BillData := invoiceDoc |}.

(** [inst-1] issues [invoiceRequest] in January 2025. *)
Definition issueInvoice (db : DB) : outcome IssuedBill.t * DB :=
  BillService.CreateBill quotedLeaf quoted bytesOf (fun s => s)
    "2025-01-15T10:00:00Z" plainAmount approvedProfile tenCharacters
    "2025" "01" thirdID noFurtherConstraint "pq: error" defaultConfig db
    "inst-1" invoiceRequest.

Definition issuedInvoice (db : DB) : IssuedBill.t :=
  match fst (issueInvoice db) with
  | Done bill => bill
  | Failed _ =>
      {| IssuedBill.Row := publicBill;
         IssuedBill.DataHash := "";
         IssuedBill.BlockchainStatus := "";
         IssuedBill.IsActive := false |}
  end.

(** A store in which the invoices 9999 and 10000 of January 2025 exist. *)
Definition exhaustedDB : DB :=
  {| users := users sampleDB;
     bills := [mkBill "bill-9999" "INV202501009999" AccessLevelPublic "inst-1" 1000;
               mkBill "bill-10000" "INV202501010000" AccessLevelPublic "inst-1" 1000];
     verifications := [] |}.

(** The hash of [invoiceDoc] under the stand-in encoder and digest. *)
Definition invoiceHash : string :=
  match GenerateBillHash quotedLeaf quoted bytesOf invoiceDoc with
  | Ok h => h
  | Err _ => ""
  end.

(* ===================================================================== *)
(** * Properties                                                           *)
(* ===================================================================== *)

Example sample_verify_alice :
  verificationCountOf
    (snd (VerifyBill textPayload defaultConfig sampleDB (Some "alice")
            "EPR-SI-2024-01-0001" "10.0.0.1" "curl" RolePublic 3)) "alice"
  = Some 10%Z.
Proof. vm_compute. reflexivity. Qed.

(** ** Access resolution *)

(** [determineAccessLevel] reads the bill's tier and nothing else of it. *)
Lemma determineAccessLevel_tier_only (role : UserRole) (b b' : Bill.t) :
  Bill.AccessLevel b = Bill.AccessLevel b' ->
  determineAccessLevel role b = determineAccessLevel role b'.
Proof. intros H. unfold determineAccessLevel. rewrite H. reflexivity. Qed.

(** The tier table of [determineAccessLevel]. *)
Lemma determineAccessLevel_table (role : UserRole) (b : Bill.t) :
  (Bill.AccessLevel b = AccessLevelPublic ->
   determineAccessLevel role b = "full")
  /\ (Bill.AccessLevel b = AccessLevelRestricted ->
      determineAccessLevel role b
      = if String.eqb role RoleInstitutionUser
           || String.eqb role RoleInstitutionAdmin
           || String.eqb role RoleVerifier
           || String.eqb role RoleMasterAdmin
        then "full" else "limited")
  /\ (Bill.AccessLevel b = AccessLevelGovernment
      \/ Bill.AccessLevel b = AccessLevelFinancial ->
      determineAccessLevel role b
      = if String.eqb role RoleVerifier || String.eqb role RoleMasterAdmin
        then "full" else "none").
Proof.
  unfold determineAccessLevel.
  split; [|split]; [intros ->; reflexivity|intros ->; reflexivity|].
  intros [-> | ->]; reflexivity.
Qed.

(** C3.  The access resolution does not know who issued the bill.  The
    issuer of a government-tier bill, verifying it with an institution role,
    resolves to [none] and is answered with the restricted response without
    details, whereas the bill service's [canAccessBill] grants the same
    requester access to the same bill as its owner. *)
Theorem C3_issuer_of_government_bill_resolves_to_none :
  Bill.IssuerID governmentBill = "inst-1"
  /\ Bill.AccessLevel governmentBill = AccessLevelGovernment
  /\ determineAccessLevel RoleInstitutionUser governmentBill = "none"
  /\ canAccessBill "inst-1" RoleInstitutionUser governmentBill = true
  /\ exists response db',
       VerifyBill textPayload defaultConfig sampleDB (Some "inst-1")
         "EPR-SI-2024-01-0002" "10.0.0.1" "curl" RoleInstitutionUser 3
       = (Ok response, db')
       /\ VerifyBillResponse.Status response = "restricted"
       /\ VerifyBillResponse.Details response = NoDetails.
Proof.
  repeat split. eexists. eexists.
  split; [vm_compute; reflexivity|]. split; reflexivity.
Qed.

(** ** Anonymous calls *)

Section Orchestrator.

Context {Payload : Type} (Unmarshal : string -> option Payload).

Lemma buildVerificationResponse_Fee (bill : Bill.t) (accessLevel : string)
    (fee : Q) :
  VerifyBillResponse.Fee (buildVerificationResponse Unmarshal bill accessLevel fee)
  = fee.
Proof.
  unfold buildVerificationResponse.
  destruct (String.eqb accessLevel "full");
    [destruct (Unmarshal (Bill.BillData bill)); reflexivity|].
  destruct (String.eqb accessLevel "limited"); [reflexivity|].
  destruct (String.eqb accessLevel "none"); reflexivity.
Qed.

(** C10.  A call without a requester id returns a response and leaves the
    whole store as it was: no balance, no counter, no audit row changes.
    When the bill exists the response carries the computed fee. *)
Theorem C10_anonymous_call_changes_nothing
    (cfg : Config) (db : DB) (billNumber ip userAgent : string)
    (userRole : UserRole) (elapsed : Z) :
  exists response,
    VerifyBill Unmarshal cfg db None billNumber ip userAgent userRole elapsed
      = (Ok response, db)
    /\ forall bill,
         GetByBillNumber db billNumber = Ok bill ->
         VerifyBillResponse.Fee response
         = fst (fst (calculatePrice cfg db None (Bill.Amount bill)
                       (Bill.AccessLevel bill))).
Proof.
  unfold VerifyBill.
  destruct (GetByBillNumber db billNumber) as [bill|e] eqn:Hbill.
  - destruct (calculatePrice cfg db None (Bill.Amount bill)
                (Bill.AccessLevel bill)) as [[fee wasFree] rule] eqn:Hprice.
    eexists. split; [reflexivity|].
    intros bill' Hb. injection Hb as <-. rewrite Hprice.
    destruct (String.eqb (determineAccessLevel userRole bill) "none");
      cbn [with_status_message VerifyBillResponse.Fee fst];
      apply buildVerificationResponse_Fee.
  - eexists. split; [reflexivity|]. intros bill Hb. discriminate Hb.
Qed.

(** C7 (as amended).  An anonymous call for a bill number with no row
    answers with status [invalid] and the configured minimum fee, and
    leaves the store as it was. *)
Theorem C7_anonymous_miss_is_invalid_and_silent
    (cfg : Config) (db : DB) (billNumber ip userAgent : string)
    (userRole : UserRole) (elapsed : Z) :
  GetByBillNumber db billNumber = Err BillNotFound ->
  exists response,
    VerifyBill Unmarshal cfg db None billNumber ip userAgent userRole elapsed
      = (Ok response, db)
    /\ VerifyBillResponse.Status response = "invalid"
    /\ VerifyBillResponse.Success response = true
    /\ VerifyBillResponse.Fee response = VerificationMinFee (Pricing cfg).
Proof.
  intros Hmiss. unfold VerifyBill. rewrite Hmiss.
  eexists. split; [reflexivity|]. repeat split.
Qed.

End Orchestrator.

Lemma C10_anonymous_call_changes_nothing_witness :
  exists response,
    VerifyBill textPayload defaultConfig sampleDB None "EPR-SI-2024-01-0001"
      "10.0.0.1" "curl" RolePublic 3 = (Ok response, sampleDB)
    /\ VerifyBillResponse.Fee response
       = fst (fst (calculatePrice defaultConfig sampleDB None 1000
                     AccessLevelPublic)).
Proof.
  destruct (C10_anonymous_call_changes_nothing textPayload defaultConfig
              sampleDB "EPR-SI-2024-01-0001" "10.0.0.1" "curl" RolePublic 3)
    as (response & Hrun & Hfee).
  exists response. split; [exact Hrun|].
  apply (Hfee publicBill). reflexivity.
Defined.

Lemma C7_anonymous_miss_is_invalid_and_silent_witness :
  GetByBillNumber emptyDB "EPR-XX-0000" = Err BillNotFound
  /\ exists response,
       VerifyBill textPayload defaultConfig emptyDB None "EPR-XX-0000"
         "10.0.0.1" "curl" RolePublic 3 = (Ok response, emptyDB)
       /\ VerifyBillResponse.Status response = "invalid"
       /\ VerifyBillResponse.Success response = true
       /\ VerifyBillResponse.Fee response = VerificationMinFee (Pricing defaultConfig).
Proof.
  split; [reflexivity|].
  apply (C7_anonymous_miss_is_invalid_and_silent textPayload defaultConfig
           emptyDB "EPR-XX-0000" "10.0.0.1" "curl" RolePublic 3).
  reflexivity.
Defined.

(** C7, as first stated, fails: the response of an anonymous miss does not
    carry the status [not_found]. *)
Lemma C7_anonymous_miss_status_is_not_not_found :
  ~ (forall response db',
       VerifyBill textPayload defaultConfig emptyDB None "EPR-XX-0000"
         "10.0.0.1" "curl" RolePublic 3 = (Ok response, db') ->
       VerifyBillResponse.Status response = VerificationNotFound).
Proof.
  intros H. specialize (H _ _ eq_refl). discriminate H.
Qed.

(** ** The wallet block *)

Lemma Qltb_lt (x y : Q) : Qltb x y = true <-> (x < y)%Q.
Proof.
  unfold Qltb. rewrite negb_true_iff. split.
  - intros H. apply Qnot_le_lt. intros Hle.
    apply Qle_bool_iff in Hle. congruence.
  - intros H. destruct (Qle_bool y x) eqn:E; [|reflexivity].
    apply Qle_bool_iff in E. exfalso. exact (Qlt_not_le _ _ H E).
Qed.

Lemma Qltb_ge (x y : Q) : Qltb x y = false <-> (y <= x)%Q.
Proof.
  unfold Qltb. rewrite negb_false_iff. apply Qle_bool_iff.
Qed.

Lemma GetByID_Ok (db : DB) (id : string) (u : User.t) :
  GetByID db id = Ok u <-> users db !! id = Some u /\ User.IsActive u = true.
Proof.
  unfold GetByID. destruct (users db !! id) as [u'|] eqn:E.
  - destruct (User.IsActive u') eqn:A; split.
    + intros [= <-]. auto.
    + intros [[= <-] _]. reflexivity.
    + discriminate.
    + intros [[= <-] A']. congruence.
  - split; [discriminate|]. intros [? _]. discriminate.
Qed.

(** The wallet block on an existing, active user: rejected when the balance
    is below the fee, otherwise the row is debited and counted. *)
Lemma settle_spec (db : DB) (userID : string) (u : User.t) (fee : Q) :
  GetByID db userID = Ok u ->
  settle db userID fee
  = if Qltb (User.WalletBalance u) fee
    then Err (InsufficientWalletBalance fee (User.WalletBalance u))
    else Ok (with_users db (<[userID := settledUser u fee]> (users db))).
Proof.
  intros Hu. unfold settle. rewrite Hu.
  apply GetByID_Ok in Hu as [Hu _].
  destruct (Qltb (User.WalletBalance u) fee); [reflexivity|].
  unfold UpdateWalletBalance. rewrite Hu.
  unfold IncrementVerificationCount. cbn [users with_users].
  rewrite lookup_insert_eq. cbn [snd with_users users bills verifications User.VerificationCount
    User.Role User.WalletBalance User.FreeVerificationsEarned User.IsActive].
  rewrite insert_insert_eq. reflexivity.
Qed.

Lemma settle_Ok_user (db db' : DB) (userID : string) (fee : Q) :
  settle db userID fee = Ok db' -> exists u, GetByID db userID = Ok u.
Proof.
  unfold settle. destruct (GetByID db userID) as [u|e]; [eauto|discriminate].
Qed.

Lemma GetByID_settled (db : DB) (userID : string) (u : User.t) (fee : Q) :
  GetByID db userID = Ok u ->
  GetByID (with_users db (<[userID := settledUser u fee]> (users db))) userID
  = Ok (settledUser u fee).
Proof.
  intros [_ A]%GetByID_Ok. apply GetByID_Ok. cbn [users with_users].
  rewrite lookup_insert_eq. auto.
Qed.


(** C1.  The final balance is not the initial balance minus the fees
    charged.  Under the default pricing a public bill of 1001 costs 5.005;
    [alice] holds 100.00 and the wallet block accepts.  The difference
    94.995 does not fit the column [wallet_balance DECIMAL(10,2)], which
    keeps 95.00: the wallet lost 5.00 for a fee of 5.005, and a column
    [DECIMAL(10,2)] given the fee itself, as [amount_charged] is, keeps
    5.01. *)
Theorem C1_wallet_loses_five_for_a_fee_of_5005 :
  let fee :=
    fst (fst (calculatePrice64 defaultConfig sampleDB (Some "alice")
                (ParseFloat 1001) AccessLevelPublic)) in
  fee = ParseFloat (5005 # 1000)
  /\ (balanceOf sampleDB "alice" == 100)%Q
  /\ toNumeric 10 fee = Some (501 # 100)
  /\ exists db',
       settle64 sampleDB "alice" fee = Settled db'
       /\ (balanceOf db' "alice" == 95)%Q
       /\ ~ (balanceOf db' "alice"
             == balanceOf sampleDB "alice" - (5005 # 1000))%Q
       /\ (forall exact,
             exactValue fee = Some exact ->
             ~ (balanceOf db' "alice" == balanceOf sampleDB "alice" - exact)%Q).
Proof.
  cbv zeta. split; [vm_compute; reflexivity|].
  split; [vm_compute; reflexivity|].
  split; [vm_compute; reflexivity|].
  eexists. split; [vm_compute; reflexivity|].
  split; [vm_compute; reflexivity|].
  split; [vm_compute; discriminate|].
  intros exact Hexact. vm_compute in Hexact. injection Hexact as <-.
  vm_compute. discriminate.
Qed.

(** ** Pricing: the loyalty short-circuit *)

Lemma calculatePrice_free (cfg : Config) (db : DB) (userID : option string)
    (billAmount : Q) (tier : AccessLevel) :
  hasFreeCredit db userID = true ->
  calculatePrice cfg db userID billAmount tier = (0%Q, true, "loyalty_free").
Proof.
  unfold calculatePrice, hasFreeCredit. intros ->. reflexivity.
Qed.

Lemma calculatePrice_paid (cfg : Config) (db : DB) (userID : option string)
    (billAmount : Q) (tier : AccessLevel) :
  hasFreeCredit db userID = false ->
  snd (fst (calculatePrice cfg db userID billAmount tier)) = false.
Proof.
  unfold calculatePrice, hasFreeCredit. intros ->. cbv zeta.
  repeat match goal with
         | |- context [if ?c then _ else _] => destruct c
         end; reflexivity.
Qed.

Lemma recordVerification_users (db : DB) (userID billID : option string)
    (billNumber : string) (fee : Q) (wasFree : bool)
    (status : VerificationStatus)
    (dataRevealed : option (list (string * list string)))
    (ip userAgent : string) (responseTime : Z) :
  users (recordVerification db userID billID billNumber fee wasFree status
           dataRevealed ip userAgent responseTime) = users db.
Proof. reflexivity. Qed.

(** Every audit row is written with the same pricing-rule text. *)
Lemma recordVerification_rule (db : DB) (userID billID : option string)
    (billNumber : string) (fee : Q) (wasFree : bool)
    (status : VerificationStatus)
    (dataRevealed : option (list (string * list string)))
    (ip userAgent : string) (responseTime : Z) :
  exists row,
    verifications (recordVerification db userID billID billNumber fee wasFree
                     status dataRevealed ip userAgent responseTime)
    = (verifications db ++ [row])%list
    /\ Verification.PricingRuleApplied row = "standard".
Proof. eexists. split; reflexivity. Qed.

Section Settlement.

Context {Payload : Type} (Unmarshal : string -> option Payload).

(** C2.  An authenticated requester whose (non-negative) balance is below
    the computed fee: the call fails with the insufficient-balance error
    carrying the fee and the balance, and the store is left as it was. *)
Theorem C2_insufficient_balance_aborts
    (cfg : Config) (db : DB) (userID billNumber ip userAgent : string)
    (userRole : UserRole) (elapsed : Z) (bill : Bill.t) (user : User.t) :
  GetByBillNumber db billNumber = Ok bill ->
  GetByID db userID = Ok user ->
  (0 <= User.WalletBalance user)%Q ->
  let fee := fst (fst (calculatePrice cfg db (Some userID) (Bill.Amount bill)
                         (Bill.AccessLevel bill))) in
  (User.WalletBalance user < fee)%Q ->
  VerifyBill Unmarshal cfg db (Some userID) billNumber ip userAgent userRole
    elapsed
  = (Err (InsufficientWalletBalance fee (User.WalletBalance user)), db).
Proof.
  intros Hbill Huser Hbal fee Hlt. subst fee.
  unfold VerifyBill. rewrite Hbill.
  destruct (hasFreeCredit db (Some userID)) eqn:Hfree.
  - rewrite (calculatePrice_free _ _ _ _ _ Hfree) in Hlt. cbn [fst] in Hlt.
    exfalso. lra.
  - pose proof (calculatePrice_paid cfg db (Some userID) (Bill.Amount bill)
                  (Bill.AccessLevel bill) Hfree) as Hpaid.
    destruct (calculatePrice cfg db (Some userID) (Bill.Amount bill)
                (Bill.AccessLevel bill)) as [[fee wasFree] rule].
    cbn [fst snd] in *. subst wasFree. cbn [negb].
    rewrite (settle_spec _ _ _ fee Huser).
    apply Qltb_lt in Hlt. rewrite Hlt. reflexivity.
Qed.

(** The effect of a successful authenticated call on a found bill on the
    requester's [verification_count]: one higher when the fee was charged,
    unchanged when a banked free credit waived it. *)
Lemma VerifyBill_verification_count
    (cfg : Config) (db db' : DB) (userID billNumber ip userAgent : string)
    (userRole : UserRole) (elapsed : Z) (bill : Bill.t)
    (response : VerifyBillResponse.t Payload) :
  GetByBillNumber db billNumber = Ok bill ->
  VerifyBill Unmarshal cfg db (Some userID) billNumber ip userAgent userRole
    elapsed = (Ok response, db') ->
  exists u u',
    users db !! userID = Some u
    /\ users db' !! userID = Some u'
    /\ User.VerificationCount u'
       = if hasFreeCredit db (Some userID)
         then User.VerificationCount u
         else (User.VerificationCount u + 1)%Z.
Proof.
  intros Hbill Hrun. unfold VerifyBill in Hrun. rewrite Hbill in Hrun.
  destruct (hasFreeCredit db (Some userID)) eqn:Hfree.
  - rewrite (calculatePrice_free _ _ _ _ _ Hfree) in Hrun.
    cbn [negb] in Hrun. injection Hrun as _ <-.
    unfold hasFreeCredit in Hfree.
    destruct (GetByID db userID) as [u|e] eqn:Hu; [|discriminate].
    apply GetByID_Ok in Hu as [Hu _].
    exists u, u. rewrite recordVerification_users. auto.
  - pose proof (calculatePrice_paid cfg db (Some userID) (Bill.Amount bill)
                  (Bill.AccessLevel bill) Hfree) as Hpaid.
    destruct (calculatePrice cfg db (Some userID) (Bill.Amount bill)
                (Bill.AccessLevel bill)) as [[fee wasFree] rule].
    cbn [fst snd] in Hpaid. subst wasFree. cbn [negb] in Hrun.
    destruct (settle db userID fee) as [db1|e] eqn:Hsettle; [|discriminate].
    injection Hrun as _ <-.
    destruct (settle_Ok_user _ _ _ _ Hsettle) as [u Hu].
    rewrite (settle_spec _ _ _ fee Hu) in Hsettle.
    destruct (Qltb (User.WalletBalance u) fee); [discriminate|].
    injection Hsettle as <-.
    apply GetByID_Ok in Hu as [Hu _].
    exists u, (settledUser u fee). rewrite recordVerification_users.
    cbn [users with_users]. rewrite lookup_insert_eq. auto.
Qed.

End Settlement.

Lemma C2_insufficient_balance_aborts_witness :
  VerifyBill textPayload defaultConfig sampleDB (Some "bob")
    "EPR-SI-2024-01-0001" "10.0.0.1" "curl" RolePublic 3
  = (Err (InsufficientWalletBalance
            (fst (fst (calculatePrice defaultConfig sampleDB (Some "bob")
                         (Bill.Amount publicBill) (Bill.AccessLevel publicBill))))
            (User.WalletBalance (mkUser RolePublic 2 0 0))),
     sampleDB).
Proof.
  apply (C2_insufficient_balance_aborts textPayload defaultConfig sampleDB
           "bob" "EPR-SI-2024-01-0001" "10.0.0.1" "curl" RolePublic 3
           publicBill (mkUser RolePublic 2 0 0)).
  - reflexivity.
  - reflexivity.
  - vm_compute. discriminate.
  - vm_compute. reflexivity.
Defined.

(** C6.  [carol] holds a banked free credit and verifies the public bill:
    the call succeeds on a found bill, the fee is waived, and her
    [verification_count] stays at ten instead of reaching eleven. *)
Theorem C6_waived_verification_is_not_counted :
  exists response db',
    VerifyBill textPayload defaultConfig sampleDB (Some "carol")
      "EPR-SI-2024-01-0001" "10.0.0.1" "curl" RolePublic 3
    = (Ok response, db')
    /\ VerifyBillResponse.Success response = true
    /\ (VerifyBillResponse.Fee response == 0)%Q
    /\ verificationCountOf sampleDB "carol" = Some 10%Z
    /\ verificationCountOf db' "carol" = Some 10%Z.
Proof.
  eexists. eexists. split; [vm_compute; reflexivity|].
  repeat split.
Qed.

(** ** Loyalty counter *)

(** [IncrementVerificationCount] on an existing row: the count goes up by
    one, the flag is raised exactly when the new count is a multiple of
    ten, and the banked credits go up by one exactly then. *)
Lemma IncrementVerificationCount_every_tenth
    (db : DB) (userID : string) (u : User.t) :
  users db !! userID = Some u ->
  exists earned u',
    IncrementVerificationCount db userID
    = (Ok earned, with_users db (<[userID := u']> (users db)))
    /\ User.VerificationCount u' = (User.VerificationCount u + 1)%Z
    /\ (earned = true <-> (User.VerificationCount u' mod 10 = 0)%Z)
    /\ User.FreeVerificationsEarned u'
       = (User.FreeVerificationsEarned u + if earned then 1 else 0)%Z
    /\ User.WalletBalance u' = User.WalletBalance u.
Proof.
  intros Hu. unfold IncrementVerificationCount. rewrite Hu.
  eexists. eexists. split; [reflexivity|].
  cbn [User.VerificationCount User.FreeVerificationsEarned User.WalletBalance].
  split; [reflexivity|]. split; [|split; [|reflexivity]].
  - rewrite Z.eqb_eq. split; intros H.
    + apply Z.rem_divide in H; [|lia]. apply Z.mod_divide in H; [exact H|lia].
    + apply Z.rem_divide; [lia|]. apply Z.mod_divide; [lia|exact H].
  - destruct (Z.rem (User.VerificationCount u + 1) 10 =? 0)%Z; lia.
Qed.

Example alice_tenth_verification_earns_a_credit :
  let db' := snd (VerifyBill textPayload defaultConfig sampleDB (Some "alice")
                    "EPR-SI-2024-01-0001" "10.0.0.1" "curl" RolePublic 3) in
  verificationCountOf sampleDB "alice" = Some 9%Z
  /\ freeEarnedOf sampleDB "alice" = Some 0%Z
  /\ verificationCountOf db' "alice" = Some 10%Z
  /\ freeEarnedOf db' "alice" = Some 1%Z.
Proof. repeat split. Qed.

(** C5.  With the loyalty interval configured to five, a requester at four
    verifications completes a fifth one: the count reaches five, a multiple
    of the configured interval, and no credit is earned, because the
    repository tests the new count against the constant ten. *)
Theorem C5_configured_interval_is_not_consulted :
  let db' := snd (VerifyBill textPayload everyFifthConfig sampleDB
                    (Some "inst-1") "EPR-SI-2024-01-0001" "10.0.0.1" "curl"
                    RoleInstitutionUser 3) in
  LoyaltyFreeEveryN (Pricing everyFifthConfig) = 5%Z
  /\ verificationCountOf sampleDB "inst-1" = Some 4%Z
  /\ freeEarnedOf sampleDB "inst-1" = Some 0%Z
  /\ verificationCountOf db' "inst-1" = Some 5%Z
  /\ freeEarnedOf db' "inst-1" = Some 0%Z
  /\ fst (IncrementVerificationCount sampleDB "inst-1") = Ok false.
Proof. repeat split. Qed.

(** ** Audit rows *)

(** C8.  [alice] verifies the public bill: the pricing computation labels
    the fee [percentage_1_percent], and the one audit row written by the
    call stores [standard] as its pricing rule. *)
Theorem C8_audit_row_stores_standard_not_the_label :
  snd (calculatePrice defaultConfig sampleDB (Some "alice")
         (Bill.Amount publicBill) (Bill.AccessLevel publicBill))
  = "percentage_1_percent"
  /\ map Verification.PricingRuleApplied
       (verifications
          (snd (VerifyBill textPayload defaultConfig sampleDB (Some "alice")
                  "EPR-SI-2024-01-0001" "10.0.0.1" "curl" RolePublic 3)))
     = ["standard"].
Proof. split; reflexivity. Qed.

(** ** Pricing: the fee band and the tier step *)

Ltac qltb_facts :=
  repeat match goal with
         | H : Qltb _ _ = true |- _ => apply Qltb_lt in H
         | H : Qltb _ _ = false |- _ => apply Qltb_ge in H
         end.

(** The order of doubles, from the specification of the primitive
    comparisons. *)
Lemma SFcompare_antisym (x y : spec_float) :
  SFcompare y x = option_map CompOpp (SFcompare x y).
Proof.
  destruct x as [sx|sx| |sx mx ex], y as [sy|sy| |sy my ey];
    try destruct sx; try destruct sy; try reflexivity;
    cbn [SFcompare option_map];
    rewrite (Z.compare_antisym ex ey);
    destruct (ex ?= ey)%Z; cbn [CompOpp]; try reflexivity;
    change (PosDef.Pos.compare_cont Eq ?a ?b) with (Pos.compare a b);
    rewrite (Pos.compare_antisym mx my);
    destruct (mx ?= my)%positive; reflexivity.
Qed.

Lemma float64_ltb_irrefl (x : float64) : (x <? x)%float = false.
Proof.
  rewrite FloatAxioms.ltb_spec. unfold SFltb.
  pose proof (SFcompare_antisym (Prim2SF x) (Prim2SF x)) as H.
  destruct (SFcompare (Prim2SF x) (Prim2SF x)) as [[| |]|];
    try reflexivity; discriminate H.
Qed.

Lemma float64_leb_not_ltb (lo hi : float64) :
  (lo <=? hi)%float = true -> (hi <? lo)%float = false.
Proof.
  rewrite FloatAxioms.leb_spec, FloatAxioms.ltb_spec. unfold SFleb, SFltb.
  rewrite (SFcompare_antisym (Prim2SF lo) (Prim2SF hi)).
  destruct (SFcompare (Prim2SF lo) (Prim2SF hi)) as [[| |]|];
    cbn [option_map CompOpp]; intros H; try reflexivity; discriminate H.
Qed.

(** The two closing tests of [calculatePrice], one after the other, clamp
    into a band that is not empty. *)
Lemma final_bounds_clamp (lo hi x : float64) :
  (lo <=? hi)%float = true ->
  (if (hi <? (if (x <? lo)%float then lo else x))%float then hi
   else if (x <? lo)%float then lo else x)
  = spec_clamp64 lo hi x.
Proof.
  intros Hband. unfold spec_clamp64.
  destruct (x <? lo)%float; [|reflexivity].
  rewrite (float64_leb_not_ltb lo hi Hband). reflexivity.
Qed.

Lemma spec_clamp64_idempotent (lo hi x : float64) :
  (lo <=? hi)%float = true ->
  spec_clamp64 lo hi (spec_clamp64 lo hi x) = spec_clamp64 lo hi x.
Proof.
  intros Hband. unfold spec_clamp64.
  destruct (x <? lo)%float eqn:Hlow.
  - rewrite float64_ltb_irrefl, (float64_leb_not_ltb lo hi Hband). reflexivity.
  - destruct (hi <? x)%float eqn:Hhigh.
    + rewrite (float64_leb_not_ltb lo hi Hband), float64_ltb_irrefl.
      reflexivity.
    + rewrite Hlow, Hhigh. reflexivity.
Qed.

(** C4.  Without a banked free credit and with [minFee <= maxFee], the fee
    is the damped percentage, computed in [float64] as (amount x
    percentage) x 0.5, clamped into the fee band, then times 1.5 and
    clamped again for a restricted bill, the maximum fee for a government
    or financial bill, and unchanged otherwise; the call is not free; the
    label is the premium label of the tier or, without one, the label of
    the first clamp. *)
Theorem C4_calculatePrice64_follows_the_pricing_rule
    (cfg : Config) (db : DB) (userID : option string)
    (billAmount : float64) (tier : AccessLevel) :
  (ParseFloat (VerificationMinFee (Pricing cfg))
   <=? ParseFloat (VerificationMaxFee (Pricing cfg)))%float = true ->
  hasFreeCredit db userID = false ->
  calculatePrice64 cfg db userID billAmount tier
  = (spec_fee64 cfg billAmount tier, false, spec_label64 cfg billAmount tier).
Proof.
  intros Hband Hfree.
  unfold calculatePrice64. fold (hasFreeCredit db userID). rewrite Hfree.
  cbv zeta. unfold spec_fee64, spec_label64.
  fold (spec_base64 cfg billAmount).
  set (base := spec_base64 cfg billAmount).
  set (minFee := ParseFloat (VerificationMinFee (Pricing cfg))) in *.
  set (maxFee := ParseFloat (VerificationMaxFee (Pricing cfg))) in *.
  pose proof (float64_leb_not_ltb minFee maxFee Hband) as Hempty.
  pose proof (float64_ltb_irrefl minFee) as Hmin.
  pose proof (float64_ltb_irrefl maxFee) as Hmax.
  destruct (decide (tier = AccessLevelRestricted)) as [Hr|Hr].
  - rewrite (proj2 (String.eqb_eq _ _) Hr).
    assert (Hclamped :
              (let '(finalPrice, _) :=
                 if (base <? minFee)%float then (minFee, "minimum_fee")
                 else if (maxFee <? base)%float
                 then (maxFee, "maximum_fee_capped")
                 else (base, "percentage_1_percent") in
               finalPrice)
              = spec_clamp64 minFee maxFee base).
    { unfold spec_clamp64. destruct (base <? minFee)%float; [reflexivity|].
      destruct (maxFee <? base)%float; reflexivity. }
    rewrite <- Hclamped.
    destruct (base <? minFee)%float;
      [|destruct (maxFee <? base)%float];
      rewrite (final_bounds_clamp minFee maxFee _ Hband); reflexivity.
  - rewrite (proj2 (String.eqb_neq _ _) Hr).
    destruct (decide (tier = AccessLevelGovernment
                      \/ tier = AccessLevelFinancial)) as [Hg|Hg].
    + assert (Htier : String.eqb tier AccessLevelGovernment
                      || String.eqb tier AccessLevelFinancial = true).
      { apply orb_true_iff.
        destruct Hg as [Hg|Hg]; [left|right]; apply String.eqb_eq; exact Hg. }
      rewrite Htier.
      destruct (base <? minFee)%float;
        [|destruct (maxFee <? base)%float];
        rewrite Hempty, Hmax; reflexivity.
    + assert (Htier : String.eqb tier AccessLevelGovernment
                      || String.eqb tier AccessLevelFinancial = false).
      { apply orb_false_iff.
        split; apply String.eqb_neq; intros E; apply Hg; [left|right]; exact E. }
      rewrite Htier. unfold spec_clamp64.
      destruct (base <? minFee)%float eqn:Hlow;
        [|destruct (maxFee <? base)%float eqn:Hhigh].
      * rewrite Hmin, Hempty. reflexivity.
      * rewrite Hempty, Hmax. reflexivity.
      * rewrite Hlow, Hhigh. reflexivity.
Qed.

Lemma C4_calculatePrice64_follows_the_pricing_rule_witness :
  calculatePrice64 defaultConfig emptyDB None (ParseFloat 1000) AccessLevelPublic
  = (5%float, false, "percentage_1_percent").
Proof.
  rewrite (C4_calculatePrice64_follows_the_pricing_rule defaultConfig emptyDB
             None (ParseFloat 1000) AccessLevelPublic).
  - vm_compute. reflexivity.
  - vm_compute. reflexivity.
  - reflexivity.
Defined.

(** C4, as first stated, fails: the fee is not the rule's value in exact
    arithmetic, nor the double nearest to it.  Under the default pricing a
    public bill of 226 makes the rule 1.13; the program returns
    1.1300000000000001, one double above the double nearest to 1.13. *)
Lemma C4_exact_pricing_rule_fails :
  ~ (forall (cfg : Config) (db : DB) (userID : option string)
            (billAmount : Q) (tier : AccessLevel),
       (VerificationMinFee (Pricing cfg) <= VerificationMaxFee (Pricing cfg))%Q ->
       hasFreeCredit db userID = false ->
       let r := calculatePrice64 cfg db userID (ParseFloat billAmount) tier in
       (fst (fst r) = ParseFloat (spec_fee cfg billAmount tier)
        \/ exists exact,
             exactValue (fst (fst r)) = Some exact
             /\ (exact == spec_fee cfg billAmount tier)%Q)
       /\ snd r = spec_label cfg billAmount tier).
Proof.
  intros H.
  destruct (H defaultConfig emptyDB None 226%Q AccessLevelPublic)
    as [[Hfee|(exact & Hexact & Hrule)] _].
  - vm_compute. discriminate.
  - reflexivity.
  - apply (f_equal Prim2SF) in Hfee. vm_compute in Hfee. discriminate Hfee.
  - vm_compute in Hexact. injection Hexact as <-.
    vm_compute in Hrule. discriminate Hrule.
Qed.

(** The label turns on the same rounding: with a percentage of 0.07 and a
    maximum of 3.5, a bill of 100 makes the rule exactly 3.5, inside the
    band, while the program computes 3.5000000000000004 and caps it. *)
Example label_of_a_fee_at_the_maximum :
  let cfg := {| Pricing := {| BillGenerationFee := 1 # 2;
                              VerificationMinFee := 1;
                              VerificationMaxFee := 35 # 10;
                              VerificationPercentage := 7 # 100;
                              LoyaltyFreeEveryN := 10 |} |} in
  spec_label cfg 100 AccessLevelPublic = "percentage_1_percent"
  /\ calculatePrice64 cfg emptyDB None (ParseFloat 100) AccessLevelPublic
     = (ParseFloat (35 # 10), false, "maximum_fee_capped")
  /\ (ParseFloat (35 # 10) <? spec_base64 cfg (ParseFloat 100))%float = true.
Proof. repeat split; vm_compute; reflexivity. Qed.

Example restricted_bill_of_ten_thousand :
  calculatePrice64 defaultConfig emptyDB None (ParseFloat 10000)
    AccessLevelRestricted
  = (10%float, false, "restricted_access_premium").
Proof. vm_compute. reflexivity. Qed.

Example government_bill_prices_at_the_maximum :
  calculatePrice64 defaultConfig emptyDB None (ParseFloat 20)
    AccessLevelGovernment
  = (10%float, false, "government_financial_premium").
Proof. vm_compute. reflexivity. Qed.

(** ** Content hash *)

Example invoice_hashes_agree :
  GenerateBillHash quotedLeaf quoted bytesOf invoiceDoc
  = GenerateBillHash quotedLeaf quoted bytesOf invoiceDocReordered.
Proof. vm_compute. reflexivity. Qed.

Example invoice_normal_form :
  normalizeJSON (JMap invoiceDocReordered)
  = JMap [("amount", JPrim "1000");
          ("currency", JPrim "INR");
          ("lines", JArray [JMap [("qty", JPrim "2"); ("sku", JPrim "A1")]])].
Proof. vm_compute. reflexivity. Qed.

Lemma sort_Strings_Permutation (l l' : list string) :
  Permutation l l' -> sort_Strings l = sort_Strings l'.
Proof.
  intros Hp. unfold sort_Strings.
  apply (Sorted_unique String.le).
  - apply Sorted_merge_sort; apply _.
  - apply Sorted_merge_sort; apply _.
  - rewrite !merge_sort_Permutation. exact Hp.
Qed.

Section MapLookup.

Context {V : Type}.
Implicit Types (m p : list (string * V)) (k : string) (x : V).

Lemma mapGet_Some_elem_of m k x : mapGet m k = Some x -> (k, x) ∈ m.
Proof.
  induction m as [|[k' y] m IH]; cbn [mapGet]; [discriminate|].
  destruct (String.eqb_spec k' k) as [->|Hne].
  - intros [= ->]. left.
  - intros H. right. exact (IH H).
Qed.

Lemma elem_of_mapGet m k x :
  NoDup (map fst m) -> (k, x) ∈ m -> mapGet m k = Some x.
Proof.
  induction m as [|[k' y] m IH]; cbn [mapGet map fst].
  - intros _ Hin. inversion Hin.
  - intros [Hk' Hnd]%NoDup_cons Hin.
    apply elem_of_cons in Hin as [[= -> ->]|Hin].
    + rewrite String.eqb_refl. reflexivity.
    + destruct (String.eqb_spec k' k) as [->|Hne]; [|exact (IH Hnd Hin)].
      exfalso. apply Hk'. apply list_elem_of_In.
      change k with (fst (k, x)). apply in_map.
      apply list_elem_of_In. exact Hin.
Qed.

(** Looking a key up does not depend on the order of the entries. *)
Lemma mapGet_Permutation m p k :
  NoDup (map fst m) -> Permutation m p -> mapGet m k = mapGet p k.
Proof.
  intros Hm Hperm.
  assert (Hp : NoDup (map fst p))
    by (rewrite <- (Permutation_map fst Hperm); exact Hm).
  destruct (mapGet m k) as [x|] eqn:Em.
  - symmetry. apply elem_of_mapGet; [exact Hp|].
    rewrite <- Hperm. apply mapGet_Some_elem_of. exact Em.
  - destruct (mapGet p k) as [y|] eqn:Ep; [|reflexivity].
    apply mapGet_Some_elem_of in Ep. rewrite <- Hperm in Ep.
    apply (elem_of_mapGet _ _ _ Hm) in Ep. congruence.
Qed.

Lemma fillInOrder_ext (keys : list string) m p :
  (forall k, mapGet m k = mapGet p k) ->
  fillInOrder keys m = fillInOrder keys p.
Proof.
  intros Hext. unfold fillInOrder. generalize (@nil (string * V)) as acc.
  induction keys as [|k keys IH]; intros acc; [reflexivity|].
  cbn [fold_left]. rewrite (Hext k). apply IH.
Qed.

(** Two maps with the same entries in different orders are filled into
    the same list. *)
Lemma fillInOrder_Permutation m p :
  NoDup (map fst m) -> Permutation m p ->
  fillInOrder (sort_Strings (map fst m)) m
  = fillInOrder (sort_Strings (map fst p)) p.
Proof.
  intros Hm Hperm.
  rewrite (sort_Strings_Permutation _ _ (Permutation_map fst Hperm)).
  apply fillInOrder_ext. intros k. apply mapGet_Permutation; assumption.
Qed.

End MapLookup.

Section HashProperties.

Context {Prim : Type}.
Context (marshalPrim : Prim -> option string) (marshalKey : string -> string)
        (Sum256 : string -> list Byte.byte).

Lemma normalizeJSON_JMap (m : list (string * JSON Prim)) :
  normalizeJSON (JMap m)
  = JMap (fillInOrder (sort_Strings (map fst (normalizedEntries m)))
            (normalizedEntries m)).
Proof.
  unfold normalizedEntries. rewrite map_map. cbn [fst]. reflexivity.
Qed.

Lemma size_entry (m : list (string * JSON Prim)) (e : string * JSON Prim) :
  e ∈ m -> (size (snd e) < size (JMap m))%nat.
Proof.
  cbn [size]. induction m as [|e' m IH]; intros Hin; [inversion Hin|].
  cbn [fold_right]. apply elem_of_cons in Hin as [->|Hin]; [lia|].
  specialize (IH Hin). lia.
Qed.

Lemma size_item (l : list (JSON Prim)) (x : JSON Prim) :
  x ∈ l -> (size x < size (JArray l))%nat.
Proof.
  cbn [size]. induction l as [|y l IH]; intros Hin; [inversion Hin|].
  cbn [fold_right]. apply elem_of_cons in Hin as [->|Hin]; [lia|].
  specialize (IH Hin). lia.
Qed.

(** Documents equal as unordered-key trees have the same normal form. *)
Lemma normalizeJSON_tree_eq (n : nat) :
  forall a b : JSON Prim,
    (size a < n)%nat -> tree_eq a b -> normalizeJSON a = normalizeJSON b.
Proof.
  induction n as [|n IH]; intros a b Hsize Heq; [lia|].
  inversion Heq as [v|l l' Hall|m p m' Hnd Hperm Hall]; subst.
  - reflexivity.
  - cbn [normalizeJSON]. f_equal.
    assert (Hsmall : forall x, x ∈ l -> (size x < n)%nat).
    { intros x Hx. apply size_item in Hx. lia. }
    clear Hsize Heq. induction Hall as [|x y l l' Hxy Hall IHall]; [reflexivity|].
    cbn [map]. f_equal.
    + apply IH; [apply Hsmall; left|exact Hxy].
    + apply IHall. intros z Hz. apply Hsmall. right. exact Hz.
  - rewrite !normalizeJSON_JMap. f_equal.
    assert (Hsmall : forall e, e ∈ p -> (size (snd e) < n)%nat).
    { intros e He. rewrite <- Hperm in He. apply size_entry in He. lia. }
    assert (Hvals : normalizedEntries p = normalizedEntries m').
    { clear Hperm Heq Hsize Hnd.
      induction Hall as [|e e' p m' [Hk Hv] Hall IHall]; [reflexivity|].
      cbn [normalizedEntries map]. f_equal.
      - f_equal; [exact Hk|]. apply IH; [apply Hsmall; left|exact Hv].
      - apply IHall. intros z Hz. apply Hsmall. right. exact Hz. }
    rewrite <- Hvals.
    apply fillInOrder_Permutation.
    + unfold normalizedEntries. rewrite map_map. cbn [fst]. exact Hnd.
    + apply Permutation_map. exact Hperm.
Qed.

(** C9.  Two documents that are equal as unordered-key trees have the
    same hash (or fail to encode alike), and the hash of one verifies
    against the other. *)
Theorem C9_hash_is_blind_to_key_order (d d' : list (string * JSON Prim)) :
  tree_eq (JMap d) (JMap d') ->
  GenerateBillHash marshalPrim marshalKey Sum256 d
  = GenerateBillHash marshalPrim marshalKey Sum256 d'
  /\ forall h,
       GenerateBillHash marshalPrim marshalKey Sum256 d = Ok h ->
       VerifyBillHash marshalPrim marshalKey Sum256 d' h = Ok true.
Proof.
  intros Heq.
  assert (Hnorm : normalizeJSON (JMap d) = normalizeJSON (JMap d'))
    by (apply (normalizeJSON_tree_eq (S (size (JMap d)))); [lia|exact Heq]).
  assert (Hhash : GenerateBillHash marshalPrim marshalKey Sum256 d
                  = GenerateBillHash marshalPrim marshalKey Sum256 d')
    by (unfold GenerateBillHash; rewrite Hnorm; reflexivity).
  split; [exact Hhash|].
  intros h Hh. unfold VerifyBillHash. rewrite <- Hhash, Hh.
  rewrite String.eqb_refl. reflexivity.
Qed.

End HashProperties.

Section MarshalOrder.

Context {Prim : Type}.
Context (marshalPrim : Prim -> option string) (marshalKey : string -> string).

Local Instance byKey_trans {V : Type} : Transitive (@byKey V).
Proof. intros x y z Hxy Hyz. unfold byKey in *. etrans; eassumption. Qed.

Local Instance byKey_total {V : Type} : Total (@byKey V).
Proof. intros x y. unfold byKey. apply (total String.le). Qed.

(** Sorting the entries of a map by key does not depend on their order. *)
Lemma sort_entries_Permutation {V : Type} (m p : list (string * V)) :
  NoDup (map fst m) -> Permutation m p ->
  merge_sort (fun e1 e2 => String.le (fst e1) (fst e2)) m
  = merge_sort (fun e1 e2 => String.le (fst e1) (fst e2)) p.
Proof.
  intros Hnd Hperm.
  apply (Sorted_unique_strong (@byKey V)).
  - intros [k1 x1] [k2 x2] H1 H2 Hle Hge.
    rewrite merge_sort_Permutation in H1, H2. rewrite <- Hperm in H2.
    assert (k1 = k2) as <- by (apply (anti_symm String.le); assumption).
    apply (elem_of_mapGet _ _ _ Hnd) in H1, H2. congruence.
  - apply (Sorted_merge_sort (@byKey V)).
  - apply (Sorted_merge_sort (@byKey V)).
  - rewrite !merge_sort_Permutation. exact Hperm.
Qed.

(** [json.Marshal] writes the same bytes for documents equal as
    unordered-key trees, whatever order their maps are stored in. *)
Lemma Marshal_tree_eq (n : nat) :
  forall a b : JSON Prim,
    (size a < n)%nat -> tree_eq a b ->
    Marshal marshalPrim marshalKey a = Marshal marshalPrim marshalKey b.
Proof.
  induction n as [|n IH]; intros a b Hsize Heq; [lia|].
  inversion Heq as [v|l l' Hall|m p m' Hnd Hperm Hall]; subst.
  - reflexivity.
  - cbn [Marshal]. do 2 f_equal.
    assert (Hsmall : forall x, x ∈ l -> (size x < n)%nat).
    { intros x Hx. apply size_item in Hx. lia. }
    clear Hsize Heq. induction Hall as [|x y l l' Hxy Hall IHall]; [reflexivity|].
    cbn [map]. f_equal.
    + apply IH; [apply Hsmall; left|exact Hxy].
    + apply IHall. intros z Hz. apply Hsmall. right. exact Hz.
  - cbn [Marshal]. do 3 f_equal.
    assert (Hsmall : forall e, e ∈ p -> (size (snd e) < n)%nat).
    { intros e He. rewrite <- Hperm in He. apply size_entry in He. lia. }
    assert (Henc : map (fun e => (fst e, Marshal marshalPrim marshalKey (snd e))) p
                   = map (fun e => (fst e, Marshal marshalPrim marshalKey (snd e))) m').
    { clear Hperm Heq Hsize Hnd.
      induction Hall as [|e e' p m' [Hk Hv] Hall IHall]; [reflexivity|].
      cbn [map]. f_equal.
      - f_equal; [exact Hk|]. apply IH; [apply Hsmall; left|exact Hv].
      - apply IHall. intros z Hz. apply Hsmall. right. exact Hz. }
    rewrite <- Henc.
    apply sort_entries_Permutation.
    + rewrite map_map. cbn [fst]. exact Hnd.
    + apply Permutation_map. exact Hperm.
Qed.

End MarshalOrder.

Lemma invoice_docs_tree_eq : tree_eq (JMap invoiceDoc) (JMap invoiceDocReordered).
Proof.
  apply (tree_eq_map _ invoiceDoc
           [("currency", JPrim "INR");
            ("amount", JPrim "1000");
            ("lines", JArray [JMap [("sku", JPrim "A1"); ("qty", JPrim "2")]])]).
  - apply (bool_decide_unpack _). vm_compute. exact I.
  - exact (Permutation_app_comm
             [("amount", JPrim "1000");
              ("lines", JArray [JMap [("sku", JPrim "A1"); ("qty", JPrim "2")]])]
             [("currency", JPrim "INR")]).
  - repeat constructor.
    apply (tree_eq_map _ _ [("qty", JPrim "2"); ("sku", JPrim "A1")]).
    + apply (bool_decide_unpack _). vm_compute. exact I.
    + apply perm_swap.
    + repeat constructor.
Defined.

Lemma C9_hash_is_blind_to_key_order_witness :
  tree_eq (JMap invoiceDoc) (JMap invoiceDocReordered)
  /\ GenerateBillHash quotedLeaf quoted bytesOf invoiceDoc
     = GenerateBillHash quotedLeaf quoted bytesOf invoiceDocReordered
  /\ exists h,
       GenerateBillHash quotedLeaf quoted bytesOf invoiceDoc = Ok h
       /\ VerifyBillHash quotedLeaf quoted bytesOf invoiceDocReordered h = Ok true.
Proof.
  pose proof (C9_hash_is_blind_to_key_order quotedLeaf quoted bytesOf
                invoiceDoc invoiceDocReordered invoice_docs_tree_eq)
    as [Hsame Hverify].
  split; [exact invoice_docs_tree_eq|]. split; [exact Hsame|].
  eexists. split; [vm_compute; reflexivity|].
  apply Hverify. vm_compute. reflexivity.
Defined.

(* ===================================================================== *)
(** * Further properties of the settlement orchestrator                    *)
(* ===================================================================== *)

Section OrchestratorEffects.

Context {Payload : Type} (Unmarshal : string -> option Payload).

(** [VerifyBill] on a missing bill. *)
Lemma VerifyBill_miss (cfg : Config) (db : DB) (userID : option string)
    (billNumber ip userAgent : string) (userRole : UserRole) (elapsed : Z)
    (e : error) :
  GetByBillNumber db billNumber = Err e ->
  VerifyBill Unmarshal cfg db userID billNumber ip userAgent userRole elapsed
  = (Ok (notFoundResponse cfg billNumber),
     match userID with
     | Some _ =>
         recordVerification db userID None billNumber
           (VerificationMinFee (Pricing cfg)) false VerificationNotFound None
           ip userAgent elapsed
     | None => db
     end).
Proof. intros H. unfold VerifyBill. rewrite H. reflexivity. Qed.

(** [VerifyBill] on a found bill, by the outcome of the wallet block. *)
Lemma VerifyBill_found (cfg : Config) (db : DB) (userID : option string)
    (billNumber ip userAgent : string) (userRole : UserRole) (elapsed : Z)
    (bill : Bill.t) :
  GetByBillNumber db billNumber = Ok bill ->
  let price := calculatePrice cfg db userID (Bill.Amount bill)
                 (Bill.AccessLevel bill) in
  let fee := fst (fst price) in
  let wasFree := snd (fst price) in
  let settled :=
    match userID with
    | Some id => if negb wasFree then settle db id fee else Ok db
    | None => Ok db
    end in
  VerifyBill Unmarshal cfg db userID billNumber ip userAgent userRole elapsed
  = match settled with
    | Err e => (Err e, db)
    | Ok db1 =>
        (Ok (foundResponse Unmarshal bill userRole fee),
         match userID with
         | Some _ =>
             recordVerification db1 userID (Some (Bill.ID bill)) billNumber fee
               wasFree (foundStatus userRole bill)
               (Some (getRevealedFields (determineAccessLevel userRole bill)))
               ip userAgent elapsed
         | None => db1
         end)
    end.
Proof.
  intros H. unfold VerifyBill. rewrite H.
  destruct (calculatePrice cfg db userID (Bill.Amount bill)
              (Bill.AccessLevel bill)) as [[fee wasFree] rule].
  cbn [fst snd]. unfold foundResponse, foundStatus.
  destruct userID as [id|].
  - destruct (if negb wasFree then settle db id fee else Ok db); reflexivity.
  - reflexivity.
Qed.

Lemma settle_frame (db db' : DB) (userID : string) (fee : Q) :
  settle db userID fee = Ok db' ->
  bills db' = bills db
  /\ verifications db' = verifications db
  /\ forall other, other <> userID -> users db' !! other = users db !! other.
Proof.
  intros H. destruct (settle_Ok_user _ _ _ _ H) as [u Hu].
  rewrite (settle_spec _ _ _ fee Hu) in H.
  destruct (Qltb (User.WalletBalance u) fee); [discriminate|].
  injection H as <-. cbn [bills verifications users with_users].
  repeat split. intros other Hne. apply lookup_insert_ne. congruence.
Qed.

Lemma VerifyBill_frame
    (cfg : Config) (db : DB) (userID : option string)
    (billNumber ip userAgent : string) (userRole : UserRole) (elapsed : Z) :
  let db' := snd (VerifyBill Unmarshal cfg db userID billNumber ip userAgent
                    userRole elapsed) in
  bills db' = bills db
  /\ forall other, userID <> Some other -> users db' !! other = users db !! other.
Proof.
  cbv zeta.
  destruct (GetByBillNumber db billNumber) as [bill|e] eqn:Hbill.
  - rewrite (VerifyBill_found cfg db userID billNumber ip userAgent userRole
               elapsed bill Hbill).
    destruct userID as [id|]; [|split; reflexivity].
    destruct (negb _).
    + destruct (settle db id _) as [db1|e] eqn:Hs; [|split; reflexivity].
      destruct (settle_frame _ _ _ _ Hs) as (Hb & _ & Hu).
      cbn [snd]. split; [exact Hb|].
      intros other Hne. rewrite recordVerification_users. apply Hu. congruence.
    + split; reflexivity.
  - rewrite (VerifyBill_miss cfg db userID billNumber ip userAgent userRole
               elapsed e Hbill).
    destruct userID; split; reflexivity.
Qed.

(** X1.  Whatever the inputs and the outcome, a call of [VerifyBill]
    leaves the bills table as it was and touches no user row other than the
    requester's. *)
Theorem VerifyBill_touches_only_the_requester
    (cfg : Config) (db : DB) (userID : option string)
    (billNumber ip userAgent : string) (userRole : UserRole) (elapsed : Z) :
  let db' := snd (VerifyBill Unmarshal cfg db userID billNumber ip userAgent
                    userRole elapsed) in
  bills db' = bills db
  /\ forall other, userID <> Some other -> users db' !! other = users db !! other.
Proof. apply VerifyBill_frame. Qed.

Lemma VerifyBill_audit_rows
    (cfg : Config) (db : DB) (userID : option string)
    (billNumber ip userAgent : string) (userRole : UserRole) (elapsed : Z) :
  let run := VerifyBill Unmarshal cfg db userID billNumber ip userAgent
               userRole elapsed in
  match fst run, userID with
  | Ok _, Some id =>
      exists row,
        verifications (snd run) = (verifications db ++ [row])%list
        /\ Verification.VerifierID row = Some id
        /\ Verification.BillNumber row = billNumber
        /\ writtenStatus (Verification.VerificationStatus row)
  | _, _ => verifications (snd run) = verifications db
  end.
Proof.
  cbv zeta.
  destruct (GetByBillNumber db billNumber) as [bill|e] eqn:Hbill.
  - rewrite (VerifyBill_found cfg db userID billNumber ip userAgent userRole
               elapsed bill Hbill).
    destruct userID as [id|]; [|reflexivity].
    assert (Hst : writtenStatus (foundStatus userRole bill)).
    { unfold foundStatus, writtenStatus.
      destruct (String.eqb _ _); auto. }
    destruct (negb _).
    + destruct (settle db id _) as [db1|e] eqn:Hs; [|reflexivity].
      destruct (settle_frame _ _ _ _ Hs) as (_ & Hv & _).
      cbn [fst snd]. eexists. rewrite <- Hv.
      split; [reflexivity|]. repeat split. exact Hst.
    + cbn [fst snd]. eexists. split; [reflexivity|]. repeat split. exact Hst.
  - rewrite (VerifyBill_miss cfg db userID billNumber ip userAgent userRole
               elapsed e Hbill).
    destruct userID as [id|]; [|reflexivity].
    cbn [fst snd]. eexists. split; [reflexivity|]. repeat split.
    unfold writtenStatus. auto.
Qed.


(** What the column keeps of a double is a whole number of hundredths. *)
Lemma toNumeric_hundredths (precision : Z) (v : float64) :
  toNumeric precision v = None
  \/ exists hundredths,
       toNumeric precision v = Some (hundredths # 100)
       /\ (Z.abs hundredths < 10 ^ precision)%Z.
Proof.
  unfold toNumeric. destruct (exactValue v) as [exact|]; [|left; reflexivity].
  cbv zeta.
  match goal with
  | |- context [if (Z.abs ?h <? _)%Z then _ else _] =>
      destruct (Z.ltb_spec (Z.abs h) (10 ^ precision)) as [Hlt|Hge];
      [right; exists h; split; [reflexivity|exact Hlt]|left; reflexivity]
  end.
Qed.

(** X3.  What a charge does to the wallet, as the wallet block computes
    it.  The block settles only when the balance read from the column is
    not below the fee; the wallet then holds what the column
    [wallet_balance] keeps of the difference formed in [float64]: a whole
    number of hundredths, not below zero and below 10^8.  The other users,
    the bills and the audit rows are as before. *)
Theorem settle64_stores_the_rounded_difference
    (db db' : DB) (userID : string) (fee : float64) :
  settle64 db userID fee = Settled db' ->
  exists user hundredths,
    GetByID db userID = Ok user
    /\ (ParseFloat (User.WalletBalance user) <? fee)%float = false
    /\ toNumeric 10 (ParseFloat (User.WalletBalance user) - fee)%float
       = Some (hundredths # 100)
    /\ (0 <= hundredths < 10 ^ 10)%Z
    /\ balanceOf db' userID = hundredths # 100
    /\ verificationCountOf db' userID
       = Some (User.VerificationCount user + 1)%Z
    /\ (forall other, other <> userID ->
          users db' !! other = users db !! other)
    /\ bills db' = bills db
    /\ verifications db' = verifications db.
Proof.
  unfold settle64.
  destruct (GetByID db userID) as [user|e] eqn:Hu; [|discriminate].
  destruct (ParseFloat (User.WalletBalance user) <? fee)%float eqn:Hfunds;
    [discriminate|].
  unfold UpdateWalletBalance64.
  destruct (toNumeric_hundredths 10
              (ParseFloat (User.WalletBalance user) - fee)%float)
    as [Hnone|(hundredths & Hsome & Hbound)].
  { rewrite Hnone. discriminate. }
  rewrite Hsome.
  destruct (Qle_bool 0 (hundredths # 100)) eqn:Hsign; [|discriminate].
  apply GetByID_Ok in Hu as Hlookup. destruct Hlookup as [Hlookup _].
  unfold UpdateWalletBalance. rewrite Hlookup.
  unfold IncrementVerificationCount. cbn [users with_users].
  rewrite lookup_insert_eq. cbn [snd].
  intros [= <-]. exists user, hundredths.
  split; [reflexivity|]. split; [exact Hfunds|]. split; [exact Hsome|].
  split.
  { apply Qle_bool_iff in Hsign. unfold Qle in Hsign. cbn in Hsign.
    change (10 ^ 10)%Z with 10000000000%Z in *. lia. }
  unfold balanceOf, verificationCountOf.
  cbn [users with_users bills verifications].
  rewrite lookup_insert_eq. cbn.
  repeat split. intros other Hne.
  rewrite lookup_insert_ne by congruence.
  apply lookup_insert_ne. congruence.
Qed.

(** X4.  A call by a requester for a bill number with no row succeeds
    with the not-found response, which states the configured minimum fee,
    while no user row changes: the fee stated is taken from no wallet.  The
    audit row, when one is appended, has the status [not_found], no bill
    id, and is not marked free. *)
Theorem VerifyBill_miss_charges_nothing
    (cfg : Config) (db : DB) (userID billNumber ip userAgent : string)
    (userRole : UserRole) (elapsed : Z) (e : error) :
  GetByBillNumber db billNumber = Err e ->
  exists db',
    VerifyBill Unmarshal cfg db (Some userID) billNumber ip userAgent userRole
      elapsed = (Ok (notFoundResponse cfg billNumber), db')
    /\ VerifyBillResponse.Fee (notFoundResponse (Payload := Payload) cfg billNumber)
       = VerificationMinFee (Pricing cfg)
    /\ users db' = users db
    /\ bills db' = bills db
    /\ (verifications db' = verifications db
        \/ exists row,
             verifications db' = (verifications db ++ [row])%list
             /\ Verification.VerifierID row = Some userID
             /\ Verification.BillID row = None
             /\ Verification.VerificationStatus row = VerificationNotFound
             /\ Verification.WasFree row = false).
Proof.
  intros Hmiss.
  rewrite (VerifyBill_miss cfg db (Some userID) billNumber ip userAgent
             userRole elapsed e Hmiss).
  eexists. split; [reflexivity|]. split; [reflexivity|].
  split; [reflexivity|]. split; [reflexivity|].
  right. eexists. split; [reflexivity|]. repeat split.
Qed.

(** X9.  A requester id with no active user row: on a found bill the call
    fails with the wrapped user-not-found error and the store is left as
    it was. *)
Theorem VerifyBill_unknown_requester_fails
    (cfg : Config) (db : DB) (userID billNumber ip userAgent : string)
    (userRole : UserRole) (elapsed : Z) (bill : Bill.t) (e : error) :
  GetByBillNumber db billNumber = Ok bill ->
  GetByID db userID = Err e ->
  VerifyBill Unmarshal cfg db (Some userID) billNumber ip userAgent userRole
    elapsed = (Err (FailedToGetUser UserNotFound), db).
Proof.
  intros Hbill Huser.
  assert (He : e = UserNotFound).
  { unfold GetByID in Huser. destruct (users db !! userID) as [u|];
      [destruct (User.IsActive u)|]; congruence. }
  subst e.
  rewrite (VerifyBill_found cfg db (Some userID) billNumber ip userAgent
             userRole elapsed bill Hbill).
  cbv zeta.
  assert (Hfree : hasFreeCredit db (Some userID) = false)
    by (unfold hasFreeCredit; rewrite Huser; reflexivity).
  rewrite (calculatePrice_paid _ _ _ _ _ Hfree). cbn [negb].
  unfold settle. rewrite Huser. reflexivity.
Qed.

End OrchestratorEffects.

(** ** Bounds of the fee *)

(** X5.  The fee of [calculatePrice] for any configuration, store,
    requester, amount and tier text: a waived fee is zero with the loyalty
    label; a charged fee never exceeds the maximum fee, is at least the
    minimum fee when the band is well formed, and is exactly the maximum
    fee when the configured minimum lies above the maximum. *)
Theorem calculatePrice_fee_bounds
    (cfg : Config) (db : DB) (userID : option string) (billAmount : Q)
    (tier : AccessLevel) :
  let r := calculatePrice cfg db userID billAmount tier in
  let minFee := VerificationMinFee (Pricing cfg) in
  let maxFee := VerificationMaxFee (Pricing cfg) in
  if snd (fst r)
  then fst (fst r) = 0%Q /\ snd r = "loyalty_free"
  else (fst (fst r) <= maxFee)%Q
       /\ ((minFee <= maxFee)%Q -> (minFee <= fst (fst r))%Q)
       /\ ((maxFee < minFee)%Q -> (fst (fst r) == maxFee)%Q).
Proof.
  cbv zeta. unfold calculatePrice. fold (hasFreeCredit db userID).
  destruct (hasFreeCredit db userID); [split; reflexivity|].
  cbv zeta.
  remember (VerificationMinFee (Pricing cfg)) as minFee eqn:Hmin.
  remember (VerificationMaxFee (Pricing cfg)) as maxFee eqn:Hmax.
  remember (billAmount * VerificationPercentage (Pricing cfg) * (1 # 2))%Q
    as base eqn:Hbase.
  clear Hmin Hmax Hbase.
  destruct (Qltb base minFee) eqn:H1; [|destruct (Qltb maxFee base) eqn:H2];
    (destruct (String.eqb tier AccessLevelRestricted);
     [|destruct (String.eqb tier AccessLevelGovernment
                 || String.eqb tier AccessLevelFinancial)]);
    cbn [fst snd];
    repeat match goal with
           | |- context [Qltb ?a minFee] => destruct (Qltb a minFee) eqn:?
           end;
    repeat match goal with
           | |- context [Qltb maxFee ?a] => destruct (Qltb maxFee a) eqn:?
           end;
    qltb_facts; cbn [fst snd]; repeat split; intros; lra.
Qed.

(** ** Disclosure *)

Section Responses.

Context {Payload : Type} (Unmarshal : string -> option Payload).

Lemma buildVerificationResponse_Details (bill : Bill.t) (accessLevel : string)
    (fee : Q) :
  VerifyBillResponse.Details
    (buildVerificationResponse Unmarshal bill accessLevel fee)
  = if String.eqb accessLevel "full" then
      match Unmarshal (Bill.BillData bill) with
      | Some billData => FullDetails billData
      | None => NoDetails
      end
    else if String.eqb accessLevel "limited"
    then LimitedDetails (Bill.Amount bill) (Bill.Currency bill)
    else NoDetails.
Proof.
  unfold buildVerificationResponse.
  destruct (String.eqb accessLevel "full");
    [destruct (Unmarshal (Bill.BillData bill)); reflexivity|].
  destruct (String.eqb accessLevel "limited"); [reflexivity|].
  destruct (String.eqb accessLevel "none"); reflexivity.
Qed.

Lemma foundResponse_Details (bill : Bill.t) (userRole : UserRole) (fee : Q) :
  VerifyBillResponse.Details (foundResponse Unmarshal bill userRole fee)
  = VerifyBillResponse.Details
      (buildVerificationResponse Unmarshal bill
         (determineAccessLevel userRole bill) fee).
Proof.
  unfold foundResponse. destruct (String.eqb _ "none"); reflexivity.
Qed.

Lemma VerifyBill_disclosure
    (cfg : Config) (db db' : DB) (userID : option string)
    (billNumber ip userAgent : string) (userRole : UserRole) (elapsed : Z)
    (bill : Bill.t) (response : VerifyBillResponse.t Payload) :
  GetByBillNumber db billNumber = Ok bill ->
  VerifyBill Unmarshal cfg db userID billNumber ip userAgent userRole elapsed
    = (Ok response, db') ->
  (forall billData,
     VerifyBillResponse.Details response = FullDetails billData ->
     determineAccessLevel userRole bill = "full"
     /\ Unmarshal (Bill.BillData bill) = Some billData)
  /\ ((Bill.AccessLevel bill = AccessLevelGovernment
       \/ Bill.AccessLevel bill = AccessLevelFinancial) ->
      userRole <> RoleVerifier -> userRole <> RoleMasterAdmin ->
      VerifyBillResponse.Details response = NoDetails
      /\ VerifyBillResponse.Status response = "restricted")
  /\ (Bill.AccessLevel bill = AccessLevelRestricted ->
      userRole <> RoleInstitutionUser -> userRole <> RoleInstitutionAdmin ->
      userRole <> RoleVerifier -> userRole <> RoleMasterAdmin ->
      VerifyBillResponse.Details response
      = LimitedDetails (Bill.Amount bill) (Bill.Currency bill)).
Proof.
  intros Hbill Hrun.
  rewrite (VerifyBill_found Unmarshal cfg db userID billNumber ip userAgent
             userRole elapsed bill Hbill) in Hrun.
  cbv zeta in Hrun.
  match type of Hrun with
  | match ?s with _ => _ end = _ => destruct s as [db1|e]; [|discriminate]
  end.
  injection Hrun as <- _.
  split; [|split].
  - intros billData. rewrite foundResponse_Details, buildVerificationResponse_Details.
    destruct (String.eqb_spec (determineAccessLevel userRole bill) "full")
      as [Hfull|Hfull].
    + destruct (Unmarshal (Bill.BillData bill)); [|discriminate].
      intros [= ->]. auto.
    + destruct (String.eqb _ "limited"); discriminate.
  - intros Htier Hv Ha.
    assert (Hnone : determineAccessLevel userRole bill = "none").
    { destruct (determineAccessLevel_table userRole bill) as (_ & _ & Hgov).
      rewrite (Hgov Htier).
      apply String.eqb_neq in Hv, Ha. rewrite Hv, Ha. reflexivity. }
    unfold foundResponse. rewrite Hnone. cbn [String.eqb Ascii.eqb Bool.eqb].
    split; [|reflexivity].
    cbn [with_status_message VerifyBillResponse.Details].
    rewrite buildVerificationResponse_Details. reflexivity.
  - intros Htier H1 H2 H3 H4.
    assert (Hlim : determineAccessLevel userRole bill = "limited").
    { destruct (determineAccessLevel_table userRole bill) as (_ & Hres & _).
      rewrite (Hres Htier).
      apply String.eqb_neq in H1, H2, H3, H4. rewrite H1, H2, H3, H4.
      reflexivity. }
    rewrite foundResponse_Details, buildVerificationResponse_Details, Hlim.
    reflexivity.
Qed.

(** X8.  What a successful call discloses of a found bill.  The stored
    payload is in the response only when the role and tier resolve to
    [full]; a government or financial bill gives a requester who is
    neither verifier nor master admin no details and the status
    [restricted]; a restricted bill gives a requester outside the four
    privileged roles the amount and the currency and nothing else. *)
Theorem VerifyBill_discloses_by_role_and_tier
    (cfg : Config) (db db' : DB) (userID : option string)
    (billNumber ip userAgent : string) (userRole : UserRole) (elapsed : Z)
    (bill : Bill.t) (response : VerifyBillResponse.t Payload) :
  GetByBillNumber db billNumber = Ok bill ->
  VerifyBill Unmarshal cfg db userID billNumber ip userAgent userRole elapsed
    = (Ok response, db') ->
  (forall billData,
     VerifyBillResponse.Details response = FullDetails billData ->
     determineAccessLevel userRole bill = "full"
     /\ Unmarshal (Bill.BillData bill) = Some billData)
  /\ ((Bill.AccessLevel bill = AccessLevelGovernment
       \/ Bill.AccessLevel bill = AccessLevelFinancial) ->
      userRole <> RoleVerifier -> userRole <> RoleMasterAdmin ->
      VerifyBillResponse.Details response = NoDetails
      /\ VerifyBillResponse.Status response = "restricted")
  /\ (Bill.AccessLevel bill = AccessLevelRestricted ->
      userRole <> RoleInstitutionUser -> userRole <> RoleInstitutionAdmin ->
      userRole <> RoleVerifier -> userRole <> RoleMasterAdmin ->
      VerifyBillResponse.Details response
      = LimitedDetails (Bill.Amount bill) (Bill.Currency bill)).
Proof. apply VerifyBill_disclosure. Qed.

(** ** A banked credit is never used up *)

Lemma GetByBillNumber_bills (db db' : DB) (billNumber : string) :
  bills db' = bills db ->
  GetByBillNumber db' billNumber = GetByBillNumber db billNumber.
Proof. intros H. unfold GetByBillNumber. rewrite H. reflexivity. Qed.

Lemma hasFreeCredit_row (db db' : DB) (userID : string) :
  users db' !! userID = users db !! userID ->
  hasFreeCredit db' (Some userID) = hasFreeCredit db (Some userID).
Proof.
  intros H. unfold hasFreeCredit, GetByID. rewrite H. reflexivity.
Qed.

(** One call served while [userID] holds a banked credit. *)
Lemma VerifyBill_with_banked_credit (cfg : Config) (db : DB) (userID : string)
    (c : verifyCall) :
  hasFreeCredit db (Some userID) = true ->
  let run := VerifyBill Unmarshal cfg db (callUserID c) (callBillNumber c)
               (callIP c) (callUserAgent c) (callRole c) (callElapsed c) in
  users (snd run) !! userID = users db !! userID
  /\ bills (snd run) = bills db
  /\ (callUserID c = Some userID ->
      match GetByBillNumber db (callBillNumber c) with
      | Ok bill => fst run = Ok (foundResponse Unmarshal bill (callRole c) 0)
      | Err _ => fst run = Ok (notFoundResponse cfg (callBillNumber c))
      end).
Proof.
  intros Hfree run.
  destruct (VerifyBill_frame Unmarshal cfg db
              (callUserID c) (callBillNumber c) (callIP c) (callUserAgent c)
              (callRole c) (callElapsed c)) as [Hb Hframe].
  fold run in Hb, Hframe.
  destruct (decide (callUserID c = Some userID)) as [Hme|Hother].
  - subst run. rewrite Hme.
    destruct (GetByBillNumber db (callBillNumber c)) as [bill|e] eqn:Hbill.
    + rewrite (VerifyBill_found Unmarshal cfg db (Some userID) _ (callIP c)
                 (callUserAgent c) (callRole c) (callElapsed c) bill Hbill).
      cbv zeta. rewrite (calculatePrice_free _ _ _ _ _ Hfree).
      cbn [fst snd negb]. rewrite recordVerification_users. auto.
    + rewrite (VerifyBill_miss Unmarshal cfg db (Some userID) _ (callIP c)
                 (callUserAgent c) (callRole c) (callElapsed c) e Hbill).
      cbn [fst snd]. rewrite recordVerification_users. auto.
  - split; [exact (Hframe userID Hother)|]. split; [exact Hb|].
    intros Hme. contradiction.
Qed.

(** X7.  Once a user holds a banked free credit, [VerifyBill] never uses it
    up.  Through any run of calls, by this user or by others, the user's
    row (balance, verification count, credits) stays as it was, and each
    of the user's own calls is answered with fee zero on a found bill and
    with the not-found response on a missing one. *)
Theorem banked_credit_waives_every_later_call
    (cfg : Config) (userID : string) (calls : list verifyCall) (db : DB) :
  hasFreeCredit db (Some userID) = true ->
  let run := serveAll Unmarshal cfg db calls in
  users (snd run) !! userID = users db !! userID
  /\ bills (snd run) = bills db
  /\ Forall2
       (fun c r =>
          callUserID c = Some userID ->
          match GetByBillNumber db (callBillNumber c) with
          | Ok bill => r = Ok (foundResponse Unmarshal bill (callRole c) 0)
          | Err _ => r = Ok (notFoundResponse cfg (callBillNumber c))
          end)
       calls (fst run).
Proof.
  revert db. induction calls as [|c calls IH]; intros db Hfree.
  - cbn. repeat split. constructor.
  - cbn [serveAll].
    destruct (VerifyBill_with_banked_credit cfg db userID c Hfree)
      as (Hu & Hb & Hr).
    destruct (VerifyBill Unmarshal cfg db (callUserID c) (callBillNumber c)
                (callIP c) (callUserAgent c) (callRole c) (callElapsed c))
      as [r db1].
    cbn [fst snd] in Hu, Hb, Hr.
    assert (Hfree1 : hasFreeCredit db1 (Some userID) = true)
      by (rewrite (hasFreeCredit_row db db1 _ Hu); exact Hfree).
    specialize (IH db1 Hfree1). cbv zeta in IH.
    destruct (serveAll Unmarshal cfg db1 calls) as [rs db2].
    cbn [fst snd] in *. destruct IH as (IHu & IHb & IHr).
    split; [congruence|]. split; [congruence|].
    constructor; [exact Hr|].
    eapply Forall2_impl; [exact IHr|].
    intros c' r'. cbv beta. rewrite (GetByBillNumber_bills db db1 _ Hb). auto.
Qed.

End Responses.

(* ===================================================================== *)
(** * The verification handler                                              *)
(* ===================================================================== *)

Lemma slicePrefix_length (n : nat) (s prefix : string) :
  slicePrefix n s = Some prefix -> String.length prefix = n.
Proof.
  revert s prefix. induction n as [|n IH]; intros s prefix; cbn [slicePrefix].
  - intros [= <-]. reflexivity.
  - destruct s as [|c rest]; [discriminate|].
    destruct (slicePrefix n rest) as [p|] eqn:Hp; [|discriminate].
    intros [= <-]. cbn [String.length]. f_equal. exact (IH _ _ Hp).
Qed.

Lemma slicePrefix_Some (n : nat) (s : string) :
  (n <= String.length s)%nat -> exists prefix, slicePrefix n s = Some prefix.
Proof.
  revert s. induction n as [|n IH]; intros s Hlen; cbn [slicePrefix]; [eauto|].
  destruct s as [|c rest]; cbn [String.length] in Hlen; [lia|].
  destruct (IH rest) as [p Hp]; [lia|]. rewrite Hp. cbn. eauto.
Qed.

(** The wallet test of the handlers compares twenty bytes with a text of
    nineteen: it holds for no message. *)
Lemma isInsufficientWallet_never_true (message : string) :
  isInsufficientWallet message <> Some true.
Proof.
  unfold isInsufficientWallet.
  destruct (slicePrefix 20 message) as [prefix|] eqn:Hp; [|discriminate].
  cbn [option_map]. intros [= Heq]. apply String.eqb_eq in Heq.
  apply slicePrefix_length in Hp. rewrite Heq in Hp. discriminate Hp.
Qed.

Lemma length_append (s1 s2 : string) :
  String.length (s1 ++ s2) = (String.length s1 + String.length s2)%nat.
Proof.
  induction s1 as [|c s1 IH]; [reflexivity|].
  change (S (String.length (s1 ++ s2)) = S (String.length s1 + String.length s2)).
  f_equal. exact IH.
Qed.

Section VerificationHandlerProperties.

Context {Payload : Type} (Unmarshal : string -> option Payload).
Context (formatAmount : Q -> string) (requiredError : string).

(** The failures [VerifyBill] can return in the model of the store. *)
Lemma VerifyBill_errors (cfg : Config) (db db' : DB) (userID : option string)
    (billNumber ip userAgent : string) (userRole : UserRole) (elapsed : Z)
    (e : error) :
  VerifyBill Unmarshal cfg db userID billNumber ip userAgent userRole elapsed
    = (Err e, db') ->
  db' = db
  /\ (e = FailedToGetUser UserNotFound
      \/ exists required available,
           e = InsufficientWalletBalance required available).
Proof.
  destruct (GetByBillNumber db billNumber) as [bill|e0] eqn:Hbill.
  - rewrite (VerifyBill_found Unmarshal cfg db userID billNumber ip userAgent
               userRole elapsed bill Hbill).
    cbv zeta. destruct userID as [id|]; [|discriminate].
    destruct (negb _); [|discriminate].
    destruct (settle db id _) as [db1|e1] eqn:Hs; [discriminate|].
    intros [= <- <-]. split; [reflexivity|].
    unfold settle in Hs.
    destruct (GetByID db id) as [u|e2] eqn:Hu.
    + destruct (Qltb (User.WalletBalance u) _).
      * injection Hs as <-. right. eauto.
      * apply GetByID_Ok in Hu as [Hu _].
        unfold UpdateWalletBalance in Hs. rewrite Hu in Hs. discriminate Hs.
    + injection Hs as <-. left. f_equal.
      unfold GetByID in Hu. destruct (users db !! id) as [u|];
        [destruct (User.IsActive u)|]; congruence.
  - rewrite (VerifyBill_miss Unmarshal cfg db userID billNumber ip userAgent
               userRole elapsed e0 Hbill). discriminate.
Qed.

(** X10.  The verification handler never answers 402 Payment Required and
    never panics on a failure of [VerifyBill]: a rejected binding is
    answered 400, a success 200 with the result, and every failure of the
    service, the insufficient balance included, 500 with the fixed text
    "Verification failed. Please try again.". *)
Theorem VerificationHandler_VerifyBill_never_answers_402
    (cfg : Config) (db : DB) (ctxUserID ctxRole : option string)
    (request : string + string) (ip userAgent : string) (elapsed : Z) :
  match fst (VerificationHandler.VerifyBill Unmarshal formatAmount
               requiredError cfg db ctxUserID ctxRole request ip userAgent
               elapsed) with
  | Responded code body =>
      code <> StatusPaymentRequired
      /\ match body with
         | SuccessBody _ => code = StatusOK
         | ValidationBody _ => code = StatusBadRequest
         | ErrorBody message =>
             code = StatusInternalServerError
             /\ message = "Verification failed. Please try again."
         end
  | Panicked => False
  end.
Proof.
  unfold VerificationHandler.VerifyBill.
  destruct request as [billNumber|bindError];
    [|cbn; split; [discriminate|reflexivity]].
  destruct billNumber as [|c billNumber];
    [cbn; split; [discriminate|reflexivity]|].
  cbv zeta.
  destruct (VerifyBill Unmarshal cfg db ctxUserID (String c billNumber) ip
              userAgent _ elapsed) as [[result|err] db'] eqn:Hrun;
    [cbn; split; [discriminate|reflexivity]|].
  pose proof (isInsufficientWallet_never_true (errorString formatAmount err))
    as Hnever.
  destruct (isInsufficientWallet (errorString formatAmount err))
    as [[|]|] eqn:Htest; [congruence| |].
  - cbn. split; [discriminate|]. split; reflexivity.
  - exfalso. apply VerifyBill_errors in Hrun as [_ [->|(r & a & ->)]].
    + cbn in Htest. discriminate Htest.
    + unfold isInsufficientWallet in Htest.
      destruct (slicePrefix_Some 20
                  (errorString formatAmount (InsufficientWalletBalance r a)))
        as [p Hp].
      * cbn [errorString]. rewrite length_append. cbn. lia.
      * rewrite Hp in Htest. discriminate Htest.
Qed.

End VerificationHandlerProperties.

(* ===================================================================== *)
(** * Statistics and history of a verifier                                  *)
(* ===================================================================== *)

Lemma wrap64_small (z : Z) :
  (- 2 ^ 63 <= z < 2 ^ 63)%Z -> wrap64 z = z.
Proof.
  intros H. unfold wrap64. rewrite Z.mod_small; lia.
Qed.

Lemma countStatus_cons (v : Verification.t) (rows : list Verification.t)
    (status : string) :
  VerificationRepository.countStatus (v :: rows) status
  = ((if String.eqb (Verification.VerificationStatus v) status then 1 else 0)
     + VerificationRepository.countStatus rows status)%Z.
Proof.
  unfold VerificationRepository.countStatus. cbn [List.filter].
  destruct (String.eqb _ status); cbn [length]; lia.
Qed.

Lemma countStatus_nonneg (rows : list Verification.t) (status : string) :
  (0 <= VerificationRepository.countStatus rows status)%Z.
Proof. unfold VerificationRepository.countStatus. lia. Qed.

(** Rows that carry written statuses only: none counts as invalid, and the
    valid, restricted and not-found rows make up all of them. *)
Lemma written_rows_counts (rows : list Verification.t) :
  Forall (fun v => writtenStatus (Verification.VerificationStatus v)) rows ->
  VerificationRepository.countStatus rows "invalid" = 0%Z
  /\ Z.of_nat (length rows)
     = (VerificationRepository.countStatus rows "valid"
        + VerificationRepository.countStatus rows "restricted"
        + VerificationRepository.countStatus rows "not_found")%Z.
Proof.
  induction 1 as [|v rows Hv _ [IH0 IH]].
  - split; reflexivity.
  - rewrite !countStatus_cons, IH0. cbn [length].
    rewrite Nat2Z.inj_succ, IH.
    destruct Hv as [-> | [-> | ->]]; cbn; split; lia.
Qed.

Lemma rowsOf_written (db : DB) (verifierID : string) :
  auditWritten db ->
  Forall (fun v => writtenStatus (Verification.VerificationStatus v))
         (VerificationRepository.rowsOf db verifierID).
Proof.
  unfold auditWritten, VerificationRepository.rowsOf. intros H.
  apply List.Forall_forall. intros v Hin. apply filter_In in Hin as [Hin _].
  rewrite List.Forall_forall in H. exact (H v Hin).
Qed.

Section Statistics.

Context {Payload : Type} (Unmarshal : string -> option Payload).

Lemma VerifyBill_keeps_auditWritten (cfg : Config) (db : DB)
    (userID : option string) (billNumber ip userAgent : string)
    (userRole : UserRole) (elapsed : Z) :
  auditWritten db ->
  auditWritten (snd (VerifyBill Unmarshal cfg db userID billNumber ip
                       userAgent userRole elapsed)).
Proof.
  intros Hdb.
  pose proof (VerifyBill_audit_rows Unmarshal cfg db userID
                billNumber ip userAgent userRole elapsed) as H.
  cbv zeta in H. unfold auditWritten in *.
  destruct (fst (VerifyBill Unmarshal cfg db userID billNumber ip userAgent
                   userRole elapsed)) as [r|e];
    [destruct userID as [id|]|]; try (rewrite H; exact Hdb).
  destruct H as (row & -> & _ & _ & Hst).
  apply Forall_app. split; [exact Hdb|]. constructor; [exact Hst|constructor].
Qed.

Lemma serveAll_keeps_auditWritten (cfg : Config) (calls : list verifyCall)
    (db : DB) :
  auditWritten db -> auditWritten (snd (serveAll Unmarshal cfg db calls)).
Proof.
  revert db. induction calls as [|c calls IH]; intros db Hdb; [exact Hdb|].
  cbn [serveAll].
  pose proof (VerifyBill_keeps_auditWritten cfg db (callUserID c)
                (callBillNumber c) (callIP c) (callUserAgent c) (callRole c)
                (callElapsed c) Hdb) as H1.
  destruct (VerifyBill Unmarshal cfg db (callUserID c) (callBillNumber c)
              (callIP c) (callUserAgent c) (callRole c) (callElapsed c))
    as [r db1].
  cbn [snd] in H1. specialize (IH db1 H1).
  destruct (serveAll Unmarshal cfg db1 calls) as [rs db2]. exact IH.
Qed.

(** X11.  On an audit table that [VerifyBill] alone has written (from an
    audit table whose rows carry written statuses, through any run of
    calls), the statistics of every verifier report no invalid
    verification, although a missing bill is answered with the status
    [invalid]; the total is the sum of the valid, restricted and not-found
    rows, and the success rate lies between 0 and 100. *)
Theorem statistics_never_count_an_invalid_verification
    (cfg : Config) (db : DB) (calls : list verifyCall) (verifierID : string) :
  auditWritten db ->
  let db' := snd (serveAll Unmarshal cfg db calls) in
  let stats := VerificationService.GetVerificationStats db' verifierID in
  VerificationRepository.InvalidCount stats = 0%Z
  /\ VerificationRepository.TotalVerifications stats
     = (VerificationRepository.ValidCount stats
        + VerificationRepository.RestrictedCount stats
        + VerificationRepository.countStatus
            (VerificationRepository.rowsOf db' verifierID) "not_found")%Z
  /\ (0 <= VerificationRepository.SuccessRate stats <= 100)%Q.
Proof.
  intros Hdb db' stats.
  pose proof (rowsOf_written db' verifierID
                (serveAll_keeps_auditWritten cfg calls db Hdb)) as Hrows.
  destruct (written_rows_counts _ Hrows) as [Hinv Htotal].
  subst stats.
  unfold VerificationService.GetVerificationStats,
    VerificationRepository.GetStatsByVerifier.
  cbv zeta.
  cbn [VerificationRepository.InvalidCount
         VerificationRepository.TotalVerifications
         VerificationRepository.ValidCount
         VerificationRepository.RestrictedCount
         VerificationRepository.SuccessRate].
  split; [exact Hinv|]. split; [exact Htotal|].
  set (rows := VerificationRepository.rowsOf db' verifierID) in *.
  pose proof (countStatus_nonneg rows "valid") as Hv.
  pose proof (countStatus_nonneg rows "restricted") as Hr.
  pose proof (countStatus_nonneg rows "not_found") as Hn.
  destruct (0 <? Z.of_nat (length rows))%Z eqn:Hpos; [|split; lra].
  apply Z.ltb_lt in Hpos.
  set (valid := VerificationRepository.countStatus rows "valid") in *.
  set (total := Z.of_nat (length rows)) in *.
  assert (Ht : (0 < inject_Z total)%Q)
    by (change 0%Q with (inject_Z 0); rewrite <- Zlt_Qlt; exact Hpos).
  assert (Hlo : (0 <= inject_Z valid / inject_Z total)%Q).
  { apply Qle_shift_div_l; [exact Ht|]. rewrite Qmult_0_l.
    change 0%Q with (inject_Z 0). rewrite <- Zle_Qle. exact Hv. }
  assert (Hhi : (inject_Z valid / inject_Z total <= 1)%Q).
  { apply Qle_shift_div_r; [exact Ht|]. rewrite Qmult_1_l.
    rewrite <- Zle_Qle. lia. }
  split; lra.
Qed.

End Statistics.

(** ** Pages of the history *)

Lemma firstn_app_skipn {A : Type} (a b : nat) (l : list A) :
  (firstn a l ++ firstn b (skipn a l))%list = firstn (a + b) l.
Proof.
  revert l. induction a as [|a IH]; intros l; [reflexivity|].
  destruct l as [|x l]; [cbn; rewrite firstn_nil; reflexivity|].
  cbn [firstn skipn Nat.add]. rewrite <- app_comm_cons. f_equal. apply IH.
Qed.

Lemma chunks_concat {A : Type} (n k : nat) (l : list A) :
  concat (map (fun i => firstn n (skipn (i * n) l)) (seq 0 k))
  = firstn (k * n) l.
Proof.
  induction k as [|k IH]; [reflexivity|].
  rewrite seq_S, map_app, concat_app, IH. cbn [map concat Nat.add].
  rewrite app_nil_r, firstn_app_skipn. f_equal. lia.
Qed.

Lemma rowsOf_length_le (db : DB) (userID : string) :
  (length (VerificationRepository.rowsOf db userID)
   <= length (verifications db))%nat.
Proof.
  unfold VerificationRepository.rowsOf.
  induction (verifications db) as [|v l IH]; [reflexivity|].
  cbn [List.filter]. destruct (match Verification.VerifierID v with
                               | Some id => String.eqb id userID
                               | None => false
                               end); cbn [length]; lia.
Qed.

(** A page of the history within the range of the 64-bit offset. *)
Lemma GetVerificationHistory_page (db : DB) (userID : string)
    (page pageSize : Z) :
  (1 <= page)%Z -> (0 <= pageSize)%Z -> ((page - 1) * pageSize < 2 ^ 63)%Z ->
  VerificationService.GetVerificationHistory db userID page pageSize
  = Done (map (VerificationService.historyEntry db)
            (firstn (Z.to_nat pageSize)
               (skipn (Z.to_nat ((page - 1) * pageSize))
                  (rev (VerificationRepository.rowsOf db userID)))),
          VerificationRepository.CountByVerifier db userID).
Proof.
  intros Hp Hs Hsmall.
  unfold VerificationService.GetVerificationHistory,
    VerificationRepository.ListByVerifier. cbv zeta.
  rewrite wrap64_small by nia.
  destruct (pageSize <? 0)%Z eqn:E1; [apply Z.ltb_lt in E1; lia|].
  destruct ((page - 1) * pageSize <? 0)%Z eqn:E2; [apply Z.ltb_lt in E2; nia|].
  reflexivity.
Qed.

(** X12.  The pages of a verifier's history, taken with one page size from
    page 1 to the last page that the row count calls for, hold every audit
    row of the verifier exactly once, newest first. *)
Theorem history_pages_cover_every_row_once
    (db : DB) (userID : string) (pageSize : Z) :
  (1 <= pageSize)%Z ->
  (Z.of_nat (length (verifications db)) < 2 ^ 62)%Z ->
  let total := VerificationRepository.CountByVerifier db userID in
  let lastPage := Z.to_nat ((total + pageSize - 1) / pageSize) in
  historyPages db userID pageSize lastPage
  = map (VerificationService.historyEntry db)
        (rev (VerificationRepository.rowsOf db userID)).
Proof.
  intros Hs Hbound total lastPage.
  set (rows := rev (VerificationRepository.rowsOf db userID)).
  assert (Hlen : total = Z.of_nat (length rows)).
  { subst total rows. unfold VerificationRepository.CountByVerifier.
    rewrite length_rev. reflexivity. }
  assert (Htot : (0 <= total < 2 ^ 62)%Z).
  { subst total. unfold VerificationRepository.CountByVerifier.
    pose proof (rowsOf_length_le db userID). lia. }
  set (n := Z.to_nat pageSize).
  assert (Hceil : (total <= Z.of_nat lastPage * pageSize
                   /\ (Z.of_nat lastPage - 1) * pageSize < total)%Z).
  { subst lastPage. rewrite Z2Nat.id by (apply Z.div_pos; lia).
    pose proof (Z.div_mod (total + pageSize - 1) pageSize ltac:(lia)) as Hdm.
    pose proof (Z.mod_pos_bound (total + pageSize - 1) pageSize ltac:(lia)).
    nia. }
  unfold historyPages.
  transitivity (concat (map (fun i => map (VerificationService.historyEntry db)
                                          (firstn n (skipn (i * n) rows)))
                         (seq 0 lastPage))).
  - f_equal. apply map_ext_in. intros i Hi. apply in_seq in Hi.
    assert (Hoff : (Z.of_nat i * pageSize <= (Z.of_nat lastPage - 1) * pageSize)%Z)
      by (apply Z.mul_le_mono_nonneg_r; lia).
    replace (Z.of_nat (S i) - 1)%Z with (Z.of_nat i) by lia.
    rewrite GetVerificationHistory_page; [|lia|lia|].
    + replace (Z.of_nat (S i) - 1)%Z with (Z.of_nat i) by lia.
      f_equal. f_equal. f_equal. subst n.
      rewrite Z2Nat.inj_mul, Nat2Z.id by lia. reflexivity.
    + replace (Z.of_nat (S i) - 1)%Z with (Z.of_nat i) by lia. lia.
  - rewrite <- (map_map (fun i => firstn n (skipn (i * n) rows))
                        (map (VerificationService.historyEntry db))).
    rewrite <- concat_map, chunks_concat. f_equal.
    apply firstn_all2. subst n. nia.
Qed.

(** X13.  The history handler, for any requested page and page size whose
    offset fits the 64-bit range: the page size used lies between 1 and
    100 and the page is at least 1, the answer is 200 with the matching
    slice of the newest-first rows, the total is the number of the
    verifier's rows, and the page count is that total divided by the page
    size, rounded up. *)
Theorem history_handler_pagination
    (db : DB) (userID : string) (page pageSize : Z) :
  (Z.of_nat (length (verifications db)) < 2 ^ 62)%Z ->
  ((validPage page - 1) * validPageSize pageSize < 2 ^ 63)%Z ->
  let p := validPage page in
  let s := validPageSize pageSize in
  let total := VerificationRepository.CountByVerifier db userID in
  exists body,
    VerificationHandler.GetVerificationHistory db userID page pageSize
    = Responded StatusOK (SuccessBody body)
    /\ pageNumber body = p /\ (1 <= p)%Z
    /\ pageSizeUsed body = s /\ (1 <= s <= 100)%Z
    /\ pageTotal body = total
    /\ pageRows body
       = map (VerificationService.historyEntry db)
           (firstn (Z.to_nat s)
              (skipn (Z.to_nat ((p - 1) * s))
                 (rev (VerificationRepository.rowsOf db userID))))
    /\ (total <= pageTotalPages body * s)%Z
    /\ ((pageTotalPages body - 1) * s < total \/ (total = 0 /\ pageTotalPages body = 0))%Z.
Proof.
  intros Hbound Hsmall p s total.
  assert (Hp : (1 <= p)%Z).
  { subst p. unfold validPage. destruct (page <? 1)%Z eqn:E; [lia|].
    apply Z.ltb_ge in E. exact E. }
  assert (Hs : (1 <= s <= 100)%Z).
  { subst s. unfold validPageSize.
    destruct (pageSize <? 1)%Z eqn:E1; [cbn; lia|].
    destruct (100 <? pageSize)%Z eqn:E2; [cbn; lia|].
    apply Z.ltb_ge in E1, E2. cbn. lia. }
  assert (Htot : (0 <= total < 2 ^ 62)%Z).
  { subst total. unfold VerificationRepository.CountByVerifier.
    pose proof (rowsOf_length_le db userID). lia. }
  unfold VerificationHandler.GetVerificationHistory. cbv zeta.
  fold p s.
  rewrite GetVerificationHistory_page by (lia || exact Hsmall).
  fold total. eexists. split; [reflexivity|].
  cbn [pageNumber pageSizeUsed pageTotal pageRows pageTotalPages].
  rewrite wrap64_small by lia.
  split; [reflexivity|]. split; [exact Hp|]. split; [reflexivity|].
  split; [exact Hs|]. split; [reflexivity|]. split; [reflexivity|].
  rewrite Z.quot_div_nonneg by lia.
  pose proof (Z.div_mod (total + s - 1) s ltac:(lia)) as Hdm.
  pose proof (Z.mod_pos_bound (total + s - 1) s ltac:(lia)).
  split; [nia|].
  destruct (Z.eq_dec total 0%Z) as [H0|H0].
  - right. split; [exact H0|]. rewrite H0.
    apply Z.div_small. lia.
  - left. nia.
Qed.

(* ===================================================================== *)
(** * The three access policies                                             *)
(* ===================================================================== *)

Ltac split_role role :=
  destruct (String.eqb role RoleInstitutionUser);
  destruct (String.eqb role RoleInstitutionAdmin);
  destruct (String.eqb role RoleVerifier);
  destruct (String.eqb role RoleMasterAdmin).

(** X14.  The bill service and the verification service apply the same
    table to a requester who is not the issuer: on the four tiers,
    [canAccessBill] grants access exactly when [determineAccessLevel]
    resolves to [full].  The issuer is granted access by [canAccessBill]
    whatever the tier and role. *)
Theorem canAccessBill_agrees_with_determineAccessLevel
    (userID : string) (role : UserRole) (bill : Bill.t) :
  (Bill.IssuerID bill = userID -> canAccessBill userID role bill = true)
  /\ (Bill.IssuerID bill <> userID ->
      knownTier (Bill.AccessLevel bill) ->
      (canAccessBill userID role bill = true
       <-> determineAccessLevel role bill = "full")).
Proof.
  split.
  - intros <-. unfold canAccessBill. rewrite String.eqb_refl. reflexivity.
  - intros Hne Htier. apply String.eqb_neq in Hne.
    unfold canAccessBill, determineAccessLevel. rewrite Hne.
    destruct Htier as [-> | [-> | [-> | ->]]];
      cbn [String.eqb Ascii.eqb Bool.eqb AccessLevelPublic AccessLevelRestricted
             AccessLevelGovernment AccessLevelFinancial andb orb];
      split_role role; cbn; split; (reflexivity || discriminate).
Qed.

(** X15.  The PDF handler's check is the bill service's check for a
    requester in the context, for every tier text and role; without a
    requester only a public bill is served. *)
Theorem canAccessBillPDF_agrees_with_canAccessBill (bill : Bill.t) :
  (forall userID role,
     PDFHandler.canAccessBillPDF (Some (userID, role)) bill
     = canAccessBill userID role bill)
  /\ PDFHandler.canAccessBillPDF None bill
     = String.eqb (Bill.AccessLevel bill) AccessLevelPublic.
Proof.
  split.
  - intros userID role. unfold PDFHandler.canAccessBillPDF, canAccessBill.
    destruct (String.eqb (Bill.AccessLevel bill) AccessLevelPublic) eqn:Hp.
    + destruct (String.eqb (Bill.IssuerID bill) userID); [reflexivity|].
      destruct (String.eqb role RoleMasterAdmin); reflexivity.
    + destruct (String.eqb (Bill.IssuerID bill) userID); [reflexivity|].
      destruct (String.eqb role RoleMasterAdmin); [reflexivity|].
      destruct (String.eqb (Bill.AccessLevel bill) AccessLevelRestricted);
        destruct (String.eqb (Bill.AccessLevel bill) AccessLevelGovernment);
        destruct (String.eqb (Bill.AccessLevel bill) AccessLevelFinancial);
        destruct (String.eqb role RoleInstitutionUser);
        destruct (String.eqb role RoleInstitutionAdmin);
        destruct (String.eqb role RoleVerifier); reflexivity.
  - unfold PDFHandler.canAccessBillPDF.
    destruct (String.eqb (Bill.AccessLevel bill) AccessLevelPublic); reflexivity.
Qed.

(* ===================================================================== *)
(** * Fetching, deleting and topping up                                    *)
(* ===================================================================== *)

Section BillHandlers.

Context {Payload : Type} (Unmarshal : string -> option Payload).

(** X16.  The lookup by bill number does not consult the tier: for a
    government or financial bill whose payload decodes, [VerifyBill]
    answers a requester who is neither verifier nor master admin without
    details, while [BillHandler.GetBillByNumber] answers 200 with the
    decoded payload. *)
Theorem GetBillByNumber_discloses_what_VerifyBill_withholds
    (cfg : Config) (db db' : DB) (userID : option string)
    (billNumber ip userAgent : string) (userRole : UserRole) (elapsed : Z)
    (bill : Bill.t) (billData : Payload)
    (response : VerifyBillResponse.t Payload) :
  GetByBillNumber db billNumber = Ok bill ->
  Bill.AccessLevel bill = AccessLevelGovernment
  \/ Bill.AccessLevel bill = AccessLevelFinancial ->
  userRole <> RoleVerifier -> userRole <> RoleMasterAdmin ->
  Unmarshal (Bill.BillData bill) = Some billData ->
  VerifyBill Unmarshal cfg db userID billNumber ip userAgent userRole elapsed
    = (Ok response, db') ->
  VerifyBillResponse.Details response = NoDetails
  /\ exists disclosed,
       BillHandler.GetBillByNumber Unmarshal db billNumber
       = Responded StatusOK (SuccessBody disclosed)
       /\ BillResponse.BillData disclosed = Some billData.
Proof.
  intros Hbill Htier Hv Ha Hdata Hrun.
  destruct (VerifyBill_disclosure Unmarshal cfg db db' userID
              billNumber ip userAgent userRole elapsed bill response Hbill Hrun)
    as (_ & Hgov & _).
  split; [exact (proj1 (Hgov Htier Hv Ha))|].
  unfold BillHandler.GetBillByNumber, BillService.GetBillByNumber.
  rewrite Hbill. eexists. split; [reflexivity|].
  cbn. exact Hdata.
Qed.

(** X17.  [BillHandler.GetBill] on a bill that exists and is not deleted:
    a requester [canAccessBill] refuses is answered 403 and sees nothing;
    one it admits is answered 200, with the stored payload when the
    requester issued the bill or holds the master admin role, and without
    bill data otherwise.  No other request is answered 200. *)
Theorem GetBill_payload_only_for_issuer_or_admin
    (db : DB) (userID role billID : string) (bill : Bill.t) :
  BillRepository.GetByID db billID = Done bill ->
  (if canAccessBill userID role bill
   then BillHandler.GetBill Unmarshal db userID role billID
        = Responded StatusOK
            (SuccessBody
               (BillService.ConvertToResponse Unmarshal bill
                  (if String.eqb (Bill.IssuerID bill) userID
                      || String.eqb role RoleMasterAdmin
                   then "full" else "limited")))
   else BillHandler.GetBill Unmarshal db userID role billID
        = Responded StatusForbidden
            (ErrorBody "You don't have permission to view this bill"))
  /\ BillResponse.BillData
       (BillService.ConvertToResponse Unmarshal bill
          (if String.eqb (Bill.IssuerID bill) userID
              || String.eqb role RoleMasterAdmin
           then "full" else "limited"))
     = (if String.eqb (Bill.IssuerID bill) userID
           || String.eqb role RoleMasterAdmin
        then Unmarshal (Bill.BillData bill) else None)
  /\ (forall other code response,
        BillHandler.GetBill Unmarshal db userID role other
        = Responded code (SuccessBody response) ->
        exists found,
          BillRepository.GetByID db other = Done found
          /\ canAccessBill userID role found = true).
Proof.
  intros Hget. split; [|split].
  - unfold BillHandler.GetBill, BillService.GetBillByID. rewrite Hget.
    destruct (canAccessBill userID role bill); cbn [negb]; [|reflexivity].
    destruct (String.eqb (Bill.IssuerID bill) userID);
      destruct (String.eqb role RoleMasterAdmin); reflexivity.
  - unfold BillService.ConvertToResponse. cbn [BillResponse.BillData].
    destruct (String.eqb (Bill.IssuerID bill) userID);
      destruct (String.eqb role RoleMasterAdmin); reflexivity.
  - intros other code response.
    unfold BillHandler.GetBill, BillService.GetBillByID.
    destruct (BillRepository.GetByID db other) as [found|message].
    + destruct (canAccessBill userID role found) eqn:Hacc; cbn [negb].
      * intros _. exists found. split; [reflexivity|exact Hacc].
      * discriminate.
    + destruct (String.eqb message "bill not found"); [discriminate|].
      destruct (String.eqb message "access denied to this bill");
        discriminate.
Qed.

End BillHandlers.

Lemma find_all_false {A : Type} (f : A -> bool) (l : list A) :
  (forall x, In x l -> f x = false) -> find f l = None.
Proof.
  induction l as [|x l IH]; intros H; [reflexivity|]. cbn [find].
  rewrite (H x (or_introl eq_refl)). apply IH. intros y Hy. apply H. right.
  exact Hy.
Qed.

Lemma find_deleteRows_same (id : string) (rows : list Bill.t) :
  find (fun b => String.eqb (Bill.ID b) id && negb (Bill.IsDeleted b))
       (BillRepository.deleteRows id rows) = None.
Proof.
  induction rows as [|b rows IH]; [reflexivity|].
  cbn [BillRepository.deleteRows map find].
  destruct (String.eqb (Bill.ID b) id) eqn:E.
  - cbn [BillRepository.markDeleted Bill.ID Bill.IsDeleted negb].
    rewrite andb_false_r. exact IH.
  - rewrite E. cbn [andb]. exact IH.
Qed.

Lemma find_deleteRows_other (id other : string) (rows : list Bill.t) :
  other <> id ->
  find (fun b => String.eqb (Bill.ID b) other && negb (Bill.IsDeleted b))
       (BillRepository.deleteRows id rows)
  = find (fun b => String.eqb (Bill.ID b) other && negb (Bill.IsDeleted b))
         rows.
Proof.
  intros Hne. induction rows as [|b rows IH]; [reflexivity|].
  cbn [BillRepository.deleteRows map find].
  destruct (String.eqb_spec (Bill.ID b) id) as [Eb|Eb].
  - cbn [BillRepository.markDeleted Bill.ID Bill.IsDeleted negb].
    destruct (String.eqb_spec (Bill.ID b) other) as [Eo|Eo]; [congruence|].
    cbn [andb]. exact IH.
  - destruct (String.eqb (Bill.ID b) other && negb (Bill.IsDeleted b));
      [reflexivity|exact IH].
Qed.

(** With unique bill numbers, the number of a deleted row finds nothing. *)
Lemma find_number_deleteRows (bill : Bill.t) (rows : list Bill.t) :
  NoDup (map Bill.BillNumber rows) -> In bill rows ->
  find (fun b => String.eqb (Bill.BillNumber b) (Bill.BillNumber bill)
                 && negb (Bill.IsDeleted b))
       (BillRepository.deleteRows (Bill.ID bill) rows) = None.
Proof.
  induction rows as [|b rows IH]; [intros _ []|].
  cbn [map]. intros [Hb Hnd]%NoDup_cons Hin.
  cbn [BillRepository.deleteRows map find].
  destruct Hin as [->|Hin].
  - rewrite String.eqb_refl.
    cbn [BillRepository.markDeleted Bill.BillNumber Bill.IsDeleted negb].
    rewrite andb_false_r.
    apply find_all_false. intros b' Hb'.
    apply in_map_iff in Hb' as (b0 & <- & Hb0).
    assert (Hnum : String.eqb (Bill.BillNumber b0) (Bill.BillNumber bill) = false).
    { apply String.eqb_neq. intros Heq. apply Hb. rewrite <- Heq.
      apply list_elem_of_In. apply in_map. exact Hb0. }
    destruct (String.eqb (Bill.ID b0) (Bill.ID bill));
      cbn [BillRepository.markDeleted Bill.BillNumber]; rewrite Hnum;
      reflexivity.
  - assert (Hnum : String.eqb (Bill.BillNumber b) (Bill.BillNumber bill) = false).
    { apply String.eqb_neq. intros Heq. apply Hb. rewrite Heq.
      apply list_elem_of_In. apply in_map. exact Hin. }
    destruct (String.eqb (Bill.ID b) (Bill.ID bill));
      cbn [BillRepository.markDeleted Bill.BillNumber]; rewrite Hnum;
      cbn [andb]; exact (IH Hnd Hin).
Qed.

(** X18.  Deleting a bill.  [DeleteBill] succeeds only for the issuer of a
    bill that can be fetched by its id.  After a success the bill cannot be
    fetched by its id any more, nor by its number (bill numbers being
    unique), every bill with another id is fetched as before, the users and
    the audit rows are untouched, and a second [DeleteBill] of the same id
    answers "bill not found". *)
Theorem DeleteBill_hides_the_bill
    (db db' : DB) (userID billID reason : string) :
  BillService.DeleteBill db userID billID reason = Done db' ->
  exists bill,
    BillRepository.GetByID db billID = Done bill
    /\ Bill.IssuerID bill = userID
    /\ BillRepository.GetByID db' billID = Failed "bill not found"
    /\ (forall reason',
          BillService.DeleteBill db' userID billID reason'
          = Failed "bill not found")
    /\ (forall other, other <> billID ->
          BillRepository.GetByID db' other = BillRepository.GetByID db other)
    /\ (NoDup (map Bill.BillNumber (bills db)) ->
        GetByBillNumber db' (Bill.BillNumber bill) = Err BillNotFound)
    /\ users db' = users db
    /\ verifications db' = verifications db.
Proof.
  unfold BillService.DeleteBill.
  destruct (BillRepository.GetByID db billID) as [bill|message] eqn:Hget;
    [|discriminate].
  destruct (String.eqb_spec (Bill.IssuerID bill) userID) as [Hown|Hother];
    cbn [negb]; [|discriminate].
  unfold BillRepository.SoftDelete.
  destruct (existsb _ (bills db)); [|discriminate].
  intros [= <-]. exists bill. split; [reflexivity|]. split; [exact Hown|].
  unfold BillRepository.GetByID, GetByBillNumber. cbn [bills users verifications].
  rewrite find_deleteRows_same.
  split; [reflexivity|]. split; [reflexivity|].
  split; [|split; [|split; reflexivity]].
  - intros other Hne. rewrite (find_deleteRows_other _ _ _ Hne). reflexivity.
  - intros Hnodup. unfold BillRepository.GetByID in Hget.
    destruct (find _ (bills db)) as [b0|] eqn:Hfind; [|discriminate].
    injection Hget as ->.
    apply find_some in Hfind as [Hin Hb].
    apply andb_true_iff in Hb as [Hid _]. apply String.eqb_eq in Hid.
    subst billID. rewrite (find_number_deleteRows _ _ Hnodup Hin). reflexivity.
Qed.

(** X19.  Topping up, as the handler computes it.  A request is answered
    200 only for an amount above zero and an active user; the body is then
    the sum formed in [float64], while the wallet holds what the column
    [wallet_balance] keeps of that sum: a whole number of hundredths, not
    below zero and below 10^8.  The user's counters, the other users, the
    bills and the audit rows are as before.  Every other answer is 400, 404
    or 500 and leaves the store as it was. *)
Theorem TopupWallet64_stores_the_rounded_sum
    (validatorText : float64 -> string) (db : DB) (userID : string)
    (amount : float64) :
  let run := TopupWallet64 validatorText db userID (inl amount) in
  match fst run with
  | Responded code (SuccessBody newBalance) =>
      code = StatusOK
      /\ (0 <? amount)%float = true
      /\ exists user hundredths,
           GetByID db userID = Ok user
           /\ newBalance
              = (ParseFloat (User.WalletBalance user) + amount)%float
           /\ toNumeric 10 newBalance = Some (hundredths # 100)
           /\ (0 <= hundredths < 10 ^ 10)%Z
           /\ balanceOf (snd run) userID = hundredths # 100
           /\ verificationCountOf (snd run) userID
              = verificationCountOf db userID
           /\ freeEarnedOf (snd run) userID = freeEarnedOf db userID
           /\ (forall other, other <> userID ->
                 users (snd run) !! other = users db !! other)
           /\ bills (snd run) = bills db
           /\ verifications (snd run) = verifications db
  | Responded code _ =>
      (code = StatusBadRequest \/ code = StatusNotFound
       \/ code = StatusInternalServerError)
      /\ snd run = db
  | Panicked => False
  end.
Proof.
  cbv zeta. unfold TopupWallet64.
  destruct (0 <? amount)%float eqn:Hpositive;
    [|cbn; split; [left; reflexivity|reflexivity]].
  destruct (GetByID db userID) as [user|e] eqn:Hu;
    [|cbn; split; [right; left; reflexivity|reflexivity]].
  unfold UpdateWalletBalance64.
  destruct (toNumeric_hundredths 10
              (ParseFloat (User.WalletBalance user) + amount)%float)
    as [Hnone|(hundredths & Hsome & Hbound)].
  { rewrite Hnone. cbn. split; [right; right; reflexivity|reflexivity]. }
  rewrite Hsome.
  destruct (Qle_bool 0 (hundredths # 100)) eqn:Hsign;
    [|cbn; split; [right; right; reflexivity|reflexivity]].
  apply GetByID_Ok in Hu as Hlookup. destruct Hlookup as [Hlookup _].
  unfold UpdateWalletBalance. rewrite Hlookup. cbn [fst snd].
  split; [reflexivity|]. split; [reflexivity|].
  exists user, hundredths.
  split; [reflexivity|]. split; [reflexivity|]. split; [exact Hsome|].
  split.
  { apply Qle_bool_iff in Hsign. unfold Qle in Hsign. cbn in Hsign.
    change (10 ^ 10)%Z with 10000000000%Z in *. lia. }
  unfold balanceOf, verificationCountOf, freeEarnedOf.
  cbn [users with_users bills verifications].
  rewrite lookup_insert_eq, Hlookup. cbn.
  repeat split. intros other Hne. apply lookup_insert_ne. congruence.
Qed.

(** The sum of 2.1 and 0.2 in [float64] is not the double nearest to 2.3:
    the answer carries the former, the wallet holds 2.30. *)
Example topup_of_twenty_paise :
  exists newBalance db',
    TopupWallet64 (fun _ => "gt") smallWalletDB "dave"
      (inl (ParseFloat (2 # 10)))
    = (Responded StatusOK (SuccessBody newBalance), db')
    /\ (ParseFloat (23 # 10) <? newBalance)%float = true
    /\ balanceOf db' "dave" = 230 # 100.
Proof.
  eexists. eexists. split; [vm_compute; reflexivity|].
  split; vm_compute; reflexivity.
Qed.

(** A top-up below half a hundredth is answered 200 with a larger balance
    and leaves the wallet as it was. *)
Example topup_of_a_tenth_of_a_paisa :
  exists newBalance db',
    TopupWallet64 (fun _ => "gt") sampleDB "alice"
      (inl (ParseFloat (1 # 1000)))
    = (Responded StatusOK (SuccessBody newBalance), db')
    /\ (ParseFloat 100 <? newBalance)%float = true
    /\ (balanceOf db' "alice" == balanceOf sampleDB "alice")%Q.
Proof.
  eexists. eexists. split; [vm_compute; reflexivity|].
  split; vm_compute; reflexivity.
Qed.

(** A sum of 10^8 or more does not fit the column: the update fails and
    the request is answered 500. *)
Example topup_beyond_the_column :
  TopupWallet64 (fun _ => "gt") sampleDB "alice"
    (inl (ParseFloat 100000000))
  = (Responded StatusInternalServerError
       (ErrorBody "Failed to update wallet"), sampleDB).
Proof. vm_compute. reflexivity. Qed.

(* ===================================================================== *)
(** * The normal form of a document                                         *)
(* ===================================================================== *)

Section MapFill.

Context {V : Type}.
Implicit Types (m acc : list (string * V)) (k : string) (x : V).

Lemma mapSet_fresh acc k x :
  k ∉ map fst acc -> mapSet acc k x = (acc ++ [(k, x)])%list.
Proof.
  induction acc as [|[k' y] acc IH]; intros Hk; [reflexivity|].
  cbn [mapSet]. cbn [map fst] in Hk. apply not_elem_of_cons in Hk as [Hne Hk].
  destruct (String.eqb_spec k' k) as [->|_]; [contradiction|].
  rewrite (IH Hk). reflexivity.
Qed.

Lemma map_fst_entriesAt m (keys : list string) :
  (forall k, k ∈ keys -> k ∈ map fst m) ->
  map fst (entriesAt m keys) = keys.
Proof.
  induction keys as [|k keys IH]; intros Hin; [reflexivity|].
  unfold entriesAt. cbn [omap list_omap].
  assert (Hk : k ∈ map fst m) by (apply Hin; left).
  destruct (mapGet m k) as [x|] eqn:Hget.
  - cbn [option_map map fst]. f_equal. apply IH.
    intros k' Hk'. apply Hin. right. exact Hk'.
  - exfalso. clear -Hk Hget.
    induction m as [|[k' y] m IHm]; [inversion Hk|].
    cbn [mapGet] in Hget. cbn [map fst] in Hk.
    destruct (String.eqb_spec k' k) as [->|Hne]; [discriminate|].
    apply elem_of_cons in Hk as [->|Hk]; [contradiction|]. exact (IHm Hk Hget).
Qed.

(** Filling a fresh map key by key, with distinct keys, lists the entries
    in the order of the keys. *)
Lemma fillInOrder_entriesAt m (keys : list string) :
  NoDup keys -> fillInOrder keys m = entriesAt m keys.
Proof.
  intros Hnd. unfold fillInOrder.
  enough (H : forall acc,
             (forall k, k ∈ keys -> k ∉ map fst acc) ->
             fold_left
               (fun normalized k =>
                  match mapGet m k with
                  | Some x => mapSet normalized k x
                  | None => normalized
                  end) keys acc
             = (acc ++ entriesAt m keys)%list).
  { rewrite (H []); [reflexivity|]. intros k _ Hk. inversion Hk. }
  induction Hnd as [|k keys Hk Hnd IH]; intros acc Hfresh.
  - cbn. rewrite app_nil_r. reflexivity.
  - cbn [fold_left]. unfold entriesAt. cbn [omap list_omap].
    fold (entriesAt m keys).
    destruct (mapGet m k) as [x|].
    + rewrite mapSet_fresh by (apply Hfresh; left).
      rewrite IH.
      * cbn [option_map]. rewrite <- app_assoc. reflexivity.
      * intros k' Hk'. rewrite map_app. cbn [map fst].
        intros Hin. apply elem_of_app in Hin as [Hin|Hin].
        -- apply (Hfresh k'); [right; exact Hk'|exact Hin].
        -- apply list_elem_of_singleton in Hin. subst k'. contradiction.
    + cbn [option_map]. apply IH.
      intros k' Hk'. apply Hfresh. right. exact Hk'.
Qed.

Lemma elem_of_entriesAt m (keys : list string) k x :
  (k, x) ∈ entriesAt m keys <-> k ∈ keys /\ mapGet m k = Some x.
Proof.
  unfold entriesAt. rewrite list_elem_of_omap. split.
  - intros (k' & Hk' & Hopt).
    destruct (mapGet m k') as [y|] eqn:Hget; [|discriminate].
    injection Hopt as -> ->. auto.
  - intros [Hk Hget]. exists k. rewrite Hget. auto.
Qed.

(** The entries of a map taken at a reordering of its keys are a
    reordering of the map. *)
Lemma entriesAt_Permutation m (keys : list string) :
  NoDup (map fst m) -> Permutation keys (map fst m) ->
  Permutation m (entriesAt m keys).
Proof.
  intros Hnd Hperm.
  assert (Hkeys : NoDup keys) by (rewrite Hperm; exact Hnd).
  apply NoDup_Permutation.
  - apply (NoDup_fmap_1 fst). exact Hnd.
  - apply (NoDup_fmap_1 fst).
    change (NoDup (map fst (entriesAt m keys))).
    rewrite map_fst_entriesAt; [exact Hkeys|].
    intros k Hk. rewrite <- Hperm. exact Hk.
  - intros [k x]. rewrite elem_of_entriesAt. split.
    + intros Hin. split.
      * rewrite Hperm. apply list_elem_of_In.
        change k with (fst (k, x)). apply in_map. apply list_elem_of_In.
        exact Hin.
      * apply elem_of_mapGet; assumption.
    + intros [_ Hget]. apply mapGet_Some_elem_of. exact Hget.
Qed.

End MapFill.

Section NormalForm.

Context {Prim : Type}.
Context (marshalPrim : Prim -> option string) (marshalKey : string -> string)
        (Sum256 : string -> list Byte.byte).

Lemma mapGet_normalizedEntries (m : list (string * JSON Prim)) (k : string) :
  mapGet (normalizedEntries m) k = option_map normalizeJSON (mapGet m k).
Proof.
  induction m as [|[k' x] m IH]; [reflexivity|].
  cbn [normalizedEntries map mapGet fst snd].
  destruct (String.eqb k' k); [reflexivity|exact IH].
Qed.

Lemma map_fst_normalizedEntries (m : list (string * JSON Prim)) :
  map fst (normalizedEntries m) = map fst m.
Proof. unfold normalizedEntries. rewrite map_map. reflexivity. Qed.

Lemma sort_Strings_NoDup (keys : list string) :
  NoDup keys -> NoDup (sort_Strings keys).
Proof.
  intros H. unfold sort_Strings. rewrite merge_sort_Permutation. exact H.
Qed.

(** The normal form of a map lists its entries, each value normalized, in
    the sorted order of the keys. *)
Lemma normalizeJSON_JMap_entriesAt (m : list (string * JSON Prim)) :
  NoDup (map fst m) ->
  normalizeJSON (JMap m)
  = JMap (entriesAt (normalizedEntries m) (sort_Strings (map fst m))).
Proof.
  intros Hnd. rewrite normalizeJSON_JMap, map_fst_normalizedEntries.
  rewrite fillInOrder_entriesAt by (apply sort_Strings_NoDup; exact Hnd).
  reflexivity.
Qed.

Lemma tree_eq_normalizeJSON (d : JSON Prim) :
  wellFormed d -> tree_eq d (normalizeJSON d).
Proof.
  remember (S (size d)) as n eqn:Hn.
  assert (Hsize : (size d < n)%nat) by lia. clear Hn.
  revert d Hsize. induction n as [|n IH]; intros d Hsize Hwf; [lia|].
  destruct Hwf as [v|items Hitems|entries Hnd Hvalues].
  - constructor.
  - cbn [normalizeJSON]. constructor.
    assert (Hsmall : forall x, x ∈ items -> (size x < n)%nat).
    { intros x Hx. apply size_item in Hx. lia. }
    clear Hsize. induction Hitems as [|x items Hx Hitems IHitems];
      [constructor|].
    cbn [map]. constructor.
    + apply IH; [apply Hsmall; left|exact Hx].
    + apply IHitems. intros y Hy. apply Hsmall. right. exact Hy.
  - rewrite (normalizeJSON_JMap_entriesAt _ Hnd).
    set (keys := sort_Strings (map fst entries)).
    assert (Hperm : Permutation keys (map fst entries))
      by (subst keys; unfold sort_Strings; apply merge_sort_Permutation).
    apply (tree_eq_map _ entries (entriesAt entries keys)).
    + exact Hnd.
    + apply entriesAt_Permutation; assumption.
    + assert (Hvalue : forall k x, mapGet entries k = Some x ->
                         tree_eq x (normalizeJSON x)).
      { intros k x Hget. apply mapGet_Some_elem_of in Hget.
        apply IH.
        - apply size_entry in Hget. cbn [snd] in Hget. lia.
        - rewrite List.Forall_forall in Hvalues.
          apply (Hvalues (k, x)). apply list_elem_of_In. exact Hget. }
      clear Hperm. induction keys as [|k keys IHkeys]; [constructor|].
      unfold entriesAt. cbn [omap list_omap].
      fold (entriesAt entries keys).
      fold (entriesAt (normalizedEntries entries) keys).
      rewrite mapGet_normalizedEntries.
      destruct (mapGet entries k) as [x|] eqn:Hget; cbn [option_map].
      * constructor; [|exact IHkeys]. cbn [fst snd]. split; [reflexivity|].
        exact (Hvalue k x Hget).
      * exact IHkeys.
Qed.

(** [json.Marshal] writes the keys of every map in sorted order, so it does
    not see the normalizing pass. *)
Lemma Marshal_normalizeJSON (d : JSON Prim) :
  wellFormed d ->
  Marshal marshalPrim marshalKey (normalizeJSON d)
  = Marshal marshalPrim marshalKey d.
Proof.
  intros Hwf. symmetry.
  apply (Marshal_tree_eq marshalPrim marshalKey (S (size d))); [lia|].
  apply tree_eq_normalizeJSON. exact Hwf.
Qed.

(** X22.  Normalizing a well-formed document changes nothing but the order
    of the entries of its maps: the document and its normal form are equal
    as unordered-key trees. *)
Theorem normalizeJSON_keeps_the_document (d : JSON Prim) :
  wellFormed d -> tree_eq d (normalizeJSON d).
Proof. exact (tree_eq_normalizeJSON d). Qed.

(** X21.  Normalizing is idempotent on well-formed documents. *)
Theorem normalizeJSON_idempotent (d : JSON Prim) :
  wellFormed d -> normalizeJSON (normalizeJSON d) = normalizeJSON d.
Proof.
  intros Hwf. symmetry.
  apply (normalizeJSON_tree_eq (S (size d))); [lia|].
  apply tree_eq_normalizeJSON. exact Hwf.
Qed.

(** X23.  The normalizing pass does not change the bytes that are hashed:
    [json.Marshal] already writes the keys of every map in sorted order, so
    the hash of a well-formed document is the digest of its plain
    encoding. *)
Theorem GenerateBillHash_is_the_digest_of_the_plain_encoding
    (data : list (string * JSON Prim)) :
  wellFormed (JMap data) ->
  GenerateBillHash marshalPrim marshalKey Sum256 data
  = match Marshal marshalPrim marshalKey (JMap data) with
    | None => Err EncodingError
    | Some jsonBytes => Ok (EncodeToString (Sum256 jsonBytes))
    end.
Proof.
  intros Hwf. unfold GenerateBillHash. cbv zeta.
  rewrite (Marshal_normalizeJSON _ Hwf). reflexivity.
Qed.

End NormalForm.

Lemma hexDigit_of_byte (b : Byte.byte) :
  isLowerHex (hexDigit (Byte.to_N b / 16)) = true
  /\ isLowerHex (hexDigit (Byte.to_N b mod 16)) = true.
Proof. destruct b; split; vm_compute; reflexivity. Qed.

Lemma EncodeToString_length (src : list Byte.byte) :
  String.length (EncodeToString src) = (2 * List.length src)%nat.
Proof.
  induction src as [|b src IH]; [reflexivity|].
  cbn [EncodeToString fold_right String.length List.length].
  fold (EncodeToString src). rewrite IH. lia.
Qed.

Lemma EncodeToString_lower_hex (src : list Byte.byte) :
  forallb isLowerHex (list_ascii_of_string (EncodeToString src)) = true.
Proof.
  induction src as [|b src IH]; [reflexivity|].
  cbn [EncodeToString fold_right list_ascii_of_string forallb].
  fold (EncodeToString src).
  destruct (hexDigit_of_byte b) as [-> ->]. exact IH.
Qed.

Section HashShape.

Context {Prim : Type}.
Context (marshalPrim : Prim -> option string) (marshalKey : string -> string)
        (Sum256 : string -> list Byte.byte).

(** X24.  [VerifyBillHash] accepts an expected hash only when it is the
    lower-case hexadecimal text of the digest of the encoded document: two
    characters for every byte of the digest, all of them among
    [0-9a-f].  An upper-case rendering of the right digest is refused. *)
Theorem VerifyBillHash_accepts_only_lower_case_hex
    (data : list (string * JSON Prim)) (expectedHash : string) :
  VerifyBillHash marshalPrim marshalKey Sum256 data expectedHash = Ok true ->
  exists jsonBytes,
    Marshal marshalPrim marshalKey (normalizeJSON (JMap data)) = Some jsonBytes
    /\ expectedHash = EncodeToString (Sum256 jsonBytes)
    /\ String.length expectedHash = (2 * List.length (Sum256 jsonBytes))%nat
    /\ forallb isLowerHex (list_ascii_of_string expectedHash) = true.
Proof.
  unfold VerifyBillHash, GenerateBillHash. cbv zeta.
  destruct (Marshal marshalPrim marshalKey (normalizeJSON (JMap data)))
    as [jsonBytes|]; [|discriminate].
  intros [= Heq]. apply String.eqb_eq in Heq. subst expectedHash.
  exists jsonBytes. split; [reflexivity|]. split; [reflexivity|].
  split; [apply EncodeToString_length|apply EncodeToString_lower_hex].
Qed.

End HashShape.


(* ===================================================================== *)
(** * Bill numbers                                                         *)
(* ===================================================================== *)

Section BillNumbers.

Import BillNumber.

Lemma digitValue_digitChar (d : Z) :
  (0 <= d <= 9)%Z -> digitValue (digitChar d) = Some d.
Proof.
  intros Hd.
  assert (Hcases : d = 0%Z \/ d = 1%Z \/ d = 2%Z \/ d = 3%Z \/ d = 4%Z
                   \/ d = 5%Z \/ d = 6%Z \/ d = 7%Z \/ d = 8%Z \/ d = 9%Z)
    by lia.
  repeat (destruct Hcases as [->|Hcases]; [reflexivity|]).
  subst d. reflexivity.
Qed.

Lemma LPAD_text_six (k : Z) :
  (0 <= k < 1000000)%Z -> LPAD (text k) 6 "0" = sixDigits k.
Proof.
  intros Hk. unfold text, sixDigits.
  destruct (Z.ltb_spec k 0) as [Hneg|_]; [lia|].
  cbn [textFrom].
  destruct (Z.eqb_spec (k / 10) 0) as [e|_]; [rewrite e; reflexivity|].
  destruct (Z.eqb_spec (k / 10 / 10) 0) as [e|_]; [rewrite e; reflexivity|].
  destruct (Z.eqb_spec (k / 10 / 10 / 10) 0) as [e|_];
    [rewrite e; reflexivity|].
  destruct (Z.eqb_spec (k / 10 / 10 / 10 / 10) 0) as [e|_];
    [rewrite e; reflexivity|].
  destruct (Z.eqb_spec (k / 10 / 10 / 10 / 10 / 10) 0) as [e|_];
    [rewrite e; reflexivity|].
  assert (Hlast : (k / 10 / 10 / 10 / 10 / 10 / 10 = 0)%Z).
  { rewrite !Z.div_div by lia. apply Z.div_small. lia. }
  rewrite Hlast. reflexivity.
Qed.

Lemma prefixOf_shape (p_bill_type : string) :
  exists a b c, prefixOf p_bill_type = String a (String b (String c EmptyString)).
Proof.
  unfold prefixOf.
  repeat (match goal with
          | |- context [if ?t then _ else _] => destruct t
          end; [do 3 eexists; reflexivity|]).
  do 3 eexists; reflexivity.
Qed.

Lemma four_characters (s : string) :
  String.length s = 4%nat ->
  exists a b c d, s = String a (String b (String c (String d EmptyString))).
Proof.
  destruct s as [|a [|b [|c [|d [|e s]]]]]; try discriminate.
  intros _. do 4 eexists. reflexivity.
Qed.

Lemma two_characters (s : string) :
  String.length s = 2%nat -> exists a b, s = String a (String b EmptyString).
Proof.
  destruct s as [|a [|b [|c s]]]; try discriminate.
  intros _. do 2 eexists. reflexivity.
Qed.

Lemma prefix_append (s rest : string) : String.prefix s (s ++ rest) = true.
Proof.
  induction s as [|c s IH]; [destruct rest; reflexivity|].
  change ((String c s ++ rest)%string) with (String c (s ++ rest)%string).
  cbn [String.prefix].
  destruct (ascii_dec c c) as [_|Hneq]; [exact IH|contradiction].
Qed.

Lemma append_assoc3 (a b c d : string) :
  (a ++ b ++ c ++ d)%string = ((a ++ b ++ c) ++ d)%string.
Proof.
  induction a as [|x a IH].
  - change (("" ++ b ++ c ++ d)%string) with ((b ++ c ++ d)%string).
    change (("" ++ b ++ c)%string) with ((b ++ c)%string).
    induction b as [|y b IHb]; [reflexivity|].
    change ((String y b ++ c ++ d)%string) with (String y (b ++ c ++ d)%string).
    change (((String y b ++ c) ++ d)%string)
      with (String y ((b ++ c) ++ d)%string).
    rewrite IHb. reflexivity.
  - change ((String x a ++ b ++ c ++ d)%string)
      with (String x (a ++ b ++ c ++ d)%string).
    change (((String x a ++ b ++ c) ++ d)%string)
      with (String x ((a ++ b ++ c) ++ d)%string).
    rewrite IH. reflexivity.
Qed.

(** A number of the promised form falls under the pattern of its type and
    month. *)
Lemma numbered_selected (p_bill_type year month : string) (k : Z) :
  String.prefix (prefixOf p_bill_type ++ year ++ month)%string
    (numbered p_bill_type year month k) = true.
Proof.
  unfold numbered. rewrite append_assoc3. apply prefix_append.
Qed.

(** What the function reads back from a number of the promised form: the
    characters 12 to 15, that is the last four digits of the sequence. *)
Lemma sequence_read_back (p_bill_type year month : string) (k : Z) :
  String.length year = 4%nat -> String.length month = 2%nat ->
  (0 <= k < 1000000)%Z ->
  castInteger (substring 11 6 (numbered p_bill_type year month k))
  = Some (k mod 10000)%Z.
Proof.
  intros Hyear Hmonth Hk. unfold numbered.
  rewrite (LPAD_text_six k Hk).
  destruct (prefixOf_shape p_bill_type) as (p1 & p2 & p3 & ->).
  destruct (four_characters year Hyear) as (y1 & y2 & y3 & y4 & ->).
  destruct (two_characters month Hmonth) as (m1 & m2 & ->).
  unfold sixDigits.
  set (d5 := (k / 10 / 10 / 10 / 10 / 10 mod 10)%Z).
  set (d4 := (k / 10 / 10 / 10 / 10 mod 10)%Z).
  set (d3 := (k / 10 / 10 / 10 mod 10)%Z).
  set (d2 := (k / 10 / 10 mod 10)%Z).
  set (d1 := (k / 10 mod 10)%Z).
  set (d0 := (k mod 10)%Z).
  change (castFrom 0 (String (digitChar d3) (String (digitChar d2)
            (String (digitChar d1) (String (digitChar d0) EmptyString))))
          = Some (k mod 10000)%Z).
  cbn [castFrom].
  rewrite !digitValue_digitChar
    by (subst d0 d1 d2 d3;
        match goal with
        | |- (0 <= ?a mod 10 <= 9)%Z =>
            pose proof (Z.mod_pos_bound a 10 ltac:(lia)); lia
        end).
  f_equal. subst d0 d1 d2 d3. clear d4 d5.
  rewrite !Z.div_div by lia. cbn [Z.mul Pos.mul].
  Z.div_mod_to_equations. lia.
Qed.

Lemma fold_left_max (rest : list Z) (v : Z) :
  (v <= fold_left Z.max rest v)%Z
  /\ List.Forall (fun s => (s <= fold_left Z.max rest v)%Z) rest
  /\ (fold_left Z.max rest v = v \/ In (fold_left Z.max rest v) rest).
Proof.
  revert v. induction rest as [|s rest IH]; intros v; cbn [fold_left].
  - split; [lia|]. split; [constructor|]. left. reflexivity.
  - destruct (IH (Z.max v s)) as (Hle & Hall & Hin).
    split; [lia|]. split; [constructor; [lia|exact Hall]|].
    destruct Hin as [Heq|Hin]; [|right; right; exact Hin].
    destruct (Z.max_spec v s) as [[_ Hmax]|[_ Hmax]].
    + right. left. rewrite Heq. symmetry. exact Hmax.
    + left. rewrite Heq. exact Hmax.
Qed.

(** [COALESCE(MAX(...), 0)] over values that are not negative: an upper
    bound of the values, and one of them unless there is none. *)
Lemma COALESCE_sqlMax (sequences : list Z) :
  List.Forall (fun s => (0 <= s)%Z) sequences ->
  (0 <= COALESCE (sqlMax sequences) 0)%Z
  /\ List.Forall (fun s => (s <= COALESCE (sqlMax sequences) 0)%Z) sequences
  /\ (sequences = [] /\ COALESCE (sqlMax sequences) 0 = 0%Z
      \/ In (COALESCE (sqlMax sequences) 0) sequences).
Proof.
  destruct sequences as [|v rest]; intros Hpos.
  - cbn. split; [lia|]. split; [constructor|]. left. split; reflexivity.
  - cbn [sqlMax COALESCE].
    destruct (fold_left_max rest v) as (Hle & Hall & Hin).
    apply List.Forall_cons_iff in Hpos as [Hv _].
    split; [lia|]. split; [constructor; assumption|]. right.
    destruct Hin as [->|Hin]; [left; reflexivity|right; exact Hin].
Qed.

(** The sequences the function reads from a table whose numbers have the
    promised form. *)
Lemma read_sequences (bound : Z) (p_bill_type year month : string)
    (numbers : list string) :
  String.length year = 4%nat -> String.length month = 2%nat ->
  (bound < 1000000)%Z ->
  issuedUpTo bound p_bill_type year month numbers ->
  exists ks,
    allSome (map (fun bill_number => castInteger (substring 11 6 bill_number))
               (List.filter
                  (fun bill_number =>
                     String.prefix (prefixOf p_bill_type ++ year ++ month)%string
                       bill_number)
                  numbers))
    = Some (map (fun k => (k mod 10000)%Z) ks)
    /\ List.Forall (fun k => (1 <= k <= bound)%Z) ks
    /\ (forall bill_number,
          In bill_number numbers ->
          String.prefix (prefixOf p_bill_type ++ year ++ month)%string
            bill_number = true ->
          exists k, In k ks /\ bill_number = numbered p_bill_type year month k).
Proof.
  intros Hyear Hmonth Hbound. induction numbers as [|n numbers IH]; intros Hshape.
  - exists []. split; [reflexivity|]. split; [constructor|]. intros ? [].
  - destruct IH as (ks & Hread & Hrange & Hall).
    { intros m Hin. apply Hshape. right. exact Hin. }
    cbn [List.filter].
    destruct (String.prefix (prefixOf p_bill_type ++ year ++ month) n) eqn:Hsel.
    + destruct (Hshape n (or_introl eq_refl) Hsel) as (k & Hk & ->).
      exists (k :: ks). cbn [map allSome].
      rewrite (sequence_read_back _ _ _ _ Hyear Hmonth) by lia.
      rewrite Hread. split; [reflexivity|]. split; [constructor; assumption|].
      intros m [<-|Hin] Hm.
      * exists k. split; [left; reflexivity|reflexivity].
      * destruct (Hall m Hin Hm) as (k' & Hk' & ->).
        exists k'. split; [right; exact Hk'|reflexivity].
    + exists ks. split; [exact Hread|]. split; [exact Hrange|].
      intros m [<-|Hin] Hm; [congruence|]. exact (Hall m Hin Hm).
Qed.

(** X25.  While the sequences issued for a type and month stay below 9999,
    [generate_bill_number] returns a number that is not in the table, with a
    sequence above every sequence issued. *)
Theorem generate_bill_number_is_fresh_below_9999
    (p_bill_type year month : string) (numbers : list string) :
  String.length year = 4%nat -> String.length month = 2%nat ->
  issuedUpTo 9998 p_bill_type year month numbers ->
  exists k,
    generate_bill_number numbers p_bill_type year month
    = Some (numbered p_bill_type year month k)
    /\ (1 <= k <= 9999)%Z
    /\ ~ In (numbered p_bill_type year month k) numbers
    /\ (forall k', (1 <= k' <= 9998)%Z ->
                   In (numbered p_bill_type year month k') numbers ->
                   (k' < k)%Z).
Proof.
  intros Hyear Hmonth Hshape.
  destruct (read_sequences 9998 _ _ _ _ Hyear Hmonth ltac:(lia) Hshape)
    as (ks & Hread & Hrange & Hall).
  assert (Hsame : map (fun k => (k mod 10000)%Z) ks = ks).
  { clear Hread Hall. induction Hrange as [|k ks Hk _ IH]; [reflexivity|].
    cbn [map]. rewrite IH, Z.mod_small by lia. reflexivity. }
  rewrite Hsame in Hread.
  destruct (COALESCE_sqlMax ks) as (Hpos & Hmax & Hfrom).
  { eapply List.Forall_impl; [|exact Hrange]. cbv beta. intros; lia. }
  set (m := COALESCE (sqlMax ks) 0) in *.
  assert (Hm : (m <= 9998)%Z).
  { destruct Hfrom as [[_ ->]|Hin]; [lia|].
    rewrite List.Forall_forall in Hrange. apply Hrange in Hin. lia. }
  assert (Hbelow : forall k', (0 <= k' < 1000000)%Z ->
                     In (numbered p_bill_type year month k') numbers ->
                     (k' mod 10000 <= m)%Z).
  { intros k' Hk' Hin.
    destruct (Hall _ Hin (numbered_selected _ _ _ _)) as (k & Hk & Heq).
    apply (f_equal (fun n => castInteger (substring 11 6 n))) in Heq.
    rewrite List.Forall_forall in Hrange, Hmax.
    pose proof (Hrange k Hk). pose proof (Hmax k Hk).
    rewrite !(sequence_read_back _ _ _ _ Hyear Hmonth) in Heq by lia.
    injection Heq as Heq. rewrite Heq, Z.mod_small by lia. lia. }
  exists (m + 1)%Z. split.
  { unfold generate_bill_number. cbv zeta. rewrite Hread. reflexivity. }
  split; [lia|]. split.
  - intros Hin. apply Hbelow in Hin; [|lia].
    rewrite Z.mod_small in Hin by lia. lia.
  - intros k' Hk' Hin. apply Hbelow in Hin; [|lia].
    rewrite Z.mod_small in Hin by lia. lia.
Qed.

Lemma generate_bill_number_after_9999
    (p_bill_type year month : string) (numbers : list string) :
  String.length year = 4%nat -> String.length month = 2%nat ->
  issuedUpTo 10000 p_bill_type year month numbers ->
  In (numbered p_bill_type year month 9999) numbers ->
  generate_bill_number numbers p_bill_type year month
  = Some (numbered p_bill_type year month 10000).
Proof.
  intros Hyear Hmonth Hshape Hlast.
  destruct (read_sequences 10000 _ _ _ _ Hyear Hmonth ltac:(lia) Hshape)
    as (ks & Hread & Hrange & Hall).
  set (sequences := map (fun k => (k mod 10000)%Z) ks) in *.
  assert (Hbounds : List.Forall (fun s => (0 <= s <= 9999)%Z) sequences).
  { subst sequences. apply List.Forall_forall. intros s Hs.
    apply List.in_map_iff in Hs as (k & <- & _).
    pose proof (Z.mod_pos_bound k 10000 ltac:(lia)). lia. }
  assert (Hin : In 9999%Z sequences).
  { destruct (Hall _ Hlast (numbered_selected _ _ _ _)) as (k & Hk & Heq).
    apply (f_equal (fun n => castInteger (substring 11 6 n))) in Heq.
    rewrite List.Forall_forall in Hrange. pose proof (Hrange k Hk).
    rewrite !(sequence_read_back _ _ _ _ Hyear Hmonth) in Heq by lia.
    injection Heq as Heq. subst sequences. apply List.in_map_iff.
    exists k. split; [|exact Hk]. rewrite <- Heq. reflexivity. }
  destruct (COALESCE_sqlMax sequences) as (_ & Hmax & Hfrom).
  { eapply List.Forall_impl; [|exact Hbounds]. cbv beta. intros; lia. }
  assert (Hm : COALESCE (sqlMax sequences) 0 = 9999%Z).
  { rewrite List.Forall_forall in Hmax, Hbounds.
    pose proof (Hmax _ Hin).
    destruct Hfrom as [[Hnil _]|Hfrom]; [rewrite Hnil in Hin; destruct Hin|].
    pose proof (Hbounds _ Hfrom). lia. }
  unfold generate_bill_number. cbv zeta. rewrite Hread, Hm. reflexivity.
Qed.

(** X26.  The function reads the sequence from character 12, two characters
    into the six digits, so it sees 9999 at most: once 9999 has been
    issued it answers with sequence 10000, and goes on answering so when
    that number is in the table already. *)
Theorem generate_bill_number_repeats_after_9999
    (p_bill_type year month : string) (numbers : list string) :
  String.length year = 4%nat -> String.length month = 2%nat ->
  issuedUpTo 10000 p_bill_type year month numbers ->
  In (numbered p_bill_type year month 9999) numbers ->
  generate_bill_number numbers p_bill_type year month
  = Some (numbered p_bill_type year month 10000).
Proof. exact (generate_bill_number_after_9999 p_bill_type year month numbers). Qed.

End BillNumbers.


(* ===================================================================== *)
(** * Bill creation                                                        *)
(* ===================================================================== *)

Section BillCreationProperties.

Context {Prim : Type}.
Context (marshalPrim : Prim -> option string) (marshalKey : string -> string)
        (Sum256 : string -> list Byte.byte).
Context (stringLeaf : string -> Prim) (generatedAt : Prim).
Context (formatAmount : Q -> string) (profile : string -> UserProfile.t)
        (validDate : string -> bool) (year month : string).
Context (uuid_generate_v4 : list Bill.t -> string)
        (constraints : DB -> Bill.t -> bool) (pqError : string).
Context (cfg : Config).

#[local] Set Warnings "-notation-for-abbreviation".

Local Notation CreateBill :=
  (BillService.CreateBill marshalPrim marshalKey Sum256 stringLeaf generatedAt
     formatAmount profile validDate year month uuid_generate_v4 constraints
     pqError cfg).

Local Notation enriched :=
  (BillService.enrichedBillData stringLeaf generatedAt profile).

(** The two ways [CreateBill] ends: a failure with a message of twenty
    bytes or more and the store as it was, or a bill with everything that
    led to it. *)
Lemma CreateBill_cases (db : DB) (userID : string)
    (req : CreateBillRequest.t Prim) :
  (exists message,
     CreateBill db userID req = (Failed message, db)
     /\ (20 <= String.length message)%nat
     /\ (GetByID db userID = Err UserNotFound
         \/ exists user,
              GetByID db userID = Ok user
              /\ (message = "only institutions can generate bills"
                  \/ message = "KYC verification required to generate bills"
                  \/ message = errorString formatAmount
                                 (InsufficientWalletBalance
                                    (BillGenerationFee (Pricing cfg))
                                    (User.WalletBalance user))
                     /\ (User.WalletBalance user
                         < BillGenerationFee (Pricing cfg))%Q
                  \/ (exists cause : string,
                        message = ("failed to generate bill number: " ++ cause)%string)
                  \/ message = "invalid date format. Use YYYY-MM-DD"
                  \/ (exists cause : string,
                        message = ("failed to marshal bill data: " ++ cause)%string)
                  \/ (exists cause : string,
                        message = ("failed to generate hash: " ++ cause)%string)
                  \/ (exists cause : string,
                        message = ("failed to save bill: " ++ cause)%string))))
  \/ (exists user bill db',
        CreateBill db userID req = (Done bill, db')
        /\ GetByID db userID = Ok user
        /\ (User.Role user = RoleMasterAdmin
            \/ (User.Role user = RoleInstitutionUser
                \/ User.Role user = RoleInstitutionAdmin)
               /\ UserProfile.KYCStatus (profile userID) = KYCApproved)
        /\ (BillGenerationFee (Pricing cfg) <= User.WalletBalance user)%Q
        /\ BillRepository.GenerateBillNumber pqError year month db
             (CreateBillRequest.BillType req)
           = Done (Bill.BillNumber (IssuedBill.Row bill))
        /\ validDate (CreateBillRequest.IssueDate req) = true
        /\ Marshal marshalPrim marshalKey (JMap (enriched userID req))
           = Some (Bill.BillData (IssuedBill.Row bill))
        /\ GenerateBillHash marshalPrim marshalKey Sum256 (enriched userID req)
           = Ok (IssuedBill.DataHash bill)
        /\ existsb (fun b => String.eqb (Bill.BillNumber b)
                               (Bill.BillNumber (IssuedBill.Row bill)))
             (bills db) = false
        /\ Bill.IssuerID (IssuedBill.Row bill) = userID
        /\ Bill.AccessLevel (IssuedBill.Row bill)
           = CreateBillRequest.AccessLevel req
        /\ Bill.Amount (IssuedBill.Row bill) = CreateBillRequest.Amount req
        /\ Bill.IsDeleted (IssuedBill.Row bill) = false
        /\ bills db' = (bills db ++ [IssuedBill.Row bill])%list
        /\ verifications db' = verifications db
        /\ users db'
           = <[userID := {| User.Role := User.Role user;
                            User.WalletBalance :=
                              (User.WalletBalance user
                               - BillGenerationFee (Pricing cfg))%Q;
                            User.VerificationCount := User.VerificationCount user;
                            User.FreeVerificationsEarned :=
                              User.FreeVerificationsEarned user;
                            User.IsActive := User.IsActive user |}]> (users db)).
Proof.
  unfold BillService.CreateBill.
  destruct (GetByID db userID) as [user|e] eqn:Huser.
  2:{ left. eexists. split; [reflexivity|].
      assert (e = UserNotFound) as ->.
      { unfold GetByID in Huser. destruct (users db !! userID) as [u|];
          [destruct (User.IsActive u)|]; congruence. }
      split; [rewrite length_append; cbn; lia|]. left. reflexivity. }
  destruct (negb (String.eqb (User.Role user) RoleInstitutionUser)
            && negb (String.eqb (User.Role user) RoleInstitutionAdmin)
            && negb (String.eqb (User.Role user) RoleMasterAdmin)) eqn:Hrole.
  { left. eexists. split; [reflexivity|]. split; [cbn; lia|].
    right. exists user. split; [reflexivity|]. left. reflexivity. }
  destruct ((String.eqb (User.Role user) RoleInstitutionUser
             || String.eqb (User.Role user) RoleInstitutionAdmin)
            && negb (String.eqb (UserProfile.KYCStatus (profile userID))
                       KYCApproved)) eqn:Hkyc.
  { left. eexists. split; [reflexivity|]. split; [cbn; lia|].
    right. exists user. split; [reflexivity|]. right. left. reflexivity. }
  cbv zeta.
  destruct (Qltb (User.WalletBalance user) (BillGenerationFee (Pricing cfg)))
    eqn:Hfunds.
  { left. eexists. split; [reflexivity|]. split.
    - cbn [errorString]. rewrite length_append. cbn. lia.
    - right. exists user. split; [reflexivity|]. right. right. left.
      split; [reflexivity|]. apply Qltb_lt. exact Hfunds. }
  destruct (BillRepository.GenerateBillNumber pqError year month db
              (CreateBillRequest.BillType req)) as [billNumber|cause] eqn:Hnumber.
  2:{ left. eexists. split; [reflexivity|]. split.
      - rewrite length_append. cbn. lia.
      - right. exists user. split; [reflexivity|]. do 3 right. left. eauto. }
  destruct (validDate (CreateBillRequest.IssueDate req)) eqn:Hdate; cbn [negb].
  2:{ left. eexists. split; [reflexivity|]. split; [cbn; lia|].
      right. exists user. split; [reflexivity|]. do 4 right. left. reflexivity. }
  destruct (Marshal marshalPrim marshalKey (JMap (enriched userID req)))
    as [billDataJSON|] eqn:Hjson.
  2:{ left. eexists. split; [reflexivity|]. split.
      - rewrite length_append. cbn. lia.
      - right. exists user. split; [reflexivity|]. do 5 right. left. eauto. }
  destruct (GenerateBillHash marshalPrim marshalKey Sum256 (enriched userID req))
    as [dataHash|e] eqn:Hhash.
  2:{ left. eexists. split; [reflexivity|]. split.
      - rewrite length_append. cbn. lia.
      - right. exists user. split; [reflexivity|]. do 6 right. left. eauto. }
  unfold BillRepository.Create. cbn [Bill.BillNumber].
  destruct (existsb (fun b => String.eqb (Bill.BillNumber b) billNumber) (bills db))
    eqn:Hunique; cbn [orb].
  { left. eexists. split; [reflexivity|]. split.
    - rewrite length_append. cbn. lia.
    - right. exists user. split; [reflexivity|]. do 7 right. eauto. }
  destruct (constraints db _) eqn:Hconstraints; cbn [negb].
  2:{ left. eexists. split; [reflexivity|]. split.
      - rewrite length_append. cbn. lia.
      - right. exists user. split; [reflexivity|]. do 7 right. eauto. }
  cbv zeta. unfold UpdateWalletBalance. cbn [users].
  pose proof Huser as [Hrow _]%GetByID_Ok. rewrite Hrow.
  right. exists user. do 2 eexists. split; [reflexivity|].
  cbn [IssuedBill.Row IssuedBill.DataHash BillRepository.inserted
         Bill.BillNumber Bill.BillData Bill.IssuerID Bill.AccessLevel
         Bill.Amount Bill.IsDeleted with_users users bills verifications].
  split; [reflexivity|]. split.
  { apply andb_false_iff in Hkyc.
    destruct (String.eqb_spec (User.Role user) RoleMasterAdmin) as [Hm|Hm];
      [left; exact Hm|right].
    destruct (String.eqb_spec (User.Role user) RoleInstitutionUser) as [Hu|Hu];
      destruct (String.eqb_spec (User.Role user) RoleInstitutionAdmin) as [Ha|Ha];
      cbn in Hrole; try discriminate Hrole;
      (split; [tauto|]);
      (destruct Hkyc as [Hkyc|Hkyc]; [cbn in Hkyc; discriminate Hkyc|]);
      apply negb_false_iff, String.eqb_eq in Hkyc; exact Hkyc. }
  split; [apply Qltb_ge; exact Hfunds|].
  repeat (split; [first [reflexivity|assumption]|]). reflexivity.
Qed.


Lemma map_fst_mapSet {V : Type} (m : list (string * V)) (k : string) (x : V)
    (k' : string) :
  k' ∈ map fst (mapSet m k x) -> k' = k \/ k' ∈ map fst m.
Proof.
  induction m as [|[k0 y] m IH]; cbn [mapSet map fst].
  - intros [->|H]%elem_of_cons; [left; reflexivity|inversion H].
  - destruct (String.eqb_spec k0 k) as [->|Hne]; cbn [map fst].
    + intros [->|H]%elem_of_cons; [left; reflexivity|].
      right. right. exact H.
    + intros [->|H]%elem_of_cons; [right; left|].
      destruct (IH H) as [->|H']; [left; reflexivity|right; right; exact H'].
Qed.

Lemma NoDup_mapSet {V : Type} (m : list (string * V)) (k : string) (x : V) :
  NoDup (map fst m) -> NoDup (map fst (mapSet m k x)).
Proof.
  induction m as [|[k0 y] m IH]; cbn [mapSet map fst]; intros Hnd.
  - apply NoDup_singleton.
  - apply NoDup_cons in Hnd as [Hfresh Hnd].
    destruct (String.eqb_spec k0 k) as [->|Hne]; cbn [map fst].
    + apply NoDup_cons. split; assumption.
    + apply NoDup_cons. split; [|exact (IH Hnd)].
      intros [->|H]%map_fst_mapSet; [congruence|contradiction].
Qed.

Lemma Forall_mapSet {V : Type} (P : string * V -> Prop)
    (m : list (string * V)) (k : string) (x : V) :
  Forall P m -> P (k, x) -> Forall P (mapSet m k x).
Proof.
  intros Hm Hx. induction Hm as [|[k0 y] m Hy Hm IH]; cbn [mapSet].
  - constructor; [exact Hx|constructor].
  - destruct (String.eqb k0 k); constructor; assumption.
Qed.

(** The document [CreateBill] encodes is well formed when the request's
    is. *)
Lemma wellFormed_enriched (userID : string) (req : CreateBillRequest.t Prim) :
  wellFormed (JMap (CreateBillRequest.BillData req)) ->
  wellFormed (JMap (enriched userID req)).
Proof.
  intros Hwf. inversion Hwf as [| |entries Hnd Hvalues]; subst.
  unfold BillService.enrichedBillData. constructor.
  - apply NoDup_mapSet. exact Hnd.
  - apply Forall_mapSet; [exact Hvalues|]. cbn [snd]. constructor.
    + cbn [map fst]. repeat (apply NoDup_cons; split;
        [let H := fresh in
         intros H;
         repeat (apply elem_of_cons in H as [H|H]; [discriminate H|]);
         inversion H|]).
      apply NoDup_nil_2.
    + repeat constructor.
Qed.

(** X28.  The hash [CreateBill] hands out is the digest, in lower-case
    hexadecimal, of the very bytes it stores as the bill's data, whenever
    the request's document is well formed. *)
Theorem CreateBill_hash_is_the_digest_of_the_stored_data
    (db db' : DB) (userID : string) (req : CreateBillRequest.t Prim)
    (bill : IssuedBill.t) :
  wellFormed (JMap (CreateBillRequest.BillData req)) ->
  CreateBill db userID req = (Done bill, db') ->
  IssuedBill.DataHash bill
  = EncodeToString (Sum256 (Bill.BillData (IssuedBill.Row bill))).
Proof.
  intros Hwf Hrun.
  destruct (CreateBill_cases db userID req)
    as [(message & Hfail & _)
       |(user & bill0 & db0 & Hdone & _ & _ & _ & _ & _ & Hjson & Hhash & _)];
    [congruence|].
  rewrite Hdone in Hrun. injection Hrun as -> ->.
  unfold GenerateBillHash in Hhash. cbv zeta in Hhash.
  rewrite (Marshal_normalizeJSON marshalPrim marshalKey _
             (wellFormed_enriched userID req Hwf)), Hjson in Hhash.
  injection Hhash as <-. reflexivity.
Qed.

Lemma find_append {A : Type} (f : A -> bool) (l l' : list A) :
  find f (l ++ l')
  = match find f l with
    | Some a => Some a
    | None => find f l'
    end.
Proof.
  induction l as [|a l IH]; [reflexivity|].
  cbn [app find]. destruct (f a); [reflexivity|exact IH].
Qed.

(** X30.  Once the sequences 9999 and 10000 of a type are in the table for
    the month, every [CreateBill] of that type in that month fails and
    leaves the store as it was: the number generated is the one of 10000
    again, and the insert refuses it. *)
Theorem CreateBill_fails_once_the_sequence_is_exhausted
    (db : DB) (userID : string) (req : CreateBillRequest.t Prim) :
  String.length year = 4%nat -> String.length month = 2%nat ->
  let numbers := map Bill.BillNumber (bills db) in
  let billType := CreateBillRequest.BillType req in
  BillNumber.issuedUpTo 10000 billType year month numbers ->
  In (BillNumber.numbered billType year month 9999) numbers ->
  In (BillNumber.numbered billType year month 10000) numbers ->
  exists message, CreateBill db userID req = (Failed message, db).
Proof.
  intros Hyear Hmonth numbers billType Hshape Hlast Hnext.
  destruct (CreateBill_cases db userID req)
    as [(message & Hfail & _)
       |(user & bill & db' & _ & _ & _ & _ & Hnumber & _ & _ & _ & Hunique & _)];
    [eauto|].
  exfalso. unfold BillRepository.GenerateBillNumber in Hnumber.
  destruct (negb (BillNumber.isBillType _)); [discriminate Hnumber|].
  fold numbers billType in Hnumber.
  rewrite (generate_bill_number_after_9999 billType year month numbers
             Hyear Hmonth Hshape Hlast) in Hnumber.
  injection Hnumber as Hnumber.
  subst numbers. apply List.in_map_iff in Hnext as (b & Hb & Hin).
  assert (Hex : existsb (fun b => String.eqb (Bill.BillNumber b)
                                    (Bill.BillNumber (IssuedBill.Row bill)))
                  (bills db) = true).
  { apply List.existsb_exists. exists b. split; [exact Hin|].
    apply String.eqb_eq. congruence. }
  congruence.
Qed.

Section Decoded.

Context {Payload : Type} (Unmarshal : string -> option Payload).

(** X29.  A bill just created is found under the number [CreateBill]
    returned: the lookup gives a live row that carries that number, the
    issuer and the tier asked for, and an anonymous verification answers
    for that row and leaves the store as it is. *)
Theorem created_bill_is_found_by_its_number
    (db db' : DB) (userID : string) (req : CreateBillRequest.t Prim)
    (bill : IssuedBill.t) (ip userAgent : string) (userRole : UserRole)
    (elapsed : Z) :
  CreateBill db userID req = (Done bill, db') ->
  let number := Bill.BillNumber (IssuedBill.Row bill) in
  exists stored,
    GetByBillNumber db' number = Ok stored
    /\ Bill.BillNumber stored = number
    /\ Bill.IssuerID stored = userID
    /\ Bill.AccessLevel stored = CreateBillRequest.AccessLevel req
    /\ Bill.IsDeleted stored = false
    /\ exists fee,
         VerifyBill Unmarshal cfg db' None number ip userAgent userRole elapsed
         = (Ok (foundResponse Unmarshal stored userRole fee), db').
Proof.
  intros Hrun number. subst number.
  destruct (CreateBill_cases db userID req)
    as [(message & Hfail & _)
       |(user & bill0 & db0 & Hdone & _ & _ & _ & _ & _ & _ & _
         & Hunique & Hissuer & Htier & Hamount & Hlive & Hbills & _)];
    [congruence|].
  rewrite Hdone in Hrun. injection Hrun as -> ->.
  set (row := IssuedBill.Row bill) in *.
  assert (Hfound : GetByBillNumber db' (Bill.BillNumber row) = Ok row).
  { unfold GetByBillNumber. rewrite Hbills, find_append.
    assert (Hnone : find (fun b => String.eqb (Bill.BillNumber b)
                                     (Bill.BillNumber row)
                                   && negb (Bill.IsDeleted b)) (bills db)
                    = None).
    { apply find_all_false. intros b Hb.
      destruct (String.eqb (Bill.BillNumber b) (Bill.BillNumber row)) eqn:Heq;
        [|reflexivity].
      exfalso.
      assert (Hex : existsb (fun b => String.eqb (Bill.BillNumber b)
                                        (Bill.BillNumber row)) (bills db)
                    = true)
        by (apply List.existsb_exists; exists b; split; assumption).
      congruence. }
    rewrite Hnone. cbn [find]. rewrite String.eqb_refl, Hlive. reflexivity. }
  exists row. split; [exact Hfound|]. split; [reflexivity|].
  split; [exact Hissuer|]. split; [exact Htier|]. split; [exact Hlive|].
  eexists.
  rewrite (VerifyBill_found Unmarshal cfg db' None (Bill.BillNumber row) ip
             userAgent userRole elapsed row Hfound).
  reflexivity.
Qed.

(** X6.  The bill handler never answers 402 Payment Required and never
    panics: a rejected binding is answered 400, a created bill 201, the two
    permission failures 403, and every other failure of the service, the
    insufficient balance included, 500 with the fixed text "Failed to
    generate bill". *)
Theorem BillHandler_CreateBill_never_answers_402
    (db : DB) (userID : string) (request : CreateBillRequest.t Prim + string) :
  match fst (BillHandler.CreateBill marshalPrim marshalKey Sum256 stringLeaf
               generatedAt formatAmount profile validDate year month
               uuid_generate_v4 constraints pqError cfg Unmarshal db userID
               request) with
  | Responded code body =>
      code <> StatusPaymentRequired
      /\ match body with
         | SuccessBody _ => code = StatusCreated
         | ValidationBody _ => code = StatusBadRequest
         | ErrorBody message =>
             code = StatusForbidden
             \/ code = StatusInternalServerError
                /\ message = "Failed to generate bill"
         end
  | Panicked => False
  end.
Proof.
  unfold BillHandler.CreateBill.
  destruct request as [req|bindError];
    [|cbn; split; [discriminate|reflexivity]].
  destruct (CreateBill_cases db userID req)
    as [(message & -> & Hlen & _)|(user & bill & db' & -> & _)];
    [|cbn; split; [discriminate|reflexivity]].
  destruct (String.eqb message "only institutions can generate bills");
    [cbn; split; [discriminate|left; reflexivity]|].
  destruct (String.eqb message "KYC verification required to generate bills");
    [cbn; split; [discriminate|left; reflexivity]|].
  pose proof (isInsufficientWallet_never_true message) as Hnever.
  destruct (isInsufficientWallet message) as [[|]|] eqn:Htest; [congruence| |].
  - cbn. split; [discriminate|]. right. split; reflexivity.
  - unfold isInsufficientWallet in Htest.
    destruct (slicePrefix_Some 20 message Hlen) as [p Hp].
    rewrite Hp in Htest. discriminate Htest.
Qed.

End Decoded.

End BillCreationProperties.


(* ===================================================================== *)
(** * Wallets across requests                                              *)
(* ===================================================================== *)

Lemma solvent_insert (db db' : DB) (userID : string) (user : User.t) :
  solvent db ->
  users db' = <[userID := user]> (users db) ->
  (0 <= User.WalletBalance user)%Q ->
  solvent db'.
Proof.
  intros Hdb Husers Hbalance id u. rewrite Husers.
  destruct (decide (userID = id)) as [->|Hne].
  - rewrite lookup_insert_eq. intros [= <-]. exact Hbalance.
  - rewrite lookup_insert_ne by exact Hne. apply Hdb.
Qed.

Lemma solvent_users (db db' : DB) :
  users db' = users db -> solvent db -> solvent db'.
Proof. intros Husers Hdb id u. rewrite Husers. apply Hdb. Qed.

Lemma Qminus_nonneg (balance fee : Q) :
  (fee <= balance)%Q -> (0 <= balance - fee)%Q.
Proof.
  intros H. apply (Qplus_le_l _ _ fee). ring_simplify. exact H.
Qed.

Section WalletInvariant.

Context {Prim Payload : Type}.
Context (marshalPrim : Prim -> option string) (marshalKey : string -> string)
        (Sum256 : string -> list Byte.byte).
Context (stringLeaf : string -> Prim) (generatedAt : Prim).
Context (formatAmount : Q -> string) (profile : string -> UserProfile.t)
        (validDate : string -> bool) (year month : string).
Context (uuid_generate_v4 : list Bill.t -> string)
        (constraints : DB -> Bill.t -> bool) (pqError : string).
Context (cfg : Config) (Unmarshal : string -> option Payload).
Context (requiredError gtError : string).

Lemma VerifyBill_solvent (db : DB) (userID : option string)
    (billNumber ip userAgent : string) (userRole : UserRole) (elapsed : Z) :
  solvent db ->
  solvent (snd (VerifyBill Unmarshal cfg db userID billNumber ip userAgent
                  userRole elapsed)).
Proof.
  intros Hdb.
  destruct (GetByBillNumber db billNumber) as [bill|e] eqn:Hbill.
  - rewrite (VerifyBill_found Unmarshal cfg db userID billNumber ip userAgent
               userRole elapsed bill Hbill).
    cbv zeta. destruct userID as [id|]; [|exact Hdb].
    destruct (negb _).
    + destruct (settle db id _) as [db1|e] eqn:Hs; [|exact Hdb].
      cbn [snd]. apply (solvent_users db1); [reflexivity|].
      destruct (settle_Ok_user _ _ _ _ Hs) as [u Hu].
      rewrite (settle_spec _ _ _ _ Hu) in Hs.
      destruct (Qltb (User.WalletBalance u) _) eqn:Hfunds; [discriminate Hs|].
      injection Hs as <-.
      eapply (solvent_insert db); [exact Hdb|reflexivity|].
      cbn [settledUser User.WalletBalance]. apply Qminus_nonneg.
      apply Qltb_ge. exact Hfunds.
    + cbn [snd]. apply (solvent_users db); [reflexivity|exact Hdb].
  - rewrite (VerifyBill_miss Unmarshal cfg db userID billNumber ip userAgent
               userRole elapsed e Hbill).
    destruct userID; [|exact Hdb].
    cbn [snd]. apply (solvent_users db); [reflexivity|exact Hdb].
Qed.

Lemma serveWallet_solvent (db : DB) (r : walletRequest Prim) :
  solvent db ->
  solvent (serveWallet marshalPrim marshalKey Sum256 stringLeaf generatedAt
             formatAmount profile validDate year month uuid_generate_v4
             constraints pqError cfg Unmarshal requiredError gtError db r).
Proof.
  intros Hdb. destruct r as [ctxUserID ctxRole request ip userAgent elapsed
                            |userID request|userID request]; cbn [serveWallet].
  - unfold VerificationHandler.VerifyBill.
    destruct request as [[|c billNumber]|bindError]; try exact Hdb.
    cbv zeta.
    pose proof (VerifyBill_solvent db ctxUserID (String c billNumber) ip
                  userAgent
                  match ctxUserID, ctxRole with
                  | Some _, Some role => role
                  | _, _ => RolePublic
                  end elapsed Hdb) as Hrun.
    destruct (VerifyBill Unmarshal cfg db ctxUserID (String c billNumber) ip
                userAgent _ elapsed) as [[result|err] db']; cbn [snd] in Hrun.
    + exact Hrun.
    + destruct (isInsufficientWallet _) as [[|]|]; exact Hrun.
  - unfold AuthHandler.TopupWallet.
    destruct request as [amount|bindError]; [|exact Hdb].
    destruct (Qle_bool amount 0) eqn:Hamount; [exact Hdb|].
    destruct (GetByID db userID) as [user|e] eqn:Huser; [|exact Hdb].
    pose proof Huser as [Hrow _]%GetByID_Ok.
    unfold UpdateWalletBalance. rewrite Hrow. cbn [snd].
    eapply (solvent_insert db); [exact Hdb|reflexivity|].
    cbn [User.WalletBalance].
    assert (Hpos : (0 < amount)%Q).
    { apply Qnot_le_lt. intros Hle. apply Qle_bool_iff in Hle. congruence. }
    pose proof (Hdb _ _ Hrow) as Hbalance.
    apply Qlt_le_weak in Hpos.
    pose proof (Qplus_le_compat _ _ _ _ Hbalance Hpos) as Hsum.
    rewrite Qplus_0_l in Hsum. exact Hsum.
  - unfold BillHandler.CreateBill.
    destruct request as [req|bindError]; [|exact Hdb].
    destruct (CreateBill_cases marshalPrim marshalKey Sum256 stringLeaf
                generatedAt formatAmount profile validDate year month
                uuid_generate_v4 constraints pqError cfg db userID req)
      as [(message & -> & _)
         |(user & bill & db' & -> & _ & _ & Hfunds & _ & _ & _ & _ & _ & _ & _
           & _ & _ & _ & _ & Husers)].
    + destruct (String.eqb message _); [exact Hdb|].
      destruct (String.eqb message _); [exact Hdb|].
      destruct (isInsufficientWallet message) as [[|]|]; exact Hdb.
    + cbn [snd]. apply (solvent_insert db db' _ _ Hdb Husers).
      cbn [User.WalletBalance]. apply Qminus_nonneg. exact Hfunds.
Qed.

(** X20.  No sequence of requests to the three endpoints that write a
    wallet (verifying a bill, topping up, creating a bill) takes a wallet
    below zero: a store whose balances are all at zero or above stays
    so. *)
Theorem wallets_never_go_below_zero
    (db : DB) (requests : list (walletRequest Prim)) :
  solvent db ->
  solvent (serveWalletAll marshalPrim marshalKey Sum256 stringLeaf generatedAt
             formatAmount profile validDate year month uuid_generate_v4
             constraints pqError cfg Unmarshal requiredError gtError db
             requests).
Proof.
  unfold serveWalletAll. revert db.
  induction requests as [|r requests IH]; intros db Hdb; [exact Hdb|].
  cbn [fold_left]. apply IH. apply serveWallet_solvent. exact Hdb.
Qed.

End WalletInvariant.


(* ===================================================================== *)
(** * Instances on the fixtures                                            *)
(* ===================================================================== *)

Lemma settle64_stores_the_rounded_difference_witness :
  let db' := snd (IncrementVerificationCount
                    (with_users sampleDB
                       (<["bob" := mkUser RolePublic (75 # 100) 0 0]>
                          (users sampleDB))) "bob") in
  settle64 sampleDB "bob" (ParseFloat (5 # 4)) = Settled db'
  /\ exists user hundredths,
       GetByID sampleDB "bob" = Ok user
       /\ (ParseFloat (User.WalletBalance user) <? ParseFloat (5 # 4))%float
          = false
       /\ toNumeric 10
            (ParseFloat (User.WalletBalance user) - ParseFloat (5 # 4))%float
          = Some (hundredths # 100)
       /\ (0 <= hundredths < 10 ^ 10)%Z
       /\ balanceOf db' "bob" = hundredths # 100
       /\ verificationCountOf db' "bob"
          = Some (User.VerificationCount user + 1)%Z
       /\ (forall other, other <> "bob" ->
             users db' !! other = users sampleDB !! other)
       /\ bills db' = bills sampleDB
       /\ verifications db' = verifications sampleDB.
Proof.
  intros db'.
  assert (Hrun : settle64 sampleDB "bob" (ParseFloat (5 # 4)) = Settled db')
    by (vm_compute; reflexivity).
  split; [exact Hrun|].
  exact (settle64_stores_the_rounded_difference sampleDB db' "bob"
           (ParseFloat (5 # 4)) Hrun).
Defined.

Lemma VerifyBill_miss_charges_nothing_witness :
  exists db',
    VerifyBill textPayload defaultConfig sampleDB (Some "alice") "EPR-XX-0000"
      "10.0.0.1" "curl" RolePublic 3
    = (Ok (notFoundResponse defaultConfig "EPR-XX-0000"), db')
    /\ VerifyBillResponse.Fee
         (notFoundResponse (Payload := string) defaultConfig "EPR-XX-0000")
       = VerificationMinFee (Pricing defaultConfig)
    /\ users db' = users sampleDB
    /\ bills db' = bills sampleDB
    /\ (verifications db' = verifications sampleDB
        \/ exists row,
             verifications db' = (verifications sampleDB ++ [row])%list
             /\ Verification.VerifierID row = Some "alice"
             /\ Verification.BillID row = None
             /\ Verification.VerificationStatus row = VerificationNotFound
             /\ Verification.WasFree row = false).
Proof.
  apply (VerifyBill_miss_charges_nothing textPayload defaultConfig
           sampleDB "alice" "EPR-XX-0000" "10.0.0.1" "curl" RolePublic 3
           BillNotFound).
  reflexivity.
Defined.

Lemma VerifyBill_unknown_requester_fails_witness :
  VerifyBill textPayload defaultConfig sampleDB (Some "mallory")
    "EPR-SI-2024-01-0001" "10.0.0.1" "curl" RolePublic 3
  = (Err (FailedToGetUser UserNotFound), sampleDB).
Proof.
  apply (VerifyBill_unknown_requester_fails textPayload defaultConfig sampleDB
           "mallory" "EPR-SI-2024-01-0001" "10.0.0.1" "curl" RolePublic 3
           publicBill UserNotFound).
  - reflexivity.
  - vm_compute. reflexivity.
Defined.

Lemma VerifyBill_discloses_by_role_and_tier_witness :
  let response := foundResponse textPayload governmentBill RolePublic 10 in
  VerifyBillResponse.Details response = NoDetails
  /\ VerifyBillResponse.Status response = "restricted".
Proof.
  intros response.
  destruct (VerifyBill_discloses_by_role_and_tier textPayload defaultConfig
              sampleDB sampleDB None "EPR-SI-2024-01-0002" "10.0.0.1" "curl"
              RolePublic 3 governmentBill response)
    as (_ & Hgovernment & _).
  - reflexivity.
  - vm_compute. reflexivity.
  - apply Hgovernment; [left; reflexivity|discriminate|discriminate].
Defined.

Lemma banked_credit_waives_every_later_call_witness :
  let calls := [verifyAs (Some "carol") "EPR-SI-2024-01-0001" RolePublic;
                verifyAs (Some "alice") "EPR-SI-2024-01-0001" RolePublic;
                verifyAs (Some "carol") "EPR-SI-2024-01-0002" RolePublic] in
  let run := serveAll textPayload defaultConfig sampleDB calls in
  users (snd run) !! "carol" = users sampleDB !! "carol"
  /\ bills (snd run) = bills sampleDB
  /\ Forall2
       (fun c r =>
          callUserID c = Some "carol" ->
          match GetByBillNumber sampleDB (callBillNumber c) with
          | Ok bill => r = Ok (foundResponse textPayload bill (callRole c) 0)
          | Err _ => r = Ok (notFoundResponse defaultConfig (callBillNumber c))
          end)
       calls (fst run).
Proof.
  intros calls.
  apply (banked_credit_waives_every_later_call textPayload defaultConfig
           "carol" calls sampleDB).
  vm_compute. reflexivity.
Defined.

Lemma statistics_never_count_an_invalid_verification_witness :
  let stats := VerificationService.GetVerificationStats auditedDB "alice" in
  VerificationRepository.InvalidCount stats = 0%Z
  /\ VerificationRepository.TotalVerifications stats
     = (VerificationRepository.ValidCount stats
        + VerificationRepository.RestrictedCount stats
        + VerificationRepository.countStatus
            (VerificationRepository.rowsOf auditedDB "alice") "not_found")%Z
  /\ (0 <= VerificationRepository.SuccessRate stats <= 100)%Q.
Proof.
  apply (statistics_never_count_an_invalid_verification textPayload
           defaultConfig sampleDB sampleCalls "alice").
  constructor.
Defined.

Lemma history_pages_cover_every_row_once_witness :
  historyPages auditedDB "alice" 1
    (Z.to_nat ((VerificationRepository.CountByVerifier auditedDB "alice" + 1 - 1)
               / 1))
  = map (VerificationService.historyEntry auditedDB)
        (rev (VerificationRepository.rowsOf auditedDB "alice")).
Proof.
  apply (history_pages_cover_every_row_once auditedDB "alice" 1).
  - lia.
  - vm_compute. reflexivity.
Defined.

Lemma history_handler_pagination_witness :
  exists body,
    VerificationHandler.GetVerificationHistory auditedDB "alice" 2 1
    = Responded StatusOK (SuccessBody body)
    /\ pageNumber body = 2%Z
    /\ pageTotal body = 2%Z
    /\ List.length (pageRows body) = 1%nat.
Proof.
  destruct (history_handler_pagination auditedDB "alice" 2 1)
    as (body & Hrun & Hpage & _ & _ & _ & Htotal & Hrows & _).
  - vm_compute. reflexivity.
  - vm_compute. reflexivity.
  - exists body. split; [exact Hrun|]. split; [exact Hpage|].
    split; [rewrite Htotal; vm_compute; reflexivity|].
    rewrite Hrows. vm_compute. reflexivity.
Defined.

Lemma GetBillByNumber_discloses_what_VerifyBill_withholds_witness :
  let response := foundResponse textPayload governmentBill RolePublic 10 in
  VerifyBillResponse.Details response = NoDetails
  /\ exists disclosed,
       BillHandler.GetBillByNumber textPayload sampleDB "EPR-SI-2024-01-0002"
       = Responded StatusOK (SuccessBody disclosed)
       /\ BillResponse.BillData disclosed = Some (Bill.BillData governmentBill).
Proof.
  intros response.
  apply (GetBillByNumber_discloses_what_VerifyBill_withholds textPayload
           defaultConfig sampleDB sampleDB None "EPR-SI-2024-01-0002"
           "10.0.0.1" "curl" RolePublic 3 governmentBill
           (Bill.BillData governmentBill) response).
  - reflexivity.
  - left. reflexivity.
  - discriminate.
  - discriminate.
  - reflexivity.
  - vm_compute. reflexivity.
Defined.

Lemma DeleteBill_hides_the_bill_witness :
  exists bill,
    BillRepository.GetByID sampleDB "bill-1" = Done bill
    /\ Bill.IssuerID bill = "inst-1"
    /\ BillRepository.GetByID sampleDBWithoutPublicBill "bill-1"
       = Failed "bill not found"
    /\ (forall reason',
          BillService.DeleteBill sampleDBWithoutPublicBill "inst-1" "bill-1"
            reason'
          = Failed "bill not found")
    /\ (forall other, other <> "bill-1" ->
          BillRepository.GetByID sampleDBWithoutPublicBill other
          = BillRepository.GetByID sampleDB other)
    /\ (NoDup (map Bill.BillNumber (bills sampleDB)) ->
        GetByBillNumber sampleDBWithoutPublicBill (Bill.BillNumber bill)
        = Err BillNotFound)
    /\ users sampleDBWithoutPublicBill = users sampleDB
    /\ verifications sampleDBWithoutPublicBill = verifications sampleDB.
Proof.
  apply (DeleteBill_hides_the_bill sampleDB sampleDBWithoutPublicBill "inst-1"
           "bill-1" "issued twice").
  reflexivity.
Defined.

Lemma invoiceDoc_wellFormed : wellFormed (JMap invoiceDoc).
Proof.
  assert (Hkeys : forall keys : list string,
                    bool_decide (NoDup keys) = true -> NoDup keys)
    by (intros keys H; apply bool_decide_eq_true in H; exact H).
  apply wellFormed_map; [apply Hkeys; vm_compute; reflexivity|].
  repeat apply List.Forall_cons; try apply List.Forall_nil; cbn [snd].
  - apply wellFormed_prim.
  - apply wellFormed_array.
    apply List.Forall_cons; [|apply List.Forall_nil].
    apply wellFormed_map; [apply Hkeys; vm_compute; reflexivity|].
    repeat apply List.Forall_cons; try apply List.Forall_nil;
      apply wellFormed_prim.
  - apply wellFormed_prim.
Qed.

Lemma normalizeJSON_keeps_the_document_witness :
  tree_eq (JMap invoiceDoc) (normalizeJSON (JMap invoiceDoc)).
Proof.
  apply (normalizeJSON_keeps_the_document (JMap invoiceDoc)).
  exact invoiceDoc_wellFormed.
Defined.

Lemma normalizeJSON_idempotent_witness :
  normalizeJSON (normalizeJSON (JMap invoiceDoc)) = normalizeJSON (JMap invoiceDoc).
Proof.
  apply (normalizeJSON_idempotent (JMap invoiceDoc)).
  exact invoiceDoc_wellFormed.
Defined.

Lemma GenerateBillHash_is_the_digest_of_the_plain_encoding_witness :
  GenerateBillHash quotedLeaf quoted bytesOf invoiceDoc
  = match Marshal quotedLeaf quoted (JMap invoiceDoc) with
    | None => Err EncodingError
    | Some jsonBytes => Ok (EncodeToString (bytesOf jsonBytes))
    end.
Proof.
  apply (GenerateBillHash_is_the_digest_of_the_plain_encoding quotedLeaf quoted
           bytesOf invoiceDoc).
  exact invoiceDoc_wellFormed.
Defined.

Lemma VerifyBillHash_accepts_only_lower_case_hex_witness :
  exists jsonBytes,
    Marshal quotedLeaf quoted (normalizeJSON (JMap invoiceDoc)) = Some jsonBytes
    /\ invoiceHash = EncodeToString (bytesOf jsonBytes)
    /\ String.length invoiceHash = (2 * List.length (bytesOf jsonBytes))%nat
    /\ forallb isLowerHex (list_ascii_of_string invoiceHash) = true.
Proof.
  apply (VerifyBillHash_accepts_only_lower_case_hex quotedLeaf quoted bytesOf
           invoiceDoc invoiceHash).
  vm_compute. reflexivity.
Defined.

Lemma generate_bill_number_is_fresh_below_9999_witness :
  let numbers := ["INV202501000001"; "SAL202501000007"; "INV202501000002"] in
  exists k,
    BillNumber.generate_bill_number numbers "sales_invoice" "2025" "01"
    = Some (BillNumber.numbered "sales_invoice" "2025" "01" k)
    /\ (1 <= k <= 9999)%Z
    /\ ~ In (BillNumber.numbered "sales_invoice" "2025" "01" k) numbers
    /\ (forall k', (1 <= k' <= 9998)%Z ->
                   In (BillNumber.numbered "sales_invoice" "2025" "01" k') numbers ->
                   (k' < k)%Z).
Proof.
  intros numbers.
  apply (generate_bill_number_is_fresh_below_9999 "sales_invoice" "2025" "01"
           numbers).
  - reflexivity.
  - reflexivity.
  - intros bill_number [<-|[<-|[<-|[]]]] Hselected.
    + exists 1%Z. split; [lia|vm_compute; reflexivity].
    + vm_compute in Hselected. discriminate Hselected.
    + exists 2%Z. split; [lia|vm_compute; reflexivity].
Defined.

Lemma exhaustedDB_issued :
  BillNumber.issuedUpTo 10000 "sales_invoice" "2025" "01"
    (map Bill.BillNumber (bills exhaustedDB)).
Proof.
  intros bill_number [<-|[<-|[]]] _.
  - exists 9999%Z. split; [lia|vm_compute; reflexivity].
  - exists 10000%Z. split; [lia|vm_compute; reflexivity].
Qed.

Lemma generate_bill_number_repeats_after_9999_witness :
  BillNumber.generate_bill_number (map Bill.BillNumber (bills exhaustedDB))
    "sales_invoice" "2025" "01"
  = Some "INV202501010000".
Proof.
  apply (generate_bill_number_repeats_after_9999 "sales_invoice" "2025" "01"
           (map Bill.BillNumber (bills exhaustedDB))).
  - reflexivity.
  - reflexivity.
  - exact exhaustedDB_issued.
  - left. vm_compute. reflexivity.
Defined.

Lemma issueInvoice_sampleDB :
  issueInvoice sampleDB = (Done (issuedInvoice sampleDB), snd (issueInvoice sampleDB)).
Proof. vm_compute. reflexivity. Qed.

Lemma CreateBill_hash_is_the_digest_of_the_stored_data_witness :
  Bill.BillNumber (IssuedBill.Row (issuedInvoice sampleDB)) = "INV202501000001"
  /\ IssuedBill.DataHash (issuedInvoice sampleDB)
     = EncodeToString
         (bytesOf (Bill.BillData (IssuedBill.Row (issuedInvoice sampleDB)))).
Proof.
  split; [vm_compute; reflexivity|].
  apply (CreateBill_hash_is_the_digest_of_the_stored_data quotedLeaf quoted
           bytesOf (fun s => s) "2025-01-15T10:00:00Z" plainAmount
           approvedProfile tenCharacters "2025" "01" thirdID
           noFurtherConstraint "pq: error" defaultConfig sampleDB
           (snd (issueInvoice sampleDB)) "inst-1" invoiceRequest
           (issuedInvoice sampleDB)).
  - exact invoiceDoc_wellFormed.
  - exact issueInvoice_sampleDB.
Defined.

Lemma created_bill_is_found_by_its_number_witness :
  let number := Bill.BillNumber (IssuedBill.Row (issuedInvoice sampleDB)) in
  let db' := snd (issueInvoice sampleDB) in
  exists stored,
    GetByBillNumber db' number = Ok stored
    /\ Bill.BillNumber stored = number
    /\ Bill.IssuerID stored = "inst-1"
    /\ Bill.AccessLevel stored = CreateBillRequest.AccessLevel invoiceRequest
    /\ Bill.IsDeleted stored = false
    /\ exists fee,
         VerifyBill textPayload defaultConfig db' None number
           "10.0.0.1" "curl" RolePublic 3
         = (Ok (foundResponse textPayload stored RolePublic fee), db').
Proof.
  intros number db'.
  apply (created_bill_is_found_by_its_number quotedLeaf quoted bytesOf
           (fun s => s) "2025-01-15T10:00:00Z" plainAmount approvedProfile
           tenCharacters "2025" "01" thirdID noFurtherConstraint "pq: error"
           defaultConfig textPayload sampleDB db' "inst-1" invoiceRequest
           (issuedInvoice sampleDB) "10.0.0.1" "curl" RolePublic 3).
  exact issueInvoice_sampleDB.
Defined.

Lemma CreateBill_fails_once_the_sequence_is_exhausted_witness :
  exists message, issueInvoice exhaustedDB = (Failed message, exhaustedDB).
Proof.
  apply (CreateBill_fails_once_the_sequence_is_exhausted quotedLeaf quoted
           bytesOf (fun s => s) "2025-01-15T10:00:00Z" plainAmount
           approvedProfile tenCharacters "2025" "01" thirdID
           noFurtherConstraint "pq: error" defaultConfig exhaustedDB "inst-1"
           invoiceRequest).
  - reflexivity.
  - reflexivity.
  - exact exhaustedDB_issued.
  - left. vm_compute. reflexivity.
  - right. left. vm_compute. reflexivity.
Defined.

Lemma sampleDB_solvent : solvent sampleDB.
Proof.
  intros userID user. unfold sampleDB. cbn [users].
  repeat (rewrite lookup_insert_Some;
          intros [[_ <-]|[_ H]]; [vm_compute; discriminate|revert H]).
  rewrite lookup_empty. discriminate.
Qed.

Lemma wallets_never_go_below_zero_witness :
  solvent
    (serveWalletAll quotedLeaf quoted bytesOf (fun s => s)
       "2025-01-15T10:00:00Z" plainAmount approvedProfile tenCharacters
       "2025" "01" thirdID noFurtherConstraint "pq: error" defaultConfig
       textPayload "bill_number is required" "amount must be above zero"
       sampleDB
       [PostBill "inst-1" (inl invoiceRequest);
        PostVerify (Some "bob") (Some RolePublic) (inl "INV202501000001")
          "10.0.0.1" "curl" 3;
        PostTopup "bob" (inl 5%Q);
        PostVerify (Some "bob") (Some RolePublic) (inl "EPR-SI-2024-01-0002")
          "10.0.0.1" "curl" 3]).
Proof.
  apply (wallets_never_go_below_zero quotedLeaf quoted bytesOf (fun s => s)
           "2025-01-15T10:00:00Z" plainAmount approvedProfile tenCharacters
           "2025" "01" thirdID noFurtherConstraint "pq: error" defaultConfig
           textPayload "bill_number is required" "amount must be above zero"
           sampleDB).
  exact sampleDB_solvent.
Defined.

Lemma GetBill_payload_only_for_issuer_or_admin_witness :
  BillHandler.GetBill textPayload sampleDB "alice" RolePublic "bill-1"
  = Responded StatusOK
      (SuccessBody
         (BillService.ConvertToResponse textPayload publicBill "limited"))
  /\ BillResponse.BillData
       (BillService.ConvertToResponse textPayload publicBill "limited")
     = None.
Proof.
  destruct (GetBill_payload_only_for_issuer_or_admin textPayload sampleDB
              "alice" RolePublic "bill-1" publicBill)
    as (Hanswer & Hdata & _).
  - reflexivity.
  - split; [exact Hanswer|exact Hdata].
Defined.
